(** * esp32c3 data logger: the sampling / aggregation / storage / upload pipeline

    A shallow embedding of the FreeRTOS tasks of [esp32c3_data_logger]
    (SensorTask.cpp, AggregationTask.cpp, LoggingTask.cpp, CloudTask.cpp,
    TimeSync.cpp, DS1308Sensor.h, RawReading.h, Config.h) together with the
    properties the specification states about them.

    Conventions.
    - [float] of the C++ code is IEEE-754 binary32, modelled with the
      Standard Library's [spec_float] at precision 24 and emax 128.
    - [uint16_t] and [uint32_t] are [Z] with the wrap-around written out.
    - [time_t] is [Z] (seconds since 1970-01-01 UTC).
    - a FreeRTOS queue is the list of its items, head first, with its
      capacity; a zero-timeout send on a full queue fails and leaves the
      queue as it was. *)

From Stdlib Require Import ZArith List String Ascii Bool Lia.
From Stdlib Require Import Floats.SpecFloat.
Import ListNotations.

Local Open Scope Z_scope.

(** ** Config.h *)

Definition RAW_READING_QUEUE_SIZE : nat := 60.
Definition AGGREGATED_DATA_QUEUE_SIZE : nat := 10.

(** ** binary32 arithmetic as the compiled code performs it *)

Module F32.

Definition float := spec_float.

Definition prec : Z := 24.
Definition emax : Z := 128.

Definition NAN : float := S754_nan.
Definition INFINITY : float := S754_infinity false.
Definition NEG_INFINITY : float := S754_infinity true.
Definition zero : float := S754_zero false.

Definition isnan (x : float) : bool :=
    match x with S754_nan => true | _ => false end.

Definition isinf (x : float) : bool :=
    match x with S754_infinity _ => true | _ => false end.

Definition add (x y : float) : float := SFadd prec emax x y.
Definition div (x y : float) : float := SFdiv prec emax x y.

  (** [x < y], [x > y], [x <= y] of C: false as soon as one side is NaN. *)
Definition lt (x y : float) : bool := SFltb x y.
Definition gt (x y : float) : bool := SFltb y x.
Definition le (x y : float) : bool := SFleb x y.

  (** Conversion of an unsigned integer to float, round to nearest even. *)
Definition of_uint (n : Z) : float := binary_normalize prec emax n 0 false.

  (** A float literal given by an integer, e.g. [20.0]. *)
Definition of_Z (n : Z) : float := binary_normalize prec emax n 0 false.

End F32.

Definition float : Type := F32.float.

(** ** RawReading.h *)

Definition time_t := Z.

Record RawReading := mkRawReading {
  timestamp : time_t;
  ds18b20_temp : float;
  sht40_temp : float;
  sht40_humidity : float;
  sen0193_moisture_raw : float
}.

(** The default constructor: invalid timestamp, every channel NaN. *)
Definition RawReading_new : RawReading :=
  mkRawReading 0 F32.NAN F32.NAN F32.NAN F32.NAN.

Record AggregatedData := mkAggregatedData {
  start_timestamp : time_t;
  end_timestamp : time_t;
  sample_count : Z;               (* uint16_t *)
  ds18b20_avg : float;
  ds18b20_min : float;
  ds18b20_max : float;
  sht40_temp_avg : float;
  sht40_temp_min : float;
  sht40_temp_max : float;
  sht40_hum_avg : float;
  sht40_hum_min : float;
  sht40_hum_max : float;
  soil_moisture_avg : float;
  soil_moisture_min : float;
  soil_moisture_max : float
}.

Record SystemStatus := mkSystemStatus {
  uptime_seconds : Z;
  free_heap : Z;
  min_free_heap : Z;
  wifi_connected : bool;
  mqtt_connected : bool;
  sd_card_ok : bool;
  total_readings : Z;
  failed_readings : Z;
  sd_write_errors : Z;
  mqtt_errors : Z
}.

Definition SystemStatus_new : SystemStatus :=
  mkSystemStatus 0 0 0 false false false 0 0 0 0.

Definition wrap16 (n : Z) : Z := n mod 2 ^ 16.
Definition wrap32 (n : Z) : Z := n mod 2 ^ 32.

(** The four measurement channels, in the fixed order of the record. *)
Inductive channel := DS18B20 | SHT40_TEMP | SHT40_HUM | SOIL.

Definition raw_of (c : channel) (r : RawReading) : float :=
  match c with
  | DS18B20 => ds18b20_temp r
  | SHT40_TEMP => sht40_temp r
  | SHT40_HUM => sht40_humidity r
  | SOIL => sen0193_moisture_raw r
  end.

Definition avg_of (c : channel) (d : AggregatedData) : float :=
  match c with
  | DS18B20 => ds18b20_avg d
  | SHT40_TEMP => sht40_temp_avg d
  | SHT40_HUM => sht40_hum_avg d
  | SOIL => soil_moisture_avg d
  end.

Definition min_of (c : channel) (d : AggregatedData) : float :=
  match c with
  | DS18B20 => ds18b20_min d
  | SHT40_TEMP => sht40_temp_min d
  | SHT40_HUM => sht40_hum_min d
  | SOIL => soil_moisture_min d
  end.

Definition max_of (c : channel) (d : AggregatedData) : float :=
  match c with
  | DS18B20 => ds18b20_max d
  | SHT40_TEMP => sht40_temp_max d
  | SHT40_HUM => sht40_hum_max d
  | SOIL => soil_moisture_max d
  end.

(** ** FreeRTOS queues *)

Module Queue.
Section WithItem.
Context {A : Type}.

Record t := mk { items : list A; capacity : nat }.

Definition create (n : nat) : t := mk [] n.

Definition is_full (q : t) : bool :=
      (capacity q <=? List.length (items q))%nat.

Definition wf (q : t) : Prop := (List.length (items q) <= capacity q)%nat.

    (** [xQueueReceive(q, &x, 0)]: the head, or nothing on an empty queue. *)
Definition receive (q : t) : option (A * t) :=
      match items q with
      | [] => None
      | x :: rest => Some (x, mk rest (capacity q))
      end.

    (** [xQueueSend(q, &x, 0)]: append at the back; [false] when full. *)
Definition send (q : t) (x : A) : bool * t :=
      if is_full q then (false, q)
      else (true, mk (items q ++ [x]) (capacity q)).

    (** [xQueueSendToFront(q, &x, 0)]: insert at the head; [false] when full. *)
Definition send_to_front (q : t) (x : A) : bool * t :=
      if is_full q then (false, q)
      else (true, mk (x :: items q) (capacity q)).
End WithItem.
Arguments t : clear implicits.
End Queue.

(** ** AggregationTask.cpp: RunningStats *)

Module RunningStats.

Record t := mk {
    minVal : float;
    maxVal : float;
    sum : float;
    count : Z                     (* uint32_t *)
  }.

Definition init : t := mk F32.INFINITY F32.NEG_INFINITY F32.zero 0.

Definition reset (_ : t) : t := init.

Definition addValue (s : t) (value : float) : t :=
    if negb (F32.isnan value) then
      mk (if F32.lt value (minVal s) then value else minVal s)
         (if F32.gt value (maxVal s) then value else maxVal s)
         (F32.add (sum s) value)
         (wrap32 (count s + 1))
    else s.

Definition getMin (s : t) : float :=
    if 0 <? count s then minVal s else F32.NAN.
Definition getMax (s : t) : float :=
    if 0 <? count s then maxVal s else F32.NAN.
Definition getAvg (s : t) : float :=
    if 0 <? count s then F32.div (sum s) (F32.of_uint (count s)) else F32.NAN.
Definition getCount (s : t) : Z := count s.

End RunningStats.

(** ** AggregationTask.cpp: aggregationTask *)

(** The locals of [aggregationTask] that live across loop iterations. *)
Record AggState := mkAggState {
  ds18b20Stats : RunningStats.t;
  sht40TempStats : RunningStats.t;
  sht40HumStats : RunningStats.t;
  soilMoistureStats : RunningStats.t;
  windowStartTime : time_t;
  windowEndTime : time_t
}.

Definition AggState_init : AggState :=
  mkAggState RunningStats.init RunningStats.init RunningStats.init
             RunningStats.init 0 0.

Definition stats_of (c : channel) (a : AggState) : RunningStats.t :=
  match c with
  | DS18B20 => ds18b20Stats a
  | SHT40_TEMP => sht40TempStats a
  | SHT40_HUM => sht40HumStats a
  | SOIL => soilMoistureStats a
  end.

(** Body of the inner [while (xQueueReceive(rawReadingQueue, ...))] loop for
    one received reading; the second component is [readingsCollected]. *)
Definition collect_one (acc : AggState * Z) (rawReading : RawReading)
  : AggState * Z :=
  let (a, readingsCollected) := acc in
  (mkAggState
     (RunningStats.addValue (ds18b20Stats a) (ds18b20_temp rawReading))
     (RunningStats.addValue (sht40TempStats a) (sht40_temp rawReading))
     (RunningStats.addValue (sht40HumStats a) (sht40_humidity rawReading))
     (RunningStats.addValue (soilMoistureStats a)
                            (sen0193_moisture_raw rawReading))
     (if windowStartTime a =? 0 then timestamp rawReading
      else windowStartTime a)
     (timestamp rawReading),
   wrap32 (readingsCollected + 1)).

(** Step 1: every reading the non-blocking receive hands out, in order. *)
Definition collect (a : AggState) (drained : list RawReading) : AggState * Z :=
  fold_left collect_one drained (a, 0).

(** Step 2: the record built from the accumulators. *)
Definition build_record (a : AggState) (readingsCollected : Z)
  : AggregatedData :=
  mkAggregatedData
    (windowStartTime a) (windowEndTime a) (wrap16 readingsCollected)
    (RunningStats.getAvg (ds18b20Stats a))
    (RunningStats.getMin (ds18b20Stats a))
    (RunningStats.getMax (ds18b20Stats a))
    (RunningStats.getAvg (sht40TempStats a))
    (RunningStats.getMin (sht40TempStats a))
    (RunningStats.getMax (sht40TempStats a))
    (RunningStats.getAvg (sht40HumStats a))
    (RunningStats.getMin (sht40HumStats a))
    (RunningStats.getMax (sht40HumStats a))
    (RunningStats.getAvg (soilMoistureStats a))
    (RunningStats.getMin (soilMoistureStats a))
    (RunningStats.getMax (soilMoistureStats a)).

(** One iteration of the outer loop on the readings drained in it: the
    record handed to [xQueueSend] (none for a silent window) and the state
    the next iteration starts from. *)
Definition aggregation_cycle (a : AggState) (drained : list RawReading)
  : option AggregatedData * AggState :=
  let (a', readingsCollected) := collect a drained in
  if 0 <? readingsCollected then
    (Some (build_record a' readingsCollected), AggState_init)
  else (None, a').

(** The record a window emits, the task having started from its initial
    locals. *)
Definition emitted (drained : list RawReading) : option AggregatedData :=
  fst (aggregation_cycle AggState_init drained).

(** ** RTClib's DateTime, as the DS1308 driver uses it

    The chip registers decode to six bytes; [unixtime] is RTClib's
    [date2days] / [time2ulong] arithmetic on [uint16_t] and [uint32_t]. *)

Module DateTime.

Record t := mk {
  yOff : Z;                       (* uint8_t, years since 2000 *)
  m : Z;                          (* uint8_t *)
  d : Z;                          (* uint8_t *)
  hh : Z;                         (* uint8_t *)
  mm : Z;                         (* uint8_t *)
  ss : Z                          (* uint8_t *)
}.

Definition year (dt : t) : Z := 2000 + yOff dt.

Definition SECONDS_FROM_1970_TO_2000 : Z := 946684800.

Definition daysInMonth : list Z := [31; 28; 31; 30; 31; 30; 31; 31; 30; 31; 30].

(** Every field is a byte and the month indexes [daysInMonth] in range. *)
Definition wf (dt : t) : Prop :=
  0 <= yOff dt < 256 /\ 0 <= m dt <= 12 /\ 0 <= d dt < 256 /\
  0 <= hh dt < 256 /\ 0 <= mm dt < 256 /\ 0 <= ss dt < 256.

(** [for (i = 1; i < m; ++i) days += daysInMonth[i - 1]]. *)
Definition month_days (month : Z) : Z :=
  fold_left Z.add (firstn (Z.to_nat (month - 1)) daysInMonth) 0.

Definition date2days (y month day : Z) : Z :=
  let y := if 2000 <=? y then y - 2000 else y in
  let days := wrap16 (day + month_days month) in
  let days := if (2 <? month) && (y mod 4 =? 0) then wrap16 (days + 1)
              else days in
  wrap16 (days + 365 * y + (y + 3) / 4 - 1).

Definition time2ulong (days h mi s : Z) : Z :=
  wrap32 (((days * 24 + h) * 60 + mi) * 60 + s).

Definition unixtime (dt : t) : Z :=
  wrap32 (time2ulong (date2days (yOff dt) (m dt) (d dt)) (hh dt) (mm dt) (ss dt)
          + SECONDS_FROM_1970_TO_2000).

End DateTime.

(** ** DS1308Sensor.h *)

Module DS1308Sensor.

Record t := mk { rtcFound : bool }.

(** [read]: [now] is what [rtc.now()] returns at this call. *)
Definition read (s : t) (now : DateTime.t) (data : RawReading)
  : bool * RawReading :=
  if negb (rtcFound s) then (false, data)
  else if (DateTime.year now <? 2020) || (2100 <? DateTime.year now)
  then (false, data)
  else (true, mkRawReading (DateTime.unixtime now) (ds18b20_temp data)
                (sht40_temp data) (sht40_humidity data)
                (sen0193_moisture_raw data)).

(** [getUnixTime]: [now] is what [rtc.now()] returns at this call. *)
Definition getUnixTime (s : t) (now : DateTime.t) : time_t :=
  if negb (rtcFound s) then 0 else DateTime.unixtime now.

End DS1308Sensor.

(** ** The environmental drivers behind ISensor

    Each constructor is one driver object together with what its hardware
    answers when [read] is called in this tick. *)

Inductive ISensor :=
| DS18B20Sensor (sensorFound : bool) (tempC : float)
| SHT40Sensor (sensorFound : bool) (getEvent_ok : bool)
              (temperature relative_humidity : float)
| SEN0193Sensor (initialized : bool) (rawValue : Z).

Definition DEVICE_DISCONNECTED_C : float := SFopp (F32.of_Z 127).

Definition sensor_read (s : ISensor) (data : RawReading) : bool * RawReading :=
  match s with
  | DS18B20Sensor sensorFound tempC =>
      if negb sensorFound then (false, data)
      else if SFeqb tempC DEVICE_DISCONNECTED_C then (false, data)
      else if F32.lt tempC (SFopp (F32.of_Z 55)) || F32.gt tempC (F32.of_Z 125)
      then (false, data)
      else (true, mkRawReading (timestamp data) tempC (sht40_temp data)
                    (sht40_humidity data) (sen0193_moisture_raw data))
  | SHT40Sensor sensorFound getEvent_ok temperature relative_humidity =>
      if negb sensorFound then (false, data)
      else if negb getEvent_ok then (false, data)
      else if F32.isnan temperature
              || F32.lt temperature (SFopp (F32.of_Z 40))
              || F32.gt temperature (F32.of_Z 125)
      then (false, data)
      else if F32.isnan relative_humidity
              || F32.lt relative_humidity F32.zero
              || F32.gt relative_humidity (F32.of_Z 100)
      then (false, data)
      else (true, mkRawReading (timestamp data) (ds18b20_temp data)
                    temperature relative_humidity
                    (sen0193_moisture_raw data))
  | SEN0193Sensor initialized rawValue =>
      if negb initialized then (false, data)
      else (true, mkRawReading (timestamp data) (ds18b20_temp data)
                    (sht40_temp data) (sht40_humidity data)
                    (F32.of_uint (wrap16 rawValue)))
  end.

(** ** SensorTask.cpp: sensorReadingTask *)

Record SensorTaskState := mkSensorTaskState {
  rawReadingQueue : Queue.t RawReading;
  sensorStatus : SystemStatus;
  successCount : Z;
  failureCount : Z
}.

(** What the hardware presents during one tick. *)
Record TickInput := mkTickInput {
  rtcSensor : option DS1308Sensor.t;      (* [None] is [nullptr] *)
  rtc_now : DateTime.t;
  activeSensors : list ISensor
}.

(** Step 1 of the loop body. *)
Definition read_timestamp (i : TickInput) (reading : RawReading)
  : bool * RawReading :=
  match rtcSensor i with
  | Some rtc =>
      let (ok, reading') := DS1308Sensor.read rtc (rtc_now i) reading in
      if ok then (true, reading')
      else (false, mkRawReading 0 (ds18b20_temp reading') (sht40_temp reading')
                     (sht40_humidity reading') (sen0193_moisture_raw reading'))
  | None =>
      (false, mkRawReading 0 (ds18b20_temp reading) (sht40_temp reading)
                (sht40_humidity reading) (sen0193_moisture_raw reading))
  end.

(** Step 2: a failing sensor is logged and skipped. *)
Definition read_sensors (sensors : list ISensor) (reading : RawReading)
  : RawReading :=
  fold_left (fun r s => snd (sensor_read s r)) sensors reading.

Definition set_total_readings (s : SystemStatus) (n : Z) : SystemStatus :=
  mkSystemStatus (uptime_seconds s) (free_heap s) (min_free_heap s)
    (wifi_connected s) (mqtt_connected s) (sd_card_ok s)
    n (failed_readings s) (sd_write_errors s) (mqtt_errors s).

Definition set_failed_readings (s : SystemStatus) (n : Z) : SystemStatus :=
  mkSystemStatus (uptime_seconds s) (free_heap s) (min_free_heap s)
    (wifi_connected s) (mqtt_connected s) (sd_card_ok s)
    (total_readings s) n (sd_write_errors s) (mqtt_errors s).

(** One iteration of the main loop. *)
Definition sensor_tick (st : SensorTaskState) (i : TickInput)
  : SensorTaskState :=
  let (readingValid, reading) := read_timestamp i RawReading_new in
  let failureCount1 :=
    if readingValid then failureCount st else wrap32 (failureCount st + 1) in
  let reading := read_sensors (activeSensors i) reading in
  if readingValid then
    let (sent, q) := Queue.send (rawReadingQueue st) reading in
    if sent then
      mkSensorTaskState q
        (set_total_readings (sensorStatus st)
           (wrap32 (total_readings (sensorStatus st) + 1)))
        (wrap32 (successCount st + 1)) failureCount1
    else
      mkSensorTaskState q
        (set_failed_readings (sensorStatus st)
           (wrap32 (failed_readings (sensorStatus st) + 1)))
        (successCount st) (wrap32 (failureCount1 + 1))
  else
    mkSensorTaskState (rawReadingQueue st)
      (set_failed_readings (sensorStatus st)
         (wrap32 (failed_readings (sensorStatus st) + 1)))
      (successCount st) (wrap32 (failureCount1 + 1)).

Definition sensor_run (st : SensorTaskState) (ticks : list TickInput)
  : SensorTaskState :=
  fold_left sensor_tick ticks st.

(** ** TimeSync.cpp: updateRTCFromNTP *)

Module TimeSync.

(** What the attempt does to the clock object, in order. *)
Inductive event :=
| SetTimeCalled (unixTime : time_t)      (* [rtc->setTime(now)] entered *)
| Adjusted (dt : Z).                     (* [rtc.adjust(DateTime(t))] on the chip *)

Record state := mkState {
  lastSyncTime : time_t;
  initialSyncComplete : bool
}.

Definition NTP_EPOCH_THRESHOLD : Z := 1577836800.

(** Conversion of a wider integer to [int32_t]. *)
Definition to_int32 (z : Z) : Z := (z + 2 ^ 31) mod 2 ^ 32 - 2 ^ 31.

(** [DS1308Sensor::setTime(time_t)]: the second component is the trace. *)
Definition setTime (rtc : DS1308Sensor.t) (unixTime : time_t)
  : bool * list event :=
  if negb (DS1308Sensor.rtcFound rtc) then (false, [SetTimeCalled unixTime])
  else (true, [SetTimeCalled unixTime; Adjusted (wrap32 unixTime)]).

(** [updateRTCFromNTP]: [now] is the system time [time(&now)] yields and
    [readback] what the chip reports when it is read after the write. *)
Definition updateRTCFromNTP (st : state) (rtc : option DS1308Sensor.t)
    (now : time_t) (readback : DateTime.t) : bool * state * list event :=
  match rtc with
  | None => (false, st, [])
  | Some rtc =>
      if now <? NTP_EPOCH_THRESHOLD then (false, st, [])
      else
        let (ok, trace) := setTime rtc now in
        if negb ok then (false, st, trace)
        else
          let rtcTime := DS1308Sensor.getUnixTime rtc readback in
          let timeDiff := to_int32 (Z.abs (rtcTime - now)) in
          if 2 <? timeDiff then (false, st, trace)
          else (true, mkState now true, trace)
  end.

End TimeSync.

(** ** Text produced by printf and by Arduino's String *)

Definition dq : string := String (ascii_of_nat 34) EmptyString.
Definition CRLF : string :=
  String (ascii_of_nat 13) (String (ascii_of_nat 10) EmptyString).

Definition digit_char (d : Z) : ascii := ascii_of_nat (48 + Z.to_nat d).

(** The decimal digits of [n], most significant first, in front of [acc]. *)
Fixpoint dec_digits (fuel : nat) (n : Z) (acc : string) : string :=
  match fuel with
  | O => acc
  | S fuel' =>
      let acc' := String (digit_char (n mod 10)) acc in
      if n / 10 =? 0 then acc' else dec_digits fuel' (n / 10) acc'
  end.

Definition dec_unsigned (n : Z) : string :=
  dec_digits (S (Z.to_nat (Z.log2 n))) n EmptyString.

(** [%ld] and [%d]; also [String(long)]. *)
Definition dec_signed (n : Z) : string :=
  if n <? 0 then ("-" ++ dec_unsigned (- n))%string else dec_unsigned n.

(** Exactly [k] digits: [n] modulo [10^k], zero padded. *)
Fixpoint frac_digits (k : nat) (n : Z) : string :=
  match k with
  | O => EmptyString
  | S k' =>
      (frac_digits k' (n / 10)
       ++ String (digit_char (n mod 10)) EmptyString)%string
  end.

(** [|x| * 10^decimals] for the finite [m * 2^e], rounded to the nearest
    integer, ties to even, as a correctly rounding printf does. *)
Definition scale_round (decimals : nat) (m : positive) (e : Z) : Z :=
  let p := 10 ^ Z.of_nat decimals in
  let num := if 0 <=? e then Z.pos m * 2 ^ e * p else Z.pos m * p in
  let den := if 0 <=? e then 1 else 2 ^ (- e) in
  let q := num / den in
  let r := num mod den in
  if 2 * r <? den then q
  else if den <? 2 * r then q + 1
  else if Z.even q then q else q + 1.

Definition fixed_text (decimals : nat) (scaled : Z) : string :=
  let p := 10 ^ Z.of_nat decimals in
  (dec_unsigned (scaled / p)
   ++ match decimals with
      | O => EmptyString
      | S _ => "." ++ frac_digits decimals (scaled mod p)
      end)%string.

Definition sign_text (s : bool) : string :=
  if s then "-"%string else EmptyString.

(** [printf("%.<decimals>f", x)] for a float argument (promoted to double,
    which keeps its value). *)
Definition printf_f (decimals : nat) (x : float) : string :=
  match x with
  | S754_nan => "nan"%string
  | S754_infinity s => (sign_text s ++ "inf")%string
  | S754_zero s => (sign_text s ++ fixed_text decimals 0)%string
  | S754_finite s m e =>
      (sign_text s ++ fixed_text decimals (scale_round decimals m e))%string
  end.

(** [%0<width>d] for a non-negative argument. *)
Definition pad_dec (width : nat) (n : Z) : string :=
  let s := dec_unsigned n in
  (string_of_list_ascii (repeat "0"%char (width - String.length s)) ++ s)%string.

(** ** LoggingTask.cpp *)

Definition SD_FILENAME_PREFIX : string := "/data_"%string.

Definition CSV_HEADER : string :=
  ("timestamp_start,timestamp_end,samples,"
   ++ "ds18b20_avg,ds18b20_min,ds18b20_max,"
   ++ "sht40_temp_avg,sht40_temp_min,sht40_temp_max,"
   ++ "sht40_hum_avg,sht40_hum_min,sht40_hum_max,"
   ++ "soil_avg,soil_min,soil_max")%string.

(** The card: its files by path, and whether the next [SD.open] for
    creation and for appending hand out a usable file. *)
Record SDCard := mkSDCard {
  files : list (string * string);
  create_ok : bool;
  append_ok : bool
}.

Fixpoint sd_lookup (fs : list (string * string)) (name : string)
  : option string :=
  match fs with
  | [] => None
  | (n, c) :: rest => if String.eqb n name then Some c else sd_lookup rest name
  end.

Fixpoint sd_append (fs : list (string * string)) (name text : string)
  : list (string * string) :=
  match fs with
  | [] => [(name, text)]
  | (n, c) :: rest =>
      if String.eqb n name then (n, (c ++ text)%string) :: rest
      else (n, c) :: sd_append rest name text
  end.

Definition sd_exists (sd : SDCard) (name : string) : bool :=
  match sd_lookup (files sd) name with Some _ => true | None => false end.

Definition sd_write (sd : SDCard) (name text : string) : SDCard :=
  mkSDCard (sd_append (files sd) name text) (create_ok sd) (append_ok sd).

Section Logging.

(** [gmtime]: year, month (1..12) and day of month of a timestamp. *)
Variable gmtime_ymd : time_t -> Z * Z * Z.

Definition getLogFilename (ts : time_t) : string :=
  let '(y, mo, day) := gmtime_ymd ts in
  (SD_FILENAME_PREFIX ++ pad_dec 4 y ++ pad_dec 2 mo ++ pad_dec 2 day
   ++ ".csv")%string.

Definition ensureFileWithHeaders (sd : SDCard) (filename : string)
  : bool * SDCard :=
  if sd_exists sd filename then (true, sd)
  else if negb (create_ok sd) then (false, sd)
  else (true, sd_write sd filename (CSV_HEADER ++ CRLF)%string).

(** The text the print calls of [writeDataToSD] put into the file, block by
    block. *)
Definition csv_prefix (data : AggregatedData) : string :=
  (dec_signed (start_timestamp data) ++ "," ++ dec_signed (end_timestamp data)
   ++ "," ++ dec_signed (sample_count data) ++ ",")%string.

Definition csv_ds18b20 (data : AggregatedData) : string :=
  if F32.isnan (ds18b20_avg data) then ",,,"%string
  else (printf_f 2 (ds18b20_avg data) ++ "," ++ printf_f 2 (ds18b20_min data)
        ++ "," ++ printf_f 2 (ds18b20_max data) ++ ",")%string.

Definition csv_sht40_temp (data : AggregatedData) : string :=
  if F32.isnan (sht40_temp_avg data) then ",,,"%string
  else (printf_f 2 (sht40_temp_avg data) ++ ","
        ++ printf_f 2 (sht40_temp_min data) ++ ","
        ++ printf_f 2 (sht40_temp_max data) ++ ",")%string.

Definition csv_sht40_hum (data : AggregatedData) : string :=
  if F32.isnan (sht40_hum_avg data) then ",,,"%string
  else (printf_f 1 (sht40_hum_avg data) ++ ","
        ++ printf_f 1 (sht40_hum_min data) ++ ","
        ++ printf_f 1 (sht40_hum_max data) ++ ",")%string.

Definition csv_soil (data : AggregatedData) : string :=
  if F32.isnan (soil_moisture_avg data) then ",,"%string
  else (printf_f 0 (soil_moisture_avg data) ++ ","
        ++ printf_f 0 (soil_moisture_min data) ++ ","
        ++ printf_f 0 (soil_moisture_max data))%string.

Definition csv_row (data : AggregatedData) : string :=
  (csv_prefix data ++ csv_ds18b20 data ++ csv_sht40_temp data
   ++ csv_sht40_hum data ++ csv_soil data ++ CRLF)%string.

Definition writeDataToSD (sd : SDCard) (data : AggregatedData)
  : bool * SDCard :=
  let filename := getLogFilename (start_timestamp data) in
  let (ready, sd1) := ensureFileWithHeaders sd filename in
  if negb ready then (false, sd1)
  else if negb (append_ok sd1) then (false, sd1)
  else (true, sd_write sd1 filename (csv_row data)).

Record LogState := mkLogState {
  sdCardInitialized : bool;
  logStatus : SystemStatus;
  successfulWrites : Z;
  failedWrites : Z;
  card : SDCard
}.

(** What the environment answers during one loop iteration:
    [initializeSDCard()] if it is called, and [xSemaphoreTake] within 5 s. *)
Record LogInput := mkLogInput {
  init_ok : bool;
  mutex_ok : bool
}.

Definition set_sd_card_ok (s : SystemStatus) (b : bool) : SystemStatus :=
  mkSystemStatus (uptime_seconds s) (free_heap s) (min_free_heap s)
    (wifi_connected s) (mqtt_connected s) b
    (total_readings s) (failed_readings s) (sd_write_errors s) (mqtt_errors s).

Definition inc_sd_write_errors (s : SystemStatus) : SystemStatus :=
  mkSystemStatus (uptime_seconds s) (free_heap s) (min_free_heap s)
    (wifi_connected s) (mqtt_connected s) (sd_card_ok s)
    (total_readings s) (failed_readings s) (wrap32 (sd_write_errors s + 1))
    (mqtt_errors s).

(** How an iteration ended for the record it received. *)
Inductive LogOutcome :=
| Written | WriteFailed | MutexTimeout | CardUnavailable.

(** The part of the loop body after [xQueueReceive] handed out [data]. *)
Definition handle_record (st : LogState) (inp : LogInput)
    (data : AggregatedData) : LogOutcome * LogState :=
  let init1 := if sdCardInitialized st then true else init_ok inp in
  let status1 :=
    if sdCardInitialized st then logStatus st
    else set_sd_card_ok (logStatus st) init1 in
  if negb init1 then
    (CardUnavailable,
     mkLogState init1 (inc_sd_write_errors status1) (successfulWrites st)
       (wrap32 (failedWrites st + 1)) (card st))
  else if mutex_ok inp then
    let (success, sd') := writeDataToSD (card st) data in
    if success then
      (Written,
       mkLogState init1 status1 (wrap32 (successfulWrites st + 1))
         (failedWrites st) sd')
    else
      (WriteFailed,
       mkLogState false (set_sd_card_ok (inc_sd_write_errors status1) false)
         (successfulWrites st) (wrap32 (failedWrites st + 1)) sd')
  else
    (MutexTimeout,
     mkLogState init1 (inc_sd_write_errors status1) (successfulWrites st)
       (wrap32 (failedWrites st + 1)) (card st)).

(** One iteration of [loggingTask] on the shared queue; on an empty queue
    the task stays blocked in [xQueueReceive]. *)
Definition logging_iteration (q : Queue.t AggregatedData) (st : LogState)
    (inp : LogInput)
  : Queue.t AggregatedData * LogState * option (AggregatedData * LogOutcome) :=
  match Queue.receive q with
  | None => (q, st, None)
  | Some (data, q') =>
      let (out, st') := handle_record st inp data in
      (q', st', Some (data, out))
  end.

End Logging.

(** ** CloudTask.cpp and the JSON helper of AggregationTask.cpp *)

Section Cloud.

(** Macros the sketch expects from Secrets.h. *)
Variable MQTT_CLIENT_ID : string.
Variable MQTT_TOPIC : string.

(** The digits [dtostrf] produces for a finite value. *)
Variable dtostrf_finite : float -> nat -> string.

(** [String(float value, unsigned int decimalPlaces)], which is
    [dtostrf(value, decimalPlaces + 2, decimalPlaces, buf)]: the two
    non-finite cases are answered before any digit is produced. *)
Definition String_float (value : float) (decimalPlaces : nat) : string :=
  if F32.isnan value then "nan"%string
  else if F32.isinf value then "inf"%string
  else dtostrf_finite value decimalPlaces.

Definition json_key (k : string) : string := (dq ++ k ++ dq ++ ":")%string.

(** The payload [publishDataToMQTT] builds, statement by statement. *)
Definition mqtt_payload (data : AggregatedData) : string :=
  let payload := "{"%string in
  let payload := (payload ++ (dq ++ "device" ++ dq ++ ":" ++ dq
                              ++ MQTT_CLIENT_ID ++ dq ++ ","))%string in
  let payload := (payload ++ (json_key "start"
                              ++ dec_signed (start_timestamp data) ++ ","))%string in
  let payload := (payload ++ (json_key "end"
                              ++ dec_signed (end_timestamp data) ++ ","))%string in
  let payload := (payload ++ (json_key "samples"
                              ++ dec_signed (sample_count data) ++ ","))%string in
  let payload := (payload ++ (json_key "ds18b20" ++ "{"))%string in
  let payload := (payload ++ (json_key "avg"
                              ++ String_float (ds18b20_avg data) 2 ++ ","))%string in
  let payload := (payload ++ (json_key "min"
                              ++ String_float (ds18b20_min data) 2 ++ ","))%string in
  let payload := (payload ++ (json_key "max"
                              ++ String_float (ds18b20_max data) 2))%string in
  let payload := (payload ++ "},")%string in
  let payload := (payload ++ (json_key "sht40_temp" ++ "{"))%string in
  let payload := (payload ++ (json_key "avg"
                              ++ String_float (sht40_temp_avg data) 2 ++ ","))%string in
  let payload := (payload ++ (json_key "min"
                              ++ String_float (sht40_temp_min data) 2 ++ ","))%string in
  let payload := (payload ++ (json_key "max"
                              ++ String_float (sht40_temp_max data) 2))%string in
  let payload := (payload ++ "},")%string in
  let payload := (payload ++ (json_key "sht40_humidity" ++ "{"))%string in
  let payload := (payload ++ (json_key "avg"
                              ++ String_float (sht40_hum_avg data) 1 ++ ","))%string in
  let payload := (payload ++ (json_key "min"
                              ++ String_float (sht40_hum_min data) 1 ++ ","))%string in
  let payload := (payload ++ (json_key "max"
                              ++ String_float (sht40_hum_max data) 1))%string in
  let payload := (payload ++ "},")%string in
  let payload := (payload ++ (json_key "soil_moisture" ++ "{"))%string in
  let payload := (payload ++ (json_key "avg"
                              ++ String_float (soil_moisture_avg data) 0 ++ ","))%string in
  let payload := (payload ++ (json_key "min"
                              ++ String_float (soil_moisture_min data) 0 ++ ","))%string in
  let payload := (payload ++ (json_key "max"
                              ++ String_float (soil_moisture_max data) 0))%string in
  let payload := (payload ++ "}")%string in
  (payload ++ "}")%string.

(** [aggregatedDataToJSON]. *)
Definition aggregatedDataToJSON (data : AggregatedData) : string :=
  let json := "{"%string in
  let json := (json ++ (json_key "start" ++ dq
                        ++ dec_signed (start_timestamp data) ++ dq ++ ","))%string in
  let json := (json ++ (json_key "end" ++ dq
                        ++ dec_signed (end_timestamp data) ++ dq ++ ","))%string in
  let json := (json ++ (json_key "samples"
                        ++ dec_signed (sample_count data) ++ ","))%string in
  let json := (json ++ (json_key "ds18b20" ++ "{"))%string in
  let json := (json ++ (json_key "avg"
                        ++ String_float (ds18b20_avg data) 2 ++ ","))%string in
  let json := (json ++ (json_key "min"
                        ++ String_float (ds18b20_min data) 2 ++ ","))%string in
  let json := (json ++ (json_key "max"
                        ++ String_float (ds18b20_max data) 2))%string in
  let json := (json ++ "},")%string in
  let json := (json ++ (json_key "sht40_temp" ++ "{"))%string in
  let json := (json ++ (json_key "avg"
                        ++ String_float (sht40_temp_avg data) 2 ++ ","))%string in
  let json := (json ++ (json_key "min"
                        ++ String_float (sht40_temp_min data) 2 ++ ","))%string in
  let json := (json ++ (json_key "max"
                        ++ String_float (sht40_temp_max data) 2))%string in
  let json := (json ++ "},")%string in
  let json := (json ++ (json_key "sht40_hum" ++ "{"))%string in
  let json := (json ++ (json_key "avg"
                        ++ String_float (sht40_hum_avg data) 1 ++ ","))%string in
  let json := (json ++ (json_key "min"
                        ++ String_float (sht40_hum_min data) 1 ++ ","))%string in
  let json := (json ++ (json_key "max"
                        ++ String_float (sht40_hum_max data) 1))%string in
  let json := (json ++ "},")%string in
  let json := (json ++ (json_key "soil" ++ "{"))%string in
  let json := (json ++ (json_key "avg"
                        ++ String_float (soil_moisture_avg data) 0 ++ ","))%string in
  let json := (json ++ (json_key "min"
                        ++ String_float (soil_moisture_min data) 0 ++ ","))%string in
  let json := (json ++ (json_key "max"
                        ++ String_float (soil_moisture_max data) 0))%string in
  let json := (json ++ "}")%string in
  (json ++ "}")%string.

(** The object text each serializer writes for a channel without data. *)
Definition mqtt_channel_name (c : channel) : string :=
  match c with
  | DS18B20 => "ds18b20"%string
  | SHT40_TEMP => "sht40_temp"%string
  | SHT40_HUM => "sht40_humidity"%string
  | SOIL => "soil_moisture"%string
  end.

Definition json_channel_name (c : channel) : string :=
  match c with
  | DS18B20 => "ds18b20"%string
  | SHT40_TEMP => "sht40_temp"%string
  | SHT40_HUM => "sht40_hum"%string
  | SOIL => "soil"%string
  end.

Definition nan_object (name : string) : string :=
  (json_key name ++ "{" ++ json_key "avg" ++ "nan," ++ json_key "min"
   ++ "nan," ++ json_key "max" ++ "nan}")%string.

End Cloud.

(** What happens around one [publishDataToMQTT] call of the drain loop: its
    result, and the records [aggregationTask] sends to the queue between the
    dequeue of the record and the handling of that result. *)
Record PublishEvent := mkPublishEvent {
  publish_ok : bool;
  arrived : list AggregatedData
}.

Record UploadState := mkUploadState {
  uploadStatus : SystemStatus;
  uploadCycles : Z;
  successfulUploads : Z;
  failedUploads : Z;
  attempted : list AggregatedData;   (* records handed to publish, in order *)
  delivered : list AggregatedData    (* records whose publish succeeded *)
}.

Definition UploadState_init : UploadState :=
  mkUploadState SystemStatus_new 0 0 0 [] [].

Definition set_wifi_connected (s : SystemStatus) (b : bool) : SystemStatus :=
  mkSystemStatus (uptime_seconds s) (free_heap s) (min_free_heap s)
    b (mqtt_connected s) (sd_card_ok s)
    (total_readings s) (failed_readings s) (sd_write_errors s) (mqtt_errors s).

Definition set_mqtt_connected (s : SystemStatus) (b : bool) : SystemStatus :=
  mkSystemStatus (uptime_seconds s) (free_heap s) (min_free_heap s)
    (wifi_connected s) b (sd_card_ok s)
    (total_readings s) (failed_readings s) (sd_write_errors s) (mqtt_errors s).

Definition inc_mqtt_errors (s : SystemStatus) : SystemStatus :=
  mkSystemStatus (uptime_seconds s) (free_heap s) (min_free_heap s)
    (wifi_connected s) (mqtt_connected s) (sd_card_ok s)
    (total_readings s) (failed_readings s) (sd_write_errors s)
    (wrap32 (mqtt_errors s + 1)).

(** The producer's sends while the upload task is inside publish. *)
Definition enqueue_all (q : Queue.t AggregatedData)
    (records : list AggregatedData) : Queue.t AggregatedData :=
  fold_left (fun q d => snd (Queue.send q d)) records q.

Definition on_publish_success (st : UploadState) (data : AggregatedData)
  : UploadState :=
  mkUploadState (uploadStatus st) (uploadCycles st)
    (wrap32 (successfulUploads st + 1)) (failedUploads st)
    (attempted st ++ [data]) (delivered st ++ [data]).

Definition on_publish_failure (st : UploadState) (data : AggregatedData)
  : UploadState :=
  mkUploadState (inc_mqtt_errors (uploadStatus st)) (uploadCycles st)
    (successfulUploads st) (wrap32 (failedUploads st + 1))
    (attempted st ++ [data]) (delivered st).

(** Step 3 of [cloudUploadTask]: the loop
    [while (xQueueReceive(aggregatedDataQueue, &data, 0) == pdTRUE)].
    The result is the queue and counters after the loop and
    [itemsUploaded]; [None] when [script] says nothing about a publish the
    loop performs. *)
Fixpoint drain (script : list PublishEvent) (q : Queue.t AggregatedData)
    (st : UploadState) (itemsUploaded : Z)
  : option (Queue.t AggregatedData * UploadState * Z) :=
  match Queue.receive q with
  | None => Some (q, st, itemsUploaded)
  | Some (data, q1) =>
      match script with
      | [] => None
      | ev :: script' =>
          let q2 := enqueue_all q1 (arrived ev) in
          if publish_ok ev then
            drain script' q2 (on_publish_success st data)
                  (wrap32 (itemsUploaded + 1))
          else
            (* the result of xQueueSendToFront is not looked at *)
            let q3 := snd (Queue.send_to_front q2 data) in
            Some (q3, on_publish_failure st data, itemsUploaded)
      end
  end.

Definition begin_cycle (st : UploadState) : UploadState :=
  mkUploadState (uploadStatus st) (wrap32 (uploadCycles st + 1))
    (successfulUploads st) (failedUploads st) (attempted st) (delivered st).

Definition with_status (st : UploadState) (s : SystemStatus) : UploadState :=
  mkUploadState s (uploadCycles st) (successfulUploads st) (failedUploads st)
    (attempted st) (delivered st).

(** One iteration of the outer loop of [cloudUploadTask]. *)
Definition upload_cycle (wifi_ok mqtt_ok : bool) (script : list PublishEvent)
    (q : Queue.t AggregatedData) (st : UploadState)
  : option (Queue.t AggregatedData * UploadState) :=
  let st := begin_cycle st in
  let st := with_status st (set_wifi_connected (uploadStatus st) wifi_ok) in
  if negb wifi_ok then Some (q, st)
  else
    let st := with_status st (set_mqtt_connected (uploadStatus st) mqtt_ok) in
    if negb mqtt_ok then
      Some (q,
            mkUploadState (inc_mqtt_errors (uploadStatus st)) (uploadCycles st)
              (successfulUploads st) (wrap32 (failedUploads st + 1))
              (attempted st) (delivered st))
    else
      match drain script q st 0 with
      | None => None
      | Some (q', st', _) =>
          Some (q', with_status st'
                      (set_mqtt_connected (uploadStatus st') false))
      end.

(** ** The three tasks around the one [aggregatedDataQueue] *)

Inductive TaskStep :=
| AggregationSends (d : AggregatedData)
| LoggingReceives
| UploadDrains (script : list PublishEvent).

Record Pipeline := mkPipeline {
  aggregatedDataQueue : Queue.t AggregatedData;
  storage_received : list AggregatedData;
  upload : UploadState
}.

Definition Pipeline_init : Pipeline :=
  mkPipeline (Queue.create AGGREGATED_DATA_QUEUE_SIZE) [] UploadState_init.

Definition pipeline_step (p : Pipeline) (s : TaskStep) : option Pipeline :=
  match s with
  | AggregationSends d =>
      Some (mkPipeline (snd (Queue.send (aggregatedDataQueue p) d))
              (storage_received p) (upload p))
  | LoggingReceives =>
      match Queue.receive (aggregatedDataQueue p) with
      | None => Some p
      | Some (d, q') =>
          Some (mkPipeline q' (storage_received p ++ [d]) (upload p))
      end
  | UploadDrains script =>
      match upload_cycle true true script (aggregatedDataQueue p) (upload p) with
      | None => None
      | Some (q', st') => Some (mkPipeline q' (storage_received p) st')
      end
  end.

Fixpoint pipeline_run (p : Pipeline) (steps : list TaskStep)
  : option Pipeline :=
  match steps with
  | [] => Some p
  | s :: rest =>
      match pipeline_step p s with
      | None => None
      | Some p' => pipeline_run p' rest
      end
  end.

(** The outer loop of [aggregationTask] over successive windows: what each
    window emitted and the locals left for the next one. *)
Fixpoint aggregation_run (a : AggState) (windows : list (list RawReading))
  : list (option AggregatedData) * AggState :=
  match windows with
  | [] => ([], a)
  | drained :: rest =>
      let (out, a') := aggregation_cycle a drained in
      let (outs, a'') := aggregation_run a' rest in
      (out :: outs, a'')
  end.

(** ** Vocabulary of the specification *)

(** The values of a channel that take part in its statistics. *)
Definition non_nan (vs : list float) : list float :=
  filter (fun v => negb (F32.isnan v)) vs.

Definition channel_values (c : channel) (rs : list RawReading) : list float :=
  non_nan (map (raw_of c) rs).

(** Sum and mean as binary32 arithmetic performs them, in arrival order. *)
Definition float_sum (vs : list float) : float :=
  fold_left F32.add vs F32.zero.

Definition arithmetic_mean (vs : list float) : float :=
  F32.div (float_sum vs) (F32.of_uint (Z.of_nat (List.length vs))).

Definition is_minimum (x : float) (vs : list float) : Prop :=
  In x vs /\ forall v, In v vs -> F32.le x v = true.

Definition is_maximum (x : float) (vs : list float) : Prop :=
  In x vs /\ forall v, In v vs -> F32.le v x = true.

(** Minimum and maximum of a list of timestamps. *)
Definition ts_min (ts : list time_t) : time_t :=
  match ts with [] => 0 | t :: rest => fold_left Z.min rest t end.

Definition ts_max (ts : list time_t) : time_t :=
  match ts with [] => 0 | t :: rest => fold_left Z.max rest t end.

(** Timestamps that never step back, in queue order. *)
Fixpoint non_decreasing (ts : list time_t) : Prop :=
  match ts with
  | [] => True
  | t :: rest =>
      match rest with
      | [] => True
      | t' :: _ => t <= t' /\ non_decreasing rest
      end
  end.

(** The order of binary32 values as a lexicographic key: class, then
    exponent, then mantissa, both mirrored for negative numbers. *)
Definition order_key (x : float) : Z * Z * Z :=
  match x with
  | S754_zero _ => (0, 0, 0)
  | S754_infinity false => (2, 0, 0)
  | S754_infinity true => (-2, 0, 0)
  | S754_nan => (3, 0, 0)
  | S754_finite false m e => (1, e, Z.pos m)
  | S754_finite true m e => (-1, - e, - Z.pos m)
  end.

Definition key_lt (a b : Z * Z * Z) : Prop :=
  let '(a1, a2, a3) := a in
  let '(b1, b2, b3) := b in
  a1 < b1 \/ (a1 = b1 /\ (a2 < b2 \/ (a2 = b2 /\ a3 < b3))).

Definition key_le (a b : Z * Z * Z) : Prop :=
  let '(a1, a2, a3) := a in
  let '(b1, b2, b3) := b in
  a1 < b1 \/ (a1 = b1 /\ (a2 < b2 \/ (a2 = b2 /\ a3 <= b3))).

(** Substring test. *)
Fixpoint contains (needle hay : string) : bool :=
  String.prefix needle hay
  || match hay with
     | EmptyString => false
     | String _ rest => contains needle rest
     end.

Fixpoint count_char (c : ascii) (s : string) : nat :=
  match s with
  | EmptyString => O
  | String c' rest =>
      ((if Ascii.eqb c c' then 1 else 0) + count_char c rest)%nat
  end.

Fixpoint all_chars (p : ascii -> bool) (s : string) : bool :=
  match s with
  | EmptyString => true
  | String c rest => p c && all_chars p rest
  end.

Definition is_digit (c : ascii) : bool :=
  let n := nat_of_ascii c in ((48 <=? n) && (n <=? 57))%nat.

(** [s] is a run of digits, a point and exactly [decimals] digits; for
    [decimals = 0] there is no point at all. *)
Definition fixed_point_shape (decimals : nat) (s : string) : Prop :=
  exists sign int_part frac_part,
    s = (sign ++ int_part
         ++ match decimals with
            | O => EmptyString
            | S _ => "." ++ frac_part
            end)%string
    /\ (sign = EmptyString \/ sign = "-"%string)
    /\ int_part <> EmptyString
    /\ all_chars is_digit int_part = true
    /\ all_chars is_digit frac_part = true
    /\ String.length frac_part = decimals.

(** Precision of each channel in the file format. *)
Definition csv_decimals (c : channel) : nat :=
  match c with
  | DS18B20 => 2%nat
  | SHT40_TEMP => 2%nat
  | SHT40_HUM => 1%nat
  | SOIL => 0%nat
  end.

Definition csv_block (c : channel) (d : AggregatedData) : string :=
  match c with
  | DS18B20 => csv_ds18b20 d
  | SHT40_TEMP => csv_sht40_temp d
  | SHT40_HUM => csv_sht40_hum d
  | SOIL => csv_soil d
  end.

(** The separator that closes a channel block: the last block of the row
    has none. *)
Definition csv_block_end (c : channel) : string :=
  match c with SOIL => EmptyString | _ => ","%string end.

(** ** Accumulator invariants, character classes and sample inputs *)

(** The accumulator after a run of [addValue] calls, field by field. *)
Definition stats_after (s : RunningStats.t) (vs : list float)
  : RunningStats.t :=
  fold_left RunningStats.addValue vs s.

(** The minimum kept so far: [+inf] before the first value, afterwards a
    least element of what has been seen. *)
Definition min_inv (s : RunningStats.t) (seen : list float) : Prop :=
  (seen = [] /\ RunningStats.minVal s = F32.INFINITY)
  \/ is_minimum (RunningStats.minVal s) seen.

Definition max_inv (s : RunningStats.t) (seen : list float) : Prop :=
  (seen = [] /\ RunningStats.maxVal s = F32.NEG_INFINITY)
  \/ is_maximum (RunningStats.maxVal s) seen.

(** Three samples whose first channel reads 20.0, 22.0 and NaN. *)
Definition window_20_22_nan : list RawReading :=
  [ mkRawReading 1700000000 (F32.of_Z 20) F32.NAN F32.NAN F32.NAN;
    mkRawReading 1700000001 (F32.of_Z 22) F32.NAN F32.NAN F32.NAN;
    mkRawReading 1700000002 F32.NAN F32.NAN F32.NAN F32.NAN ].

(** The record that window emits. *)
Definition record_20_22_nan : AggregatedData :=
  Eval vm_compute in
    build_record (fst (collect AggState_init window_20_22_nan)) 3.

(** Two samples taken around a backward correction of the clock. *)
Definition window_clock_stepped_back : list RawReading :=
  [ mkRawReading 1700000060 F32.NAN F32.NAN F32.NAN F32.NAN;
    mkRawReading 1700000000 F32.NAN F32.NAN F32.NAN F32.NAN ].

(** A tick at 2024-03-01 12:00:00 UTC with the three drivers answering. *)
Definition tick_2024_03_01 : TickInput :=
  mkTickInput (Some (DS1308Sensor.mk true)) (DateTime.mk 24 3 1 12 0 0)
    [ DS18B20Sensor true (F32.of_Z 21);
      SHT40Sensor true true (F32.of_Z 22) (F32.of_Z 40);
      SEN0193Sensor true 1800 ].

(** A tick in which the chip reports its power-loss date, 2000-01-01. *)
Definition tick_rtc_reset : TickInput :=
  mkTickInput (Some (DS1308Sensor.mk true)) (DateTime.mk 0 1 1 0 0 0)
    [ DS18B20Sensor true (F32.of_Z 21) ].

Definition sensor_task_start : SensorTaskState :=
  mkSensorTaskState (Queue.create RAW_READING_QUEUE_SIZE) SystemStatus_new 0 0.


(** A card that is mounted and marked usable, with an empty file system. *)
Definition log_state_card_ok : LogState :=
  mkLogState true
    (mkSystemStatus 0 0 0 false false true 0 0 0 0) 0 0
    (mkSDCard [] true true).

Definition one_record_queue : Queue.t AggregatedData :=
  Queue.mk [record_20_22_nan] AGGREGATED_DATA_QUEUE_SIZE.

(** Characters printf can produce for a value that is not NaN. *)
Definition number_char (c : ascii) : bool :=
  is_digit c || Ascii.eqb c "-" || Ascii.eqb c "." || Ascii.eqb c "i"
  || Ascii.eqb c "n" || Ascii.eqb c "f".

(** Characters of a CSV row none of whose printed values is NaN. *)
Definition row_char (c : ascii) : bool :=
  number_char c || Ascii.eqb c "," || Ascii.eqb c (ascii_of_nat 13)
  || Ascii.eqb c (ascii_of_nat 10).

(** What a channel without data contributes to the row. *)
Definition csv_empty_block (c : channel) : string :=
  match c with SOIL => ",,"%string | _ => ",,,"%string end.

(** A publish that succeeds while nothing arrives. *)
Definition published_quietly : PublishEvent := mkPublishEvent true [].

Definition count_up (n : Z) (records : list AggregatedData) : Z :=
  fold_left (fun k _ => wrap32 (k + 1)) records n.

Definition after_successes (st : UploadState) (records : list AggregatedData)
  : UploadState :=
  fold_left on_publish_success records st.

(** The record of the window that started at [t] and saw one empty sample. *)
Definition stats_record (t : time_t) : AggregatedData :=
  mkAggregatedData t (t + 59) 1
    F32.NAN F32.NAN F32.NAN F32.NAN F32.NAN F32.NAN
    F32.NAN F32.NAN F32.NAN F32.NAN F32.NAN F32.NAN.

(** A full queue of ten records. *)
Definition ten_records : list AggregatedData :=
  map stats_record [60; 120; 180; 240; 300; 360; 420; 480; 540; 600].

(** ** Further code of the sketch *)

(** *** DS1308Sensor.h: begin, hasLostPower, getTimeString *)

(** [begin]: [rtc_begin_ok] is the answer of [rtc.begin()]; a chip that is
    found but not running is accepted. *)
Definition DS1308_begin (rtc_begin_ok : bool) : bool * DS1308Sensor.t :=
  if negb rtc_begin_ok then (false, DS1308Sensor.mk false)
  else (true, DS1308Sensor.mk true).

Definition DS1308_hasLostPower (s : DS1308Sensor.t) (now : DateTime.t) : bool :=
  if negb (DS1308Sensor.rtcFound s) then true
  else (DateTime.year now =? 2000) && (DateTime.m now =? 1)
       && (DateTime.d now =? 1).

Definition DS1308_getTimeString (s : DS1308Sensor.t) (now : DateTime.t)
  : string :=
  if negb (DS1308Sensor.rtcFound s) then "RTC not available"%string
  else (pad_dec 4 (DateTime.year now) ++ "-" ++ pad_dec 2 (DateTime.m now)
        ++ "-" ++ pad_dec 2 (DateTime.d now) ++ " "
        ++ pad_dec 2 (DateTime.hh now) ++ ":" ++ pad_dec 2 (DateTime.mm now)
        ++ ":" ++ pad_dec 2 (DateTime.ss now))%string.

(** *** SEN0193Sensor.h: readRawADC *)

Definition SOIL_MOISTURE_SAMPLES : Z := 10.

(** [readRawADC]: [samples] are the answers of the successive [analogRead]
    calls of the loop, one per iteration. *)
Definition readRawADC (samples : list Z) : Z :=
  let sum := fold_left (fun sum s => wrap32 (sum + wrap16 s)) samples 0 in
  wrap16 (sum / SOIL_MOISTURE_SAMPLES).

(** *** DS18B20Sensor.h: begin *)

(** [begin]: whether [getAddress] found a device, and the test reading. *)
Definition DS18B20_begin (getAddress_ok : bool) (temp : float) : bool :=
  if negb getAddress_ok then false
  else if SFeqb temp DEVICE_DISCONNECTED_C
          || F32.lt temp (SFopp (F32.of_Z 55)) || F32.gt temp (F32.of_Z 125)
  then false
  else true.

(** *** CloudTask.cpp: connectToWiFi; TimeSync.cpp: connectForTimeSync *)

Definition WIFI_TIMEOUT_MS : Z := 20000.

(** The wait loop both functions share.  Each element of [polls] is one
    evaluation of the loop condition that finds [WiFi.status()] connected
    or not, with the value [millis()] returns in the loop body that follows
    it.  [None]: the loop is still running when [polls] ends. *)
Fixpoint wifi_wait (startTime : Z) (polls : list (bool * Z)) : option bool :=
  match polls with
  | [] => None
  | (connected, now) :: rest =>
      if connected then Some true
      else if WIFI_TIMEOUT_MS <? wrap32 (now - startTime) then Some false
      else wifi_wait startTime rest
  end.

Definition connectToWiFi (startTime : Z) (polls : list (bool * Z))
  : option bool := wifi_wait startTime polls.

Definition connectForTimeSync (startTime : Z) (polls : list (bool * Z))
  : option bool := wifi_wait startTime polls.

(** *** TimeSync.cpp: syncTimeWithNTP *)

Definition NTP_MAX_RETRIES : nat := 20.

(** The loop [while (!getLocalTime(&timeinfo) && retry < maxRetries)]:
    [answers] are the results of the successive [getLocalTime] calls; the
    result is the value of [retry] when the loop is left. *)
Fixpoint ntp_wait (answers : list bool) (retry : nat) : option nat :=
  match answers with
  | [] => None
  | got_time :: rest =>
      if got_time then Some retry
      else if (retry <? NTP_MAX_RETRIES)%nat then ntp_wait rest (S retry)
      else Some retry
  end.

Definition syncTimeWithNTP (answers : list bool) : option bool :=
  match ntp_wait answers 0 with
  | None => None
  | Some retry => Some (negb (NTP_MAX_RETRIES <=? retry)%nat)
  end.

(** *** TimeSync.cpp: performTimeSync, timeSyncTask, helpers *)

(** What one synchronisation attempt meets: the results of
    [connectForTimeSync] and of [syncTimeWithNTP], and the inputs of
    [updateRTCFromNTP]. *)
Record SyncAttempt := mkSyncAttempt {
  wifi_result : bool;
  ntp_result : bool;
  sync_rtc : option DS1308Sensor.t;
  sync_now : time_t;
  sync_readback : DateTime.t
}.

(** [performTimeSync]: every path ends in the clean-up that clears
    [systemStatus.wifi_connected]. *)
Definition performTimeSync (st : TimeSync.state) (status : SystemStatus)
    (a : SyncAttempt)
  : bool * TimeSync.state * SystemStatus * list TimeSync.event :=
  let '(success, st', trace) :=
    if negb (wifi_result a) then (false, st, [])
    else if negb (ntp_result a) then (false, st, [])
    else
      let '(ok, st', trace) :=
        TimeSync.updateRTCFromNTP st (sync_rtc a) (sync_now a)
          (sync_readback a) in
      if negb ok then (false, st', trace) else (true, st', trace) in
  (success, st', set_wifi_connected status false, trace).

Definition SYNC_MAX_ATTEMPTS : nat := 3.

Record InitialSync := mkInitialSync {
  is_state : TimeSync.state;
  is_status : SystemStatus;
  is_attempts : nat;
  is_delays : nat;                        (* 30 s waits between attempts *)
  is_trace : list TimeSync.event
}.

(** The start-up phase of [timeSyncTask]: the loop
    [while (!initialSyncComplete && attempts < maxAttempts)].  [None]: the
    loop wants another attempt and [envs] has none left. *)
Fixpoint initial_sync (envs : list SyncAttempt) (r : InitialSync)
  : option InitialSync :=
  if negb (TimeSync.initialSyncComplete (is_state r))
     && (is_attempts r <? SYNC_MAX_ATTEMPTS)%nat
  then
    match envs with
    | [] => None
    | a :: rest =>
        let attempts := S (is_attempts r) in
        let '(ok, st', status', trace) :=
          performTimeSync (is_state r) (is_status r) a in
        if ok then
          Some (mkInitialSync st' status' attempts (is_delays r)
                  (is_trace r ++ trace))
        else if (attempts <? SYNC_MAX_ATTEMPTS)%nat then
          initial_sync rest
            (mkInitialSync st' status' attempts (S (is_delays r))
               (is_trace r ++ trace))
        else
          initial_sync rest
            (mkInitialSync st' status' attempts (is_delays r)
               (is_trace r ++ trace))
    end
  else Some r.

Definition isTimeSynced (st : TimeSync.state) : bool :=
  TimeSync.initialSyncComplete st.

(** [getTimeSinceLastSync]: [now] is the system time at the call. *)
Definition getTimeSinceLastSync (st : TimeSync.state) (now : time_t) : Z :=
  if TimeSync.lastSyncTime st =? 0 then 0
  else wrap32 (now - TimeSync.lastSyncTime st).

(** *** LoggingTask.cpp: the task loop over successive records *)

Section LoggingRun.

Variable gmtime_ymd : time_t -> Z * Z * Z.

(** The iterations of [while (true)] that the inputs [inps] describe, with
    what each one received. *)
Fixpoint logging_run (q : Queue.t AggregatedData) (st : LogState)
    (inps : list LogInput)
  : Queue.t AggregatedData * LogState
    * list (AggregatedData * LogOutcome) :=
  match inps with
  | [] => (q, st, [])
  | inp :: rest =>
      let '(q', st', res) := logging_iteration gmtime_ymd q st inp in
      let '(q'', st'', log) := logging_run q' st' rest in
      (q'', st'',
       match res with Some e => e :: log | None => log end)
  end.

(** Consecutive [writeDataToSD] calls. *)
Fixpoint write_all (sd : SDCard) (records : list AggregatedData)
  : list bool * SDCard :=
  match records with
  | [] => ([], sd)
  | d :: rest =>
      let (ok, sd') := writeDataToSD gmtime_ymd sd d in
      let (oks, sd'') := write_all sd' rest in
      (ok :: oks, sd'')
  end.

End LoggingRun.

(** *** CloudTask.cpp: successive upload cycles *)

Record CycleEnv := mkCycleEnv {
  cycle_wifi_ok : bool;
  cycle_mqtt_ok : bool;
  cycle_script : list PublishEvent
}.

Fixpoint upload_run (q : Queue.t AggregatedData) (st : UploadState)
    (cycles : list CycleEnv) : option (Queue.t AggregatedData * UploadState) :=
  match cycles with
  | [] => Some (q, st)
  | c :: rest =>
      match upload_cycle (cycle_wifi_ok c) (cycle_mqtt_ok c)
              (cycle_script c) q st with
      | None => None
      | Some (q', st') => upload_run q' st' rest
      end
  end.

(** A script in which nothing arrives during the publishes. *)
Definition quiet_script (results : list bool) : list PublishEvent :=
  map (fun ok => mkPublishEvent ok []) results.

(** *** SensorTask.cpp: initializeSensors, with the begin of the drivers *)

(** [SHT40Sensor::begin]: the answers of [sht4.begin()] and of the test
    [getEvent], and the values of the test event. *)
Definition SHT40_begin (begin_ok getEvent_ok : bool)
    (temperature relative_humidity : float) : bool :=
  if negb begin_ok then false
  else if negb getEvent_ok then false
  else if F32.isnan temperature || F32.isnan relative_humidity then false
  else true.

(** [SEN0193Sensor::begin]: the test value is only reported. *)
Definition SEN0193_begin (samples : list Z) : bool :=
  let testValue := readRawADC samples in
  true.

(** A driver object that [initializeSensors] put on [activeSensors]; its
    [begin] has set its found/initialized flag. *)
Inductive driver := DS18B20_driver | SHT40_driver | SEN0193_driver.

Record InitInput := mkInitInput {
  rtc_begin_ok : bool;
  ds_getAddress_ok : bool;
  ds_test_temp : float;
  sht_begin_ok : bool;
  sht_getEvent_ok : bool;
  sht_test_temp : float;
  sht_test_rh : float;
  soil_test_samples : list Z
}.

(** [initializeSensors]: the result, the clock object and [activeSensors]. *)
Definition initializeSensors (i : InitInput)
  : bool * option DS1308Sensor.t * list driver :=
  let allSuccess := true in
  let (rtc_ok, rtc) := DS1308_begin (rtc_begin_ok i) in
  let allSuccess := if negb rtc_ok then false else allSuccess in
  let active : list driver := [] in
  let '(active, allSuccess) :=
    if DS18B20_begin (ds_getAddress_ok i) (ds_test_temp i)
    then (active ++ [DS18B20_driver], allSuccess) else (active, false) in
  let '(active, allSuccess) :=
    if SHT40_begin (sht_begin_ok i) (sht_getEvent_ok i) (sht_test_temp i)
         (sht_test_rh i)
    then (active ++ [SHT40_driver], allSuccess) else (active, false) in
  let '(active, allSuccess) :=
    if SEN0193_begin (soil_test_samples i)
    then (active ++ [SEN0193_driver], allSuccess) else (active, false) in
  (allSuccess && true, Some rtc, active).

(** What the hardware answers during one tick of the running system. *)
Record TickHardware := mkTickHardware {
  hw_now : DateTime.t;
  hw_tempC : float;
  hw_getEvent_ok : bool;
  hw_temperature : float;
  hw_relative_humidity : float;
  hw_rawValue : Z
}.

Definition attach (hw : TickHardware) (d : driver) : ISensor :=
  match d with
  | DS18B20_driver => DS18B20Sensor true (hw_tempC hw)
  | SHT40_driver =>
      SHT40Sensor true (hw_getEvent_ok hw) (hw_temperature hw)
        (hw_relative_humidity hw)
  | SEN0193_driver => SEN0193Sensor true (hw_rawValue hw)
  end.

(** The tick the objects left by [initializeSensors] go through. *)
Definition tick_of (rtc : option DS1308Sensor.t) (drivers : list driver)
    (hw : TickHardware) : TickInput :=
  mkTickInput rtc (hw_now hw) (map (attach hw) drivers).

(** ** Vocabulary for the further properties *)

(** The records of a list up to and without the first whose publish fails,
    and what is left from that record on. *)
Fixpoint published_prefix (results : list bool) (records : list AggregatedData)
  : list AggregatedData :=
  match records, results with
  | d :: records', true :: results' => d :: published_prefix results' records'
  | _, _ => []
  end.

Fixpoint unpublished_rest (results : list bool) (records : list AggregatedData)
  : list AggregatedData :=
  match records, results with
  | d :: records', true :: results' => unpublished_rest results' records'
  | _, _ => records
  end.

(** A reading whose channels are each NaN or within the range its driver
    accepts. *)
Definition in_range (lo hi : float) (x : float) : Prop :=
  F32.isnan x = true \/ (F32.le lo x = true /\ F32.le x hi = true).

Definition reading_in_range (r : RawReading) : Prop :=
  in_range (SFopp (F32.of_Z 55)) (F32.of_Z 125) (ds18b20_temp r)
  /\ in_range (SFopp (F32.of_Z 40)) (F32.of_Z 125) (sht40_temp r)
  /\ in_range F32.zero (F32.of_Z 100) (sht40_humidity r)
  /\ in_range F32.zero (F32.of_Z 65535) (sen0193_moisture_raw r).

Definition channel_lo (c : channel) : float :=
  match c with
  | DS18B20 => SFopp (F32.of_Z 55)
  | SHT40_TEMP => SFopp (F32.of_Z 40)
  | SHT40_HUM => F32.zero
  | SOIL => F32.zero
  end.

Definition channel_hi (c : channel) : float :=
  match c with
  | DS18B20 => F32.of_Z 125
  | SHT40_TEMP => F32.of_Z 125
  | SHT40_HUM => F32.of_Z 100
  | SOIL => F32.of_Z 65535
  end.

(** The reading a tick builds before it decides about the queue. *)
Definition tick_reading (i : TickInput) : RawReading :=
  read_sensors (activeSensors i) (snd (read_timestamp i RawReading_new)).

(** ** Auxiliary definitions and sample inputs for the further properties *)

(** The three-sample window without its NaN reading, at other times. *)
Definition window_20_22 : list RawReading :=
  [ mkRawReading 1700000100 (F32.of_Z 20) (F32.of_Z 5) F32.NAN F32.NAN;
    mkRawReading 1700000101 (F32.of_Z 22) F32.NAN F32.NAN F32.NAN ].

Definition record_20_22 : AggregatedData :=
  Eval vm_compute in
    build_record (fst (collect AggState_init window_20_22)) 2.

(** [f] holds on [lo, lo + 2^bits), checked by evaluation. *)
Fixpoint check_range (bits : nat) (lo : Z) (f : Z -> bool) : bool :=
  match bits with
  | O => f lo
  | S b => check_range b lo f && check_range b (lo + 2 ^ Z.of_nat b) f
  end.

(** A window of two readings built by the acquisition loop. *)
Definition window_from_ticks : list RawReading :=
  [tick_reading tick_2024_03_01; tick_reading tick_2024_03_01].

Definition record_from_ticks : AggregatedData :=
  Eval vm_compute in
    build_record (fst (collect AggState_init window_from_ticks)) 2.

(** The number a run of decimal digits denotes. *)
Fixpoint undec_from (acc : Z) (s : string) : Z :=
  match s with
  | EmptyString => acc
  | String c rest => undec_from (10 * acc + (Z.of_nat (nat_of_ascii c) - 48)) rest
  end.

Definition undec (s : string) : Z := undec_from 0 s.

(** Year, month and day as [gmtime] delivers them for any date up to the
    year 9999. *)
Definition date_fields_ok (ymd : Z * Z * Z) : Prop :=
  let '(y, mo, day) := ymd in
  0 <= y < 10000 /\ 0 <= mo < 100 /\ 0 <= day < 100.

Definition header_line : string := (CSV_HEADER ++ CRLF)%string.

(** The rows of [records], one after the other. *)
Fixpoint rows_text (records : list AggregatedData) : string :=
  match records with
  | [] => EmptyString
  | d :: rest => (csv_row d ++ rows_text rest)%string
  end.

(** The records a log says were written. *)
Definition written_count (log : list (AggregatedData * LogOutcome)) : nat :=
  List.length
    (filter (fun e => match snd e with Written => true | _ => false end) log).

(** Three queued records; the mutex is not obtained for the second. *)
Definition three_record_queue : Queue.t AggregatedData :=
  Queue.mk [stats_record 60; stats_record 120; stats_record 180]
    AGGREGATED_DATA_QUEUE_SIZE.

Definition three_inputs : list LogInput :=
  [mkLogInput true true; mkLogInput true false; mkLogInput true true].

(** The state a failed write leaves, and a record arriving afterwards. *)
Definition log_state_after_failure : LogState :=
  mkLogState false (mkSystemStatus 0 0 0 false false false 0 0 1 0) 0 1
    (mkSDCard [] true true).

(** State and [itemsUploaded] after a drain of [records] whose publishes
    answer [results] while nothing arrives. *)
Fixpoint state_after_drain (st : UploadState) (results : list bool)
    (records : list AggregatedData) : UploadState :=
  match records, results with
  | d :: records', true :: results' =>
      state_after_drain (on_publish_success st d) results' records'
  | d :: _, false :: _ => on_publish_failure st d
  | _, _ => st
  end.

Fixpoint count_after_drain (n : Z) (results : list bool)
    (records : list AggregatedData) : Z :=
  match records, results with
  | _ :: records', true :: results' =>
      count_after_drain (wrap32 (n + 1)) results' records'
  | _, _ => n
  end.


(** Broker down, then the second publish fails, then everything goes
    through. *)
Definition three_cycles : list CycleEnv :=
  [ mkCycleEnv true false (quiet_script [true; true; true]);
    mkCycleEnv true true (quiet_script [true; false; true]);
    mkCycleEnv true true (quiet_script [true; true; true]) ].

(** The records the producer sends during the publishes of a script. *)
Definition script_arrivals (script : list PublishEvent) : nat :=
  fold_right (fun ev k => (List.length (arrived ev) + k)%nat) O script.

(** The records the aggregation task sends in a schedule. *)
Fixpoint sent_count (steps : list TaskStep) : nat :=
  match steps with
  | [] => O
  | AggregationSends _ :: rest => S (sent_count rest)
  | LoggingReceives :: rest => sent_count rest
  | UploadDrains script :: rest => (script_arrivals script + sent_count rest)%nat
  end.

(** The wait loop decided on the time really elapsed since its start. *)
Fixpoint wait_elapsed (polls : list (bool * Z)) : option bool :=
  match polls with
  | [] => None
  | (connected, elapsed) :: rest =>
      if connected then Some true
      else if WIFI_TIMEOUT_MS <? elapsed then Some false
      else wait_elapsed rest
  end.

(** What [millis()] shows [elapsed] milliseconds after it showed
    [startTime]. *)
Definition millis_at (startTime : Z) (poll : bool * Z) : bool * Z :=
  (fst poll, wrap32 (startTime + snd poll)).

(** The link never comes up; polls are exactly 500 ms apart. *)
Definition steady_polls (n : nat) : list (bool * Z) :=
  map (fun k => (false, 500 * Z.of_nat k)) (seq 0 n).

(** Twenty calls without the time, the time at the 21st. *)
Definition ntp_late_answers : list bool := repeat false 20 ++ [true; true].

(** Whether an attempt gets through its three steps; it does not depend on
    the state it starts from. *)
Definition update_ok (a : SyncAttempt) : bool :=
  fst (fst (TimeSync.updateRTCFromNTP (TimeSync.mkState 0 false)
              (sync_rtc a) (sync_now a) (sync_readback a))).

Definition attempt_succeeds (a : SyncAttempt) : bool :=
  wifi_result a && ntp_result a && update_ok a.

(** An attempt on 2024-03-01 12:00:00 UTC in which every step succeeds, and
    attempts that fail at the WiFi, at the NTP and at the clock step. *)
Definition attempt_good : SyncAttempt :=
  mkSyncAttempt true true (Some (DS1308Sensor.mk true)) 1709294400
    (DateTime.mk 24 3 1 12 0 0).

Definition attempt_no_wifi : SyncAttempt :=
  mkSyncAttempt false true (Some (DS1308Sensor.mk true)) 1709294400
    (DateTime.mk 24 3 1 12 0 0).

Definition attempt_no_ntp : SyncAttempt :=
  mkSyncAttempt true false (Some (DS1308Sensor.mk true)) 1709294400
    (DateTime.mk 24 3 1 12 0 0).

Definition attempt_chip_stuck : SyncAttempt :=
  mkSyncAttempt true true (Some (DS1308Sensor.mk true)) 1709294400
    (DateTime.mk 0 1 1 0 0 5).

Definition status_boot : SystemStatus :=
  mkSystemStatus 0 0 0 true false true 0 0 0 0.

Definition adc_samples_noisy : list Z :=
  [2010; 2025; 1998; 2040; 2003; 2017; 2031; 1995; 2022; 2008].

(** The DS18B20 is absent at start-up and plugged in later. *)
Definition init_no_ds18b20 : InitInput :=
  mkInitInput true false F32.NAN true true (F32.of_Z 21) (F32.of_Z 40)
    [2010; 2025; 1998; 2040; 2003; 2017; 2031; 1995; 2022; 2008].

Definition hw_all_answering : TickHardware :=
  mkTickHardware (DateTime.mk 24 3 1 12 0 0) (F32.of_Z 20) true
    (F32.of_Z 21) (F32.of_Z 40) 2014.

Definition attempt_chip_absent : SyncAttempt :=
  mkSyncAttempt true true (Some (DS1308Sensor.mk false)) 1709294400
    (DateTime.mk 24 3 1 12 0 0).


(** The two failure counters either both stay or both advance by one. *)
Definition failure_counters_step (st st' : UploadState) : Prop :=
  (failedUploads st' = failedUploads st
   /\ mqtt_errors (uploadStatus st') = mqtt_errors (uploadStatus st))
  \/ (failedUploads st' = wrap32 (failedUploads st + 1)
      /\ mqtt_errors (uploadStatus st')
         = wrap32 (mqtt_errors (uploadStatus st) + 1)).

(* ======================================================================= *)
(** * Properties *)
(* ======================================================================= *)

(** ** Order of binary32 values *)

Lemma f32_lt_key (a b : float) :
  F32.isnan a = false -> F32.isnan b = false ->
  (F32.lt a b = true <-> key_lt (order_key a) (order_key b)).
Proof.
  intros Ha Hb.
  destruct a as [sa|sa| |sa ma ea], b as [sb|sb| |sb mb eb];
    try discriminate; unfold F32.lt, SFltb, SFcompare;
    try destruct sa; try destruct sb; cbn;
    try (split; [discriminate | lia]); try (split; [lia | reflexivity]);
    change (Pos.compare_cont Eq ?x ?y) with (Pos.compare x y);
    destruct (Z.compare_spec ea eb); destruct (Pos.compare_spec ma mb);
    cbn; split; intros; try discriminate; try reflexivity; try lia.
Qed.

Lemma f32_le_key (a b : float) :
  F32.isnan a = false -> F32.isnan b = false ->
  (F32.le a b = true <-> key_le (order_key a) (order_key b)).
Proof.
  intros Ha Hb.
  destruct a as [sa|sa| |sa ma ea], b as [sb|sb| |sb mb eb];
    try discriminate; unfold F32.le, SFleb, SFcompare;
    try destruct sa; try destruct sb; cbn;
    try (split; [discriminate | lia]); try (split; [lia | reflexivity]);
    change (Pos.compare_cont Eq ?x ?y) with (Pos.compare x y);
    destruct (Z.compare_spec ea eb); destruct (Pos.compare_spec ma mb);
    cbn; split; intros; try discriminate; try reflexivity; try lia.
Qed.

Lemma f32_le_refl (a : float) : F32.isnan a = false -> F32.le a a = true.
Proof.
  intros Ha. apply f32_le_key; trivial.
  destruct (order_key a) as [[k1 k2] k3]; cbn; lia.
Qed.

Lemma f32_lt_le (a b : float) : F32.lt a b = true -> F32.le a b = true.
Proof.
  unfold F32.lt, F32.le, SFltb, SFleb.
  destruct (SFcompare a b) as [[ | | ]|]; congruence.
Qed.

Lemma f32_lt_not_nan (a b : float) :
  F32.lt a b = true -> F32.isnan a = false /\ F32.isnan b = false.
Proof.
  destruct a, b; cbn; intros H; try discriminate; split; reflexivity.
Qed.

Lemma f32_le_not_nan (a b : float) :
  F32.le a b = true -> F32.isnan a = false /\ F32.isnan b = false.
Proof.
  destruct a, b; cbn; intros H; try discriminate; split; reflexivity.
Qed.

Lemma f32_not_lt_le (a b : float) :
  F32.isnan a = false -> F32.isnan b = false ->
  F32.lt a b = false -> F32.le b a = true.
Proof.
  intros Ha Hb Hlt. apply f32_le_key; trivial.
  assert (Hn : ~ key_lt (order_key a) (order_key b)).
  { intros Hk. apply (f32_lt_key a b Ha Hb) in Hk. congruence. }
  revert Hn. destruct (order_key a) as [[a1 a2] a3].
  destruct (order_key b) as [[b1 b2] b3]. cbn. lia.
Qed.

Lemma f32_le_trans (a b c : float) :
  F32.le a b = true -> F32.le b c = true -> F32.le a c = true.
Proof.
  intros Hab Hbc.
  destruct (f32_le_not_nan _ _ Hab) as [Ha Hb].
  destruct (f32_le_not_nan _ _ Hbc) as [_ Hc].
  apply f32_le_key in Hab; trivial. apply f32_le_key in Hbc; trivial.
  apply f32_le_key; trivial. revert Hab Hbc.
  destruct (order_key a) as [[a1 a2] a3].
  destruct (order_key b) as [[b1 b2] b3].
  destruct (order_key c) as [[c1 c2] c3]. cbn. lia.
Qed.

Lemma not_lt_infinity (v : float) :
  F32.isnan v = false -> F32.lt v F32.INFINITY = false -> v = F32.INFINITY.
Proof.
  intros Hn Hlt.
  destruct v as [s|s| |s m e]; try destruct s; cbn in *;
    try discriminate; reflexivity.
Qed.

Lemma not_gt_neg_infinity (v : float) :
  F32.isnan v = false -> F32.gt v F32.NEG_INFINITY = false ->
  v = F32.NEG_INFINITY.
Proof.
  intros Hn Hlt.
  destruct v as [s|s| |s m e]; try destruct s; cbn in *;
    try discriminate; reflexivity.
Qed.

(** ** RunningStats *)

Lemma wrap32_small (n : Z) : 0 <= n < 2 ^ 32 -> wrap32 n = n.
Proof. intros H. unfold wrap32. apply Z.mod_small. exact H. Qed.

Lemma wrap16_small (n : Z) : 0 <= n < 2 ^ 16 -> wrap16 n = n.
Proof. intros H. unfold wrap16. apply Z.mod_small. exact H. Qed.

Lemma non_nan_app (l1 l2 : list float) :
  non_nan (l1 ++ l2) = non_nan l1 ++ non_nan l2.
Proof. apply filter_app. Qed.

Lemma non_nan_In (v : float) (l : list float) :
  In v (non_nan l) -> F32.isnan v = false.
Proof.
  unfold non_nan. rewrite filter_In. intros [_ H].
  destruct (F32.isnan v); [discriminate | reflexivity].
Qed.

Lemma stats_after_sum (vs : list float) (s : RunningStats.t) :
  RunningStats.sum (stats_after s vs)
  = fold_left F32.add (non_nan vs) (RunningStats.sum s).
Proof.
  revert s. induction vs as [|v vs IH]; intros s; [reflexivity|].
  cbn [stats_after fold_left]. fold (stats_after (RunningStats.addValue s v) vs).
  rewrite IH. unfold RunningStats.addValue, non_nan. cbn [filter].
  destruct (F32.isnan v); reflexivity.
Qed.

Lemma stats_after_count (vs : list float) (s : RunningStats.t) :
  0 <= RunningStats.count s ->
  RunningStats.count s + Z.of_nat (List.length vs) < 2 ^ 32 ->
  RunningStats.count (stats_after s vs)
  = RunningStats.count s + Z.of_nat (List.length (non_nan vs)).
Proof.
  revert s. induction vs as [|v vs IH]; intros s H0 Hlt.
  - cbn. lia.
  - cbn [stats_after fold_left].
    fold (stats_after (RunningStats.addValue s v) vs).
    cbn [List.length] in Hlt.
    unfold RunningStats.addValue, non_nan. cbn [filter].
    destruct (F32.isnan v); cbn [negb].
    + rewrite IH; [reflexivity | lia | lia].
    + rewrite IH; cbn [RunningStats.count].
      * rewrite wrap32_small by lia. cbn [List.length]. unfold non_nan. lia.
      * rewrite wrap32_small by lia. lia.
      * rewrite wrap32_small by lia. lia.
Qed.

Lemma addValue_min_inv (s : RunningStats.t) (seen : list float) (v : float) :
  (forall u, In u seen -> F32.isnan u = false) ->
  min_inv s seen ->
  min_inv (RunningStats.addValue s v) (seen ++ non_nan [v]).
Proof.
  intros Hseen Hinv. unfold RunningStats.addValue, non_nan. cbn [filter].
  destruct (F32.isnan v) eqn:Hv; cbn [negb].
  - rewrite app_nil_r. exact Hinv.
  - right. cbn [RunningStats.minVal].
    destruct Hinv as [[-> Hm] | [Hin Hle]].
    + cbn [app]. rewrite Hm.
      destruct (F32.lt v F32.INFINITY) eqn:Hlt.
      * split; [left; reflexivity|].
        intros u [<- | []]. apply f32_le_refl, Hv.
      * apply not_lt_infinity in Hlt; trivial. subst v.
        split; [left; reflexivity|].
        intros u [<- | []]. reflexivity.
    + assert (Hmn : F32.isnan (RunningStats.minVal s) = false)
        by (apply Hseen, Hin).
      destruct (F32.lt v (RunningStats.minVal s)) eqn:Hlt.
      * split; [apply in_or_app; right; left; reflexivity|].
        intros u Hu. apply in_app_or in Hu. destruct Hu as [Hu | [<- | []]].
        -- apply f32_le_trans with (RunningStats.minVal s);
             [apply f32_lt_le, Hlt | apply Hle, Hu].
        -- apply f32_le_refl, Hv.
      * split; [apply in_or_app; left; exact Hin|].
        intros u Hu. apply in_app_or in Hu. destruct Hu as [Hu | [<- | []]].
        -- apply Hle, Hu.
        -- apply f32_not_lt_le; trivial.
Qed.

Lemma addValue_max_inv (s : RunningStats.t) (seen : list float) (v : float) :
  (forall u, In u seen -> F32.isnan u = false) ->
  max_inv s seen ->
  max_inv (RunningStats.addValue s v) (seen ++ non_nan [v]).
Proof.
  intros Hseen Hinv. unfold RunningStats.addValue, non_nan. cbn [filter].
  destruct (F32.isnan v) eqn:Hv; cbn [negb].
  - rewrite app_nil_r. exact Hinv.
  - right. cbn [RunningStats.maxVal].
    destruct Hinv as [[-> Hm] | [Hin Hle]].
    + cbn [app]. rewrite Hm.
      destruct (F32.gt v F32.NEG_INFINITY) eqn:Hgt.
      * split; [left; reflexivity|].
        intros u [<- | []]. apply f32_le_refl, Hv.
      * apply not_gt_neg_infinity in Hgt; trivial. subst v.
        split; [left; reflexivity|].
        intros u [<- | []]. reflexivity.
    + assert (Hmn : F32.isnan (RunningStats.maxVal s) = false)
        by (apply Hseen, Hin).
      destruct (F32.gt v (RunningStats.maxVal s)) eqn:Hgt.
      * split; [apply in_or_app; right; left; reflexivity|].
        intros u Hu. apply in_app_or in Hu. destruct Hu as [Hu | [<- | []]].
        -- apply f32_le_trans with (RunningStats.maxVal s);
             [apply Hle, Hu | apply f32_lt_le, Hgt].
        -- apply f32_le_refl, Hv.
      * split; [apply in_or_app; left; exact Hin|].
        intros u Hu. apply in_app_or in Hu. destruct Hu as [Hu | [<- | []]].
        -- apply Hle, Hu.
        -- apply f32_not_lt_le; trivial.
Qed.

Lemma non_nan_cons (v : float) (vs : list float) :
  non_nan (v :: vs) = non_nan [v] ++ non_nan vs.
Proof. change (v :: vs) with ([v] ++ vs). apply non_nan_app. Qed.

Lemma In_app_non_nan (seen : list float) (v u : float) :
  (forall x, In x seen -> F32.isnan x = false) ->
  In u (seen ++ non_nan [v]) -> F32.isnan u = false.
Proof.
  intros Hseen Hu. apply in_app_or in Hu. destruct Hu as [Hu | Hu].
  - apply Hseen, Hu.
  - apply non_nan_In with (l := [v]), Hu.
Qed.

Lemma stats_after_min_inv (vs : list float) :
  forall (s : RunningStats.t) (seen : list float),
    (forall u, In u seen -> F32.isnan u = false) ->
    min_inv s seen ->
    min_inv (stats_after s vs) (seen ++ non_nan vs).
Proof.
  induction vs as [|v vs IH]; intros s seen Hseen Hinv.
  - cbn. rewrite app_nil_r. exact Hinv.
  - cbn [stats_after fold_left].
    fold (stats_after (RunningStats.addValue s v) vs).
    rewrite non_nan_cons, app_assoc. apply IH.
    + intros u. apply In_app_non_nan, Hseen.
    + apply addValue_min_inv; assumption.
Qed.

Lemma stats_after_max_inv (vs : list float) :
  forall (s : RunningStats.t) (seen : list float),
    (forall u, In u seen -> F32.isnan u = false) ->
    max_inv s seen ->
    max_inv (stats_after s vs) (seen ++ non_nan vs).
Proof.
  induction vs as [|v vs IH]; intros s seen Hseen Hinv.
  - cbn. rewrite app_nil_r. exact Hinv.
  - cbn [stats_after fold_left].
    fold (stats_after (RunningStats.addValue s v) vs).
    rewrite non_nan_cons, app_assoc. apply IH.
    + intros u. apply In_app_non_nan, Hseen.
    + apply addValue_max_inv; assumption.
Qed.

(** What a fresh accumulator reports after the values [vs]. *)
Lemma running_stats_correct (vs : list float) :
  Z.of_nat (List.length vs) < 2 ^ 32 ->
  let s := stats_after RunningStats.init vs in
  (non_nan vs = [] ->
   RunningStats.getAvg s = F32.NAN /\ RunningStats.getMin s = F32.NAN
   /\ RunningStats.getMax s = F32.NAN)
  /\ (non_nan vs <> [] ->
      RunningStats.getAvg s = arithmetic_mean (non_nan vs)
      /\ is_minimum (RunningStats.getMin s) (non_nan vs)
      /\ is_maximum (RunningStats.getMax s) (non_nan vs)).
Proof.
  intros Hlen s.
  assert (Hc : RunningStats.count s = Z.of_nat (List.length (non_nan vs))).
  { unfold s. rewrite stats_after_count; cbn [RunningStats.init RunningStats.count]; lia. }
  assert (Hs : RunningStats.sum s = float_sum (non_nan vs)).
  { unfold s. rewrite stats_after_sum. reflexivity. }
  assert (Hmin : min_inv s ([] ++ non_nan vs)).
  { apply stats_after_min_inv; [intros u []|]. left. split; reflexivity. }
  assert (Hmax : max_inv s ([] ++ non_nan vs)).
  { apply stats_after_max_inv; [intros u []|]. left. split; reflexivity. }
  cbn [app] in Hmin, Hmax.
  unfold RunningStats.getAvg, RunningStats.getMin, RunningStats.getMax.
  rewrite Hc. split.
  - intros Hnil. rewrite Hnil. cbn. repeat split.
  - intros Hne.
    assert (Hpos : (0 <? Z.of_nat (List.length (non_nan vs))) = true).
    { apply Z.ltb_lt. destruct (non_nan vs); [congruence | cbn; lia]. }
    rewrite Hpos, Hs. split; [reflexivity|]. split.
    + destruct Hmin as [[Hnil _] | H]; [congruence | exact H].
    + destruct Hmax as [[Hnil _] | H]; [congruence | exact H].
Qed.

(** ** aggregationTask *)

Lemma collect_one_stats (c : channel) (a : AggState) (n : Z) (r : RawReading) :
  stats_of c (fst (collect_one (a, n) r))
  = RunningStats.addValue (stats_of c a) (raw_of c r).
Proof. destruct c; reflexivity. Qed.

Lemma collect_stats (c : channel) (rs : list RawReading) :
  forall (a : AggState) (n : Z),
    stats_of c (fst (fold_left collect_one rs (a, n)))
    = stats_after (stats_of c a) (map (raw_of c) rs).
Proof.
  induction rs as [|r rs IH]; intros a n; [reflexivity|].
  cbn [fold_left map stats_after].
  fold (stats_after (RunningStats.addValue (stats_of c a) (raw_of c r))
          (map (raw_of c) rs)).
  rewrite <- collect_one_stats with (n := n).
  destruct (collect_one (a, n) r) as [a1 n1] eqn:E. cbn [fst]. apply IH.
Qed.

Lemma collect_count (rs : list RawReading) :
  forall (a : AggState) (n : Z),
    0 <= n -> n + Z.of_nat (List.length rs) < 2 ^ 32 ->
    snd (fold_left collect_one rs (a, n)) = n + Z.of_nat (List.length rs).
Proof.
  induction rs as [|r rs IH]; intros a n H0 Hlt.
  - cbn. lia.
  - cbn [List.length] in Hlt. cbn [fold_left collect_one].
    rewrite IH; rewrite wrap32_small by lia; cbn [List.length]; lia.
Qed.

Lemma collect_end (rs : list RawReading) :
  forall (a : AggState) (n : Z) (r : RawReading),
    windowEndTime (fst (fold_left collect_one (rs ++ [r]) (a, n)))
    = timestamp r.
Proof.
  intros a n r. rewrite fold_left_app. cbn [fold_left].
  destruct (fold_left collect_one rs (a, n)) as [a1 n1]. reflexivity.
Qed.

Lemma collect_start_kept (rs : list RawReading) :
  forall (a : AggState) (n : Z),
    windowStartTime a <> 0 ->
    windowStartTime (fst (fold_left collect_one rs (a, n)))
    = windowStartTime a.
Proof.
  induction rs as [|r rs IH]; intros a n Hne; [reflexivity|].
  cbn [fold_left collect_one].
  apply Z.eqb_neq in Hne. rewrite IH; cbn [windowStartTime]; rewrite Hne.
  - reflexivity.
  - apply Z.eqb_neq, Hne.
Qed.

Lemma collect_start (r : RawReading) (rs : list RawReading) (n : Z) :
  timestamp r <> 0 ->
  windowStartTime (fst (fold_left collect_one (r :: rs) (AggState_init, n)))
  = timestamp r.
Proof.
  intros Hne. cbn [fold_left collect_one AggState_init windowStartTime].
  rewrite collect_start_kept; cbn [windowStartTime]; cbn; exact Hne || reflexivity.
Qed.

Lemma aggregation_cycle_emits (rs : list RawReading) :
  rs <> [] -> Z.of_nat (List.length rs) < 2 ^ 32 ->
  aggregation_cycle AggState_init rs
  = (Some (build_record (fst (collect AggState_init rs))
             (Z.of_nat (List.length rs))), AggState_init).
Proof.
  intros Hne Hlen. unfold aggregation_cycle.
  pose proof (collect_count rs AggState_init 0 ltac:(lia) ltac:(lia)) as Hc.
  unfold collect in *. destruct (fold_left collect_one rs (AggState_init, 0))
    as [a' n'] eqn:E. cbn [snd fst] in *. subst n'.
  assert (Hpos : (0 <? 0 + Z.of_nat (List.length rs)) = true).
  { apply Z.ltb_lt. destruct rs; [congruence | cbn [List.length]; lia]. }
  rewrite Hpos. reflexivity.
Qed.

Lemma aggregation_cycle_silent :
  aggregation_cycle AggState_init [] = (None, AggState_init).
Proof. reflexivity. Qed.

(** Every window starts from freshly constructed accumulators. *)
Lemma aggregation_run_fresh (windows : list (list RawReading)) :
  Forall (fun w => Z.of_nat (List.length w) < 2 ^ 32) windows ->
  snd (aggregation_run AggState_init windows) = AggState_init.
Proof.
  induction 1 as [|w ws Hw _ IH]; [reflexivity|].
  cbn [aggregation_run].
  assert (E : snd (aggregation_cycle AggState_init w) = AggState_init).
  { destruct w as [|r w]; [reflexivity|].
    rewrite aggregation_cycle_emits; [reflexivity | discriminate | exact Hw]. }
  destruct (aggregation_cycle AggState_init w) as [out a']. cbn [snd] in E.
  subst a'. destruct (aggregation_run AggState_init ws) as [outs a''].
  exact IH.
Qed.

Lemma build_record_channel (c : channel) (a : AggState) (n : Z) :
  avg_of c (build_record a n) = RunningStats.getAvg (stats_of c a)
  /\ min_of c (build_record a n) = RunningStats.getMin (stats_of c a)
  /\ max_of c (build_record a n) = RunningStats.getMax (stats_of c a).
Proof. destruct c; repeat split. Qed.

(** C2. Whatever windows came before, a window that drained the non-empty
    sequence [rs] emits a record whose [sample_count] is the number of
    drained samples and whose statistics for every channel are taken over
    that channel's non-NaN values: NaN for all three when there is none,
    otherwise [avg] is their sum divided by their count, [min] a least and
    [max] a greatest of them.  The sample count is a [uint16_t]; windows are
    taken to hold fewer than 65536 samples. *)
Theorem aggregation_statistics
    (earlier : list (list RawReading)) (rs : list RawReading) (c : channel) :
  Forall (fun w => Z.of_nat (List.length w) < 2 ^ 16) earlier ->
  rs <> [] ->
  Z.of_nat (List.length rs) < 2 ^ 16 ->
  exists d,
    fst (aggregation_cycle (snd (aggregation_run AggState_init earlier)) rs)
    = Some d
    /\ sample_count d = Z.of_nat (List.length rs)
    /\ (channel_values c rs = [] ->
        avg_of c d = F32.NAN /\ min_of c d = F32.NAN /\ max_of c d = F32.NAN)
    /\ (channel_values c rs <> [] ->
        avg_of c d = arithmetic_mean (channel_values c rs)
        /\ is_minimum (min_of c d) (channel_values c rs)
        /\ is_maximum (max_of c d) (channel_values c rs)).
Proof.
  intros Hearlier Hne Hlen.
  rewrite aggregation_run_fresh.
  2:{ eapply Forall_impl; [|exact Hearlier]. cbn. intros w Hw. lia. }
  rewrite aggregation_cycle_emits by (trivial; lia). cbn [fst].
  eexists. split; [reflexivity|].
  split; [cbn [build_record sample_count]; apply wrap16_small; lia|].
  destruct (build_record_channel c (fst (collect AggState_init rs))
              (Z.of_nat (List.length rs))) as (-> & -> & ->).
  unfold collect. rewrite collect_stats.
  replace (stats_of c AggState_init) with RunningStats.init
    by (destruct c; reflexivity).
  unfold channel_values.
  apply (running_stats_correct (map (raw_of c) rs)).
  rewrite length_map. lia.
Qed.

Lemma aggregation_statistics_witness :
  exists d,
    fst (aggregation_cycle (snd (aggregation_run AggState_init []))
           window_20_22_nan) = Some d
    /\ sample_count d = Z.of_nat (List.length window_20_22_nan)
    /\ (channel_values DS18B20 window_20_22_nan = [] ->
        avg_of DS18B20 d = F32.NAN /\ min_of DS18B20 d = F32.NAN
        /\ max_of DS18B20 d = F32.NAN)
    /\ (channel_values DS18B20 window_20_22_nan <> [] ->
        avg_of DS18B20 d
        = arithmetic_mean (channel_values DS18B20 window_20_22_nan)
        /\ is_minimum (min_of DS18B20 d)
             (channel_values DS18B20 window_20_22_nan)
        /\ is_maximum (max_of DS18B20 d)
             (channel_values DS18B20 window_20_22_nan)).
Proof.
  apply (aggregation_statistics [] window_20_22_nan DS18B20).
  - constructor.
  - discriminate.
  - cbn. lia.
Defined.

(** The end-to-end scenario of the specification, evaluated. *)
Example scenario_20_22_nan :
  match emitted window_20_22_nan with
  | Some d =>
      ds18b20_avg d = F32.of_Z 21 /\ ds18b20_min d = F32.of_Z 20
      /\ ds18b20_max d = F32.of_Z 22 /\ sample_count d = 3
  | None => False
  end.
Proof. vm_compute. repeat split. Qed.

(** ** Window bounds *)

Lemma non_decreasing_tail (t : time_t) (ts : list time_t) :
  non_decreasing (t :: ts) -> non_decreasing ts.
Proof. destruct ts as [|t' ts]; cbn; tauto. Qed.

Lemma non_decreasing_head_le (ts : list time_t) :
  forall t, non_decreasing (t :: ts) -> forall u, In u ts -> t <= u.
Proof.
  induction ts as [|t' ts IH]; intros t Hs u Hu; [destruct Hu|].
  destruct Hs as [Hle Hs]. destruct Hu as [<- | Hu]; [exact Hle|].
  specialize (IH t' Hs u Hu). lia.
Qed.

Lemma fold_min_head (ts : list time_t) :
  forall t, (forall u, In u ts -> t <= u) -> fold_left Z.min ts t = t.
Proof.
  induction ts as [|t' ts IH]; intros t H; [reflexivity|].
  cbn [fold_left]. rewrite Z.min_l by (apply H; left; reflexivity).
  apply IH. intros u Hu. apply H. right. exact Hu.
Qed.

Lemma last_cons_default (A : Type) (x : A) (l : list A) (a b : A) :
  last (x :: l) a = last (x :: l) b.
Proof.
  revert x. induction l as [|y l IH]; intros x; [reflexivity|].
  change (last (y :: l) a = last (y :: l) b). apply IH.
Qed.

Lemma fold_max_last (ts : list time_t) :
  forall t, non_decreasing (t :: ts) -> fold_left Z.max ts t = last ts t.
Proof.
  induction ts as [|t' ts IH]; intros t Hs; [reflexivity|].
  destruct Hs as [Hle Hs]. cbn [fold_left]. rewrite Z.max_r by exact Hle.
  rewrite IH by exact Hs. destruct ts as [|t'' ts]; [reflexivity|].
  change (last (t' :: t'' :: ts) t) with (last (t'' :: ts) t).
  apply last_cons_default.
Qed.

Lemma last_map_timestamp (rs : list RawReading) (r0 : RawReading) :
  last (map timestamp rs) (timestamp r0) = timestamp (last rs r0).
Proof.
  induction rs as [|r rs IH]; [reflexivity|].
  destruct rs as [|r' rs]; [reflexivity|]. exact IH.
Qed.

Lemma non_decreasing_head_last (ts : list time_t) :
  forall t, non_decreasing (t :: ts) -> t <= last ts t.
Proof.
  intros t Hs. destruct ts as [|t' ts]; [cbn; lia|].
  apply non_decreasing_head_le with (ts := t' :: ts); [exact Hs|].
  clear Hs. revert t'. induction ts as [|t'' ts IH]; intros t'.
  - left. reflexivity.
  - right. apply IH.
Qed.

(** C4, as the code has it.  The record a window emits carries the
    timestamp of the first drained sample as its start and that of the last
    drained sample as its end (samples carry non-zero timestamps); when the
    timestamps never step back in queue order these are the minimum and the
    maximum of the window and start <= end. *)
Theorem window_bounds_first_last
    (r : RawReading) (rs : list RawReading) (d : AggregatedData) :
  emitted (r :: rs) = Some d ->
  timestamp r <> 0 ->
  start_timestamp d = timestamp r
  /\ end_timestamp d = timestamp (last rs r)
  /\ (non_decreasing (map timestamp (r :: rs)) ->
      start_timestamp d = ts_min (map timestamp (r :: rs))
      /\ end_timestamp d = ts_max (map timestamp (r :: rs))
      /\ start_timestamp d <= end_timestamp d).
Proof.
  intros Hem Hr.
  assert (Hd : d = build_record (fst (collect AggState_init (r :: rs)))
                     (snd (collect AggState_init (r :: rs)))).
  { unfold emitted, aggregation_cycle in Hem.
    destruct (collect AggState_init (r :: rs)) as [a' n'].
    destruct (0 <? n'); cbn in *; congruence. }
  assert (Hstart : start_timestamp d = timestamp r).
  { subst d. cbn [build_record start_timestamp]. unfold collect.
    apply collect_start, Hr. }
  assert (Hend : end_timestamp d = timestamp (last rs r)).
  { subst d. cbn [build_record end_timestamp]. unfold collect.
    destruct (exists_last (l := r :: rs) ltac:(discriminate)) as (pre & z & E).
    rewrite E, collect_end.
    replace (last rs r) with (last (r :: rs) r)
      by (destruct rs; reflexivity).
    rewrite E, last_last. reflexivity. }
  split; [exact Hstart|]. split; [exact Hend|].
  intros Hs. cbn [map ts_min ts_max] in *.
  rewrite Hstart, Hend, <- last_map_timestamp.
  split; [|split].
  - symmetry. apply fold_min_head. apply non_decreasing_head_le, Hs.
  - symmetry. apply fold_max_last, Hs.
  - apply non_decreasing_head_last, Hs.
Qed.

Lemma window_bounds_first_last_witness :
  start_timestamp record_20_22_nan = 1700000000
  /\ end_timestamp record_20_22_nan = 1700000002
  /\ (non_decreasing (map timestamp window_20_22_nan) ->
      start_timestamp record_20_22_nan
      = ts_min (map timestamp window_20_22_nan)
      /\ end_timestamp record_20_22_nan
         = ts_max (map timestamp window_20_22_nan)
      /\ start_timestamp record_20_22_nan <= end_timestamp record_20_22_nan).
Proof.
  apply (window_bounds_first_last
           (mkRawReading 1700000000 (F32.of_Z 20) F32.NAN F32.NAN F32.NAN)
           [ mkRawReading 1700000001 (F32.of_Z 22) F32.NAN F32.NAN F32.NAN;
             mkRawReading 1700000002 F32.NAN F32.NAN F32.NAN F32.NAN ]
           record_20_22_nan).
  - vm_compute. reflexivity.
  - cbn. lia.
Defined.

(** C4 as stated fails: the emitted start is not the minimum, the emitted
    end is not the maximum, and start > end. *)
Lemma window_bounds_counterexample :
  match emitted window_clock_stepped_back with
  | Some d =>
      start_timestamp d = 1700000060
      /\ end_timestamp d = 1700000000
      /\ ts_min (map timestamp window_clock_stepped_back) = 1700000000
      /\ ts_max (map timestamp window_clock_stepped_back) = 1700000060
      /\ ~ start_timestamp d <= end_timestamp d
  | None => False
  end.
Proof. vm_compute. repeat split. intros H. apply H. reflexivity. Qed.

(** ** Acquisition: no sample with a zero timestamp is enqueued *)

Lemma month_days_bounds (month : Z) :
  0 <= month <= 12 -> 0 <= DateTime.month_days month <= 334.
Proof.
  intros H.
  assert (E : month = 0 \/ month = 1 \/ month = 2 \/ month = 3 \/ month = 4
              \/ month = 5 \/ month = 6 \/ month = 7 \/ month = 8
              \/ month = 9 \/ month = 10 \/ month = 11 \/ month = 12) by lia.
  repeat (destruct E as [-> | E]); try subst month;
    match goal with
    | |- 0 <= ?x <= 334 =>
        let v := eval vm_compute in x in change x with v
    end; lia.
Qed.

(** A date the driver accepts lies between 2020 and 2100, and RTClib turns
    it into a number of seconds that is positive and fits 32 bits. *)
Lemma unixtime_accepted_year (dt : DateTime.t) :
  DateTime.wf dt ->
  2020 <= DateTime.year dt <= 2100 ->
  1577836800 - 86400 <= DateTime.unixtime dt < 2 ^ 32.
Proof.
  unfold DateTime.wf, DateTime.year, DateTime.unixtime, DateTime.time2ulong,
    DateTime.date2days.
  intros (Hy & Hm & Hd & Hh & Hmi & Hs) Hyear.
  pose proof (month_days_bounds (DateTime.m dt) Hm) as Hmd.
  set (md := DateTime.month_days (DateTime.m dt)) in *.
  replace (2000 <=? DateTime.yOff dt) with false
    by (symmetry; apply Z.leb_gt; lia).
  assert (Hq : 5 <= (DateTime.yOff dt + 3) / 4 <= 25).
  { pose proof (Z.div_mod (DateTime.yOff dt + 3) 4 ltac:(lia)).
    pose proof (Z.mod_pos_bound (DateTime.yOff dt + 3) 4 ltac:(lia)). lia. }
  set (q := (DateTime.yOff dt + 3) / 4) in *.
  rewrite (wrap16_small (DateTime.d dt + md)) by lia.
  assert (Hleap : forall b : bool,
             0 <= (if b then wrap16 (DateTime.d dt + md + 1)
                   else DateTime.d dt + md) <= 590).
  { intros []; [rewrite wrap16_small by lia|]; lia. }
  specialize (Hleap ((2 <? DateTime.m dt) && (DateTime.yOff dt mod 4 =? 0))).
  set (days := if (2 <? DateTime.m dt) && (DateTime.yOff dt mod 4 =? 0)
               then _ else _) in *.
  rewrite (wrap16_small (days + 365 * DateTime.yOff dt + q - 1)) by lia.
  rewrite (wrap32_small ((((_ * 24 + _) * 60 + _) * 60 + _))) by lia.
  rewrite wrap32_small; unfold DateTime.SECONDS_FROM_1970_TO_2000; lia.
Qed.

Lemma DS1308_read_ok (s : DS1308Sensor.t) (now : DateTime.t)
    (data data' : RawReading) :
  DS1308Sensor.read s now data = (true, data') ->
  2020 <= DateTime.year now <= 2100
  /\ timestamp data' = DateTime.unixtime now.
Proof.
  unfold DS1308Sensor.read.
  destruct (DS1308Sensor.rtcFound s); cbn [negb]; [|discriminate].
  destruct (DateTime.year now <? 2020) eqn:E1; cbn [orb]; [discriminate|].
  destruct (2100 <? DateTime.year now) eqn:E2; [discriminate|].
  intros H. injection H as <-. cbn [timestamp].
  apply Z.ltb_ge in E1, E2. split; [lia | reflexivity].
Qed.

(** The environmental drivers leave the timestamp alone. *)
Lemma sensor_read_timestamp (s : ISensor) (data : RawReading) :
  timestamp (snd (sensor_read s data)) = timestamp data.
Proof.
  destruct s; cbn [sensor_read];
    repeat match goal with
           | |- context [if ?b then _ else _] => destruct b
           end; reflexivity.
Qed.

Lemma read_sensors_timestamp (sensors : list ISensor) :
  forall data, timestamp (read_sensors sensors data) = timestamp data.
Proof.
  induction sensors as [|s sensors IH]; intros data; [reflexivity|].
  unfold read_sensors in *. cbn [fold_left]. rewrite IH.
  apply sensor_read_timestamp.
Qed.

(** One tick either leaves the queue alone or appends one reading, and
    then under the conditions listed. *)
Lemma sensor_tick_enqueue (st : SensorTaskState) (i : TickInput) :
  DateTime.wf (rtc_now i) ->
  Queue.items (rawReadingQueue (sensor_tick st i))
  = Queue.items (rawReadingQueue st)
  \/ exists reading rtc,
       Queue.items (rawReadingQueue (sensor_tick st i))
       = Queue.items (rawReadingQueue st) ++ [reading]
       /\ rtcSensor i = Some rtc
       /\ fst (DS1308Sensor.read rtc (rtc_now i) RawReading_new) = true
       /\ 2020 <= DateTime.year (rtc_now i) <= 2100
       /\ timestamp reading = DateTime.unixtime (rtc_now i)
       /\ timestamp reading <> 0.
Proof.
  intros Hwf. unfold sensor_tick, read_timestamp.
  destruct (rtcSensor i) as [rtc|]; [|left; reflexivity].
  destruct (DS1308Sensor.read rtc (rtc_now i) RawReading_new)
    as [ok reading'] eqn:Eread.
  destruct ok; [|left; reflexivity].
  destruct (DS1308_read_ok _ _ _ _ Eread) as [Hyear Hts].
  unfold Queue.send.
  destruct (Queue.is_full (rawReadingQueue st)); cbn [fst snd];
    [left; reflexivity|].
  right. exists (read_sensors (activeSensors i) reading'), rtc.
  cbn [rawReadingQueue Queue.items fst].
  rewrite read_sensors_timestamp, Hts.
  pose proof (unixtime_accepted_year _ Hwf Hyear).
  rewrite Eread. repeat split; try reflexivity; lia.
Qed.

(** C5. Over any number of ticks of the acquisition loop, starting from a
    queue without zero timestamps (the empty queue at start-up), the queue
    never holds a reading whose timestamp is zero; and in each single tick
    the queue is either left as it was or gets exactly one reading at its
    back, in which case the RTC object exists, its read succeeded on a year
    in [2020, 2100], and the reading carries the RTC's Unix time, which is
    not zero.  The chip is taken to deliver a month register of at most 12. *)
Theorem no_zero_timestamp_enqueued
    (st : SensorTaskState) (ticks : list TickInput) :
  Forall (fun i => DateTime.wf (rtc_now i)) ticks ->
  Forall (fun r => timestamp r <> 0) (Queue.items (rawReadingQueue st)) ->
  Forall (fun r => timestamp r <> 0)
    (Queue.items (rawReadingQueue (sensor_run st ticks)))
  /\ forall st' i, In i ticks ->
       Queue.items (rawReadingQueue (sensor_tick st' i))
       = Queue.items (rawReadingQueue st')
       \/ exists reading rtc,
            Queue.items (rawReadingQueue (sensor_tick st' i))
            = Queue.items (rawReadingQueue st') ++ [reading]
            /\ rtcSensor i = Some rtc
            /\ fst (DS1308Sensor.read rtc (rtc_now i) RawReading_new) = true
            /\ 2020 <= DateTime.year (rtc_now i) <= 2100
            /\ timestamp reading = DateTime.unixtime (rtc_now i)
            /\ timestamp reading <> 0.
Proof.
  intros Hwf Hq. split.
  - revert st Hq. induction Hwf as [|i ticks Hi _ IH]; intros st Hq;
      [exact Hq|].
    unfold sensor_run in *. cbn [fold_left]. apply IH.
    destruct (sensor_tick_enqueue st i Hi)
      as [-> | (r & rtc & -> & _ & _ & _ & _ & Hr)]; [exact Hq|].
    apply Forall_app. split; [exact Hq|].
    constructor; [exact Hr | constructor].
  - intros st' i Hi. apply sensor_tick_enqueue.
    rewrite Forall_forall in Hwf. apply Hwf, Hi.
Qed.

Lemma no_zero_timestamp_enqueued_witness :
  Forall (fun r => timestamp r <> 0)
    (Queue.items
       (rawReadingQueue
          (sensor_run sensor_task_start [tick_rtc_reset; tick_2024_03_01])))
  /\ forall st' i, In i [tick_rtc_reset; tick_2024_03_01] ->
       Queue.items (rawReadingQueue (sensor_tick st' i))
       = Queue.items (rawReadingQueue st')
       \/ exists reading rtc,
            Queue.items (rawReadingQueue (sensor_tick st' i))
            = Queue.items (rawReadingQueue st') ++ [reading]
            /\ rtcSensor i = Some rtc
            /\ fst (DS1308Sensor.read rtc (rtc_now i) RawReading_new) = true
            /\ 2020 <= DateTime.year (rtc_now i) <= 2100
            /\ timestamp reading = DateTime.unixtime (rtc_now i)
            /\ timestamp reading <> 0.
Proof.
  apply (no_zero_timestamp_enqueued sensor_task_start
           [tick_rtc_reset; tick_2024_03_01]).
  - constructor; [unfold DateTime.wf; cbn; lia|].
    constructor; [unfold DateTime.wf; cbn; lia|]. constructor.
  - constructor.
Defined.

Example sensor_run_two_ticks :
  map timestamp
    (Queue.items
       (rawReadingQueue
          (sensor_run sensor_task_start [tick_rtc_reset; tick_2024_03_01])))
  = [1709294400]
  /\ failed_readings
       (sensorStatus
          (sensor_run sensor_task_start [tick_rtc_reset; tick_2024_03_01]))
     = 1.
Proof. vm_compute. split; reflexivity. Qed.

(** ** Time synchronisation *)




Example time_sync_rejects_1970 :
  TimeSync.updateRTCFromNTP (TimeSync.mkState 0 false)
    (Some (DS1308Sensor.mk true)) 1000 (DateTime.mk 24 3 1 12 0 0)
  = (false, TimeSync.mkState 0 false, []).
Proof. reflexivity. Qed.

Example time_sync_accepts_round_trip :
  TimeSync.updateRTCFromNTP (TimeSync.mkState 0 false)
    (Some (DS1308Sensor.mk true)) 1709294400 (DateTime.mk 24 3 1 12 0 1)
  = (true, TimeSync.mkState 1709294400 true,
     [TimeSync.SetTimeCalled 1709294400; TimeSync.Adjusted 1709294400]).
Proof. vm_compute. reflexivity. Qed.

(** ** Storage task: what a failed write does *)




(** The other two failure kinds do mark storage unavailable. *)
Example storage_write_failure_marks_unavailable :
  let '(q', st', res) :=
    logging_iteration (fun _ => (2023, 11, 14)) one_record_queue
      (mkLogState true (mkSystemStatus 0 0 0 false false true 0 0 0 0) 0 0
         (mkSDCard [] true false))
      (mkLogInput true true) in
  res = Some (record_20_22_nan, WriteFailed)
  /\ Queue.items q' = []
  /\ sd_write_errors (logStatus st') = 1
  /\ sd_card_ok (logStatus st') = false
  /\ sdCardInitialized st' = false.
Proof. vm_compute. repeat split. Qed.

Example storage_written_row :
  let '(q', st', res) :=
    logging_iteration (fun _ => (2023, 11, 14)) one_record_queue
      log_state_card_ok (mkLogInput true true) in
  res = Some (record_20_22_nan, Written)
  /\ sd_lookup (files (card st')) "/data_20231114.csv"
     = Some (CSV_HEADER ++ CRLF
             ++ "1700000000,1700000002,3,21.00,20.00,22.00,,,,,,,,," ++ CRLF)%string.
Proof. vm_compute. repeat split. Qed.

(** ** Text: characters of numbers and rows *)

Lemma str_app_assoc (a b c : string) :
  ((a ++ b) ++ c = a ++ (b ++ c))%string.
Proof. induction a as [|x a IH]; cbn; [reflexivity | rewrite IH; reflexivity]. Qed.

Lemma all_chars_app (p : ascii -> bool) (a b : string) :
  all_chars p (a ++ b) = all_chars p a && all_chars p b.
Proof.
  induction a as [|x a IH]; cbn; [reflexivity|].
  rewrite IH, andb_assoc. reflexivity.
Qed.

Lemma all_chars_weaken (p q : ascii -> bool) (s : string) :
  (forall c, p c = true -> q c = true) ->
  all_chars p s = true -> all_chars q s = true.
Proof.
  intros Hpq. induction s as [|x s IH]; cbn; [reflexivity|].
  intros H. apply andb_true_iff in H. destruct H as [Hx Hs].
  rewrite (Hpq x Hx), (IH Hs). reflexivity.
Qed.

Lemma count_char_app (c : ascii) (a b : string) :
  count_char c (a ++ b) = (count_char c a + count_char c b)%nat.
Proof.
  induction a as [|x a IH]; cbn; [reflexivity|]. rewrite IH. lia.
Qed.

Lemma count_char_absent (p : ascii -> bool) (c : ascii) (s : string) :
  p c = false -> all_chars p s = true -> count_char c s = 0%nat.
Proof.
  intros Hc. induction s as [|x s IH]; cbn; [reflexivity|].
  intros H. apply andb_true_iff in H. destruct H as [Hx Hs].
  rewrite (IH Hs). destruct (Ascii.eqb_spec c x) as [->|_]; [congruence|].
  reflexivity.
Qed.

Lemma is_digit_number_char (c : ascii) :
  is_digit c = true -> number_char c = true.
Proof. intros H. unfold number_char. rewrite H. reflexivity. Qed.

Lemma number_char_row_char (c : ascii) :
  number_char c = true -> row_char c = true.
Proof. intros H. unfold row_char. rewrite H. reflexivity. Qed.

Lemma digit_char_is_digit (n : Z) : is_digit (digit_char (n mod 10)) = true.
Proof.
  pose proof (Z.mod_pos_bound n 10 ltac:(lia)) as H.
  remember (n mod 10) as k eqn:Ek. clear Ek.
  assert (E : k = 0 \/ k = 1 \/ k = 2 \/ k = 3 \/ k = 4 \/ k = 5 \/ k = 6
              \/ k = 7 \/ k = 8 \/ k = 9) by lia.
  repeat (destruct E as [-> | E]); try subst k; reflexivity.
Qed.

Lemma dec_digits_digits (fuel : nat) :
  forall (n : Z) (acc : string),
    all_chars is_digit acc = true ->
    all_chars is_digit (dec_digits fuel n acc) = true.
Proof.
  induction fuel as [|fuel IH]; intros n acc Hacc; [exact Hacc|].
  cbn [dec_digits].
  assert (H : all_chars is_digit (String (digit_char (n mod 10)) acc) = true).
  { cbn [all_chars]. rewrite digit_char_is_digit, Hacc. reflexivity. }
  destruct (n / 10 =? 0); [exact H | apply IH, H].
Qed.

Lemma dec_digits_nonempty (fuel : nat) :
  forall (n : Z) (acc : string),
    acc <> EmptyString -> dec_digits fuel n acc <> EmptyString.
Proof.
  induction fuel as [|fuel IH]; intros n acc Hacc; [exact Hacc|].
  cbn [dec_digits]. destruct (n / 10 =? 0); [discriminate|].
  apply IH. discriminate.
Qed.

Lemma dec_unsigned_digits (n : Z) : all_chars is_digit (dec_unsigned n) = true.
Proof. apply dec_digits_digits. reflexivity. Qed.

Lemma dec_unsigned_nonempty (n : Z) : dec_unsigned n <> EmptyString.
Proof.
  unfold dec_unsigned. cbn [dec_digits].
  destruct (n / 10 =? 0); [discriminate|].
  apply dec_digits_nonempty. discriminate.
Qed.

Lemma dec_signed_chars (n : Z) : all_chars number_char (dec_signed n) = true.
Proof.
  unfold dec_signed. destruct (n <? 0).
  - cbn. apply all_chars_weaken with (p := is_digit);
      [apply is_digit_number_char | apply dec_unsigned_digits].
  - apply all_chars_weaken with (p := is_digit);
      [apply is_digit_number_char | apply dec_unsigned_digits].
Qed.

Lemma frac_digits_digits (k : nat) :
  forall n, all_chars is_digit (frac_digits k n) = true.
Proof.
  induction k as [|k IH]; intros n; [reflexivity|].
  cbn [frac_digits]. rewrite all_chars_app, IH. cbn [all_chars andb].
  rewrite digit_char_is_digit. reflexivity.
Qed.

Lemma str_length_app (a b : string) :
  String.length (a ++ b) = (String.length a + String.length b)%nat.
Proof. induction a as [|x a IH]; cbn; [reflexivity | rewrite IH; reflexivity]. Qed.

Lemma frac_digits_length (k : nat) :
  forall n, String.length (frac_digits k n) = k.
Proof.
  induction k as [|k IH]; intros n; [reflexivity|].
  cbn [frac_digits]. rewrite str_length_app, IH. cbn. lia.
Qed.

Lemma fixed_text_shape (decimals : nat) (sign : string) (scaled : Z) :
  sign = EmptyString \/ sign = "-"%string ->
  fixed_point_shape decimals (sign ++ fixed_text decimals scaled).
Proof.
  intros Hsign. unfold fixed_point_shape, fixed_text.
  exists sign, (dec_unsigned (scaled / 10 ^ Z.of_nat decimals)),
    (frac_digits decimals (scaled mod 10 ^ Z.of_nat decimals)).
  split; [reflexivity|]. split; [exact Hsign|].
  split; [apply dec_unsigned_nonempty|].
  split; [apply dec_unsigned_digits|].
  split; [apply frac_digits_digits | apply frac_digits_length].
Qed.

Lemma sign_text_cases (s : bool) :
  sign_text s = EmptyString \/ sign_text s = "-"%string.
Proof. destruct s; [right | left]; reflexivity. Qed.

(** A finite value is printed with exactly the requested decimals. *)
Lemma printf_f_shape (decimals : nat) (x : float) :
  F32.isnan x = false -> F32.isinf x = false ->
  fixed_point_shape decimals (printf_f decimals x).
Proof.
  intros Hn Hi.
  destruct x as [s|s| |s m e]; cbn in Hn, Hi; try discriminate;
    cbn [printf_f]; apply fixed_text_shape, sign_text_cases.
Qed.

Lemma fixed_text_chars (decimals : nat) (scaled : Z) :
  all_chars number_char (fixed_text decimals scaled) = true.
Proof.
  unfold fixed_text. rewrite all_chars_app.
  rewrite (all_chars_weaken is_digit number_char _ is_digit_number_char
             (dec_unsigned_digits _)).
  destruct decimals as [|k]; [reflexivity|].
  cbn [append all_chars andb]. 
  apply all_chars_weaken with (p := is_digit);
    [apply is_digit_number_char | apply frac_digits_digits].
Qed.

Lemma sign_text_chars (s : bool) : all_chars number_char (sign_text s) = true.
Proof. destruct s; reflexivity. Qed.

Lemma printf_f_chars (decimals : nat) (x : float) :
  F32.isnan x = false -> all_chars number_char (printf_f decimals x) = true.
Proof.
  destruct x as [s|s| |s m e]; cbn [printf_f F32.isnan]; try discriminate;
    intros _; rewrite all_chars_app, sign_text_chars; cbn [andb];
    try apply fixed_text_chars; reflexivity.
Qed.

Lemma printf_f_no_comma (decimals : nat) (x : float) :
  count_char "," (printf_f decimals x) = 0%nat.
Proof.
  destruct (F32.isnan x) eqn:E.
  - destruct x; try discriminate. reflexivity.
  - apply count_char_absent with (p := number_char); [reflexivity|].
    apply printf_f_chars, E.
Qed.

Lemma dec_signed_no_comma (n : Z) : count_char "," (dec_signed n) = 0%nat.
Proof.
  apply count_char_absent with (p := number_char);
    [reflexivity | apply dec_signed_chars].
Qed.

(** A text that holds [needle] holds each of its characters. *)
Lemma prefix_all_chars (p : ascii -> bool) (needle : string) :
  forall hay,
    String.prefix needle hay = true -> all_chars p hay = true ->
    all_chars p needle = true.
Proof.
  induction needle as [|x needle IH]; intros hay Hpre Hall; [reflexivity|].
  destruct hay as [|y hay]; cbn in Hpre; [discriminate|].
  destruct (Ascii.ascii_dec x y) as [->|]; [|discriminate].
  cbn in Hall |- *. apply andb_true_iff in Hall. destruct Hall as [Hy Hh].
  rewrite Hy, (IH hay Hpre Hh). reflexivity.
Qed.

Lemma contains_all_chars (p : ascii -> bool) (needle hay : string) :
  all_chars p hay = true -> all_chars p needle = false ->
  contains needle hay = false.
Proof.
  intros Hall Hneedle. induction hay as [|y hay IH].
  - cbn [contains]. destruct (String.prefix needle EmptyString) eqn:E;
      [|reflexivity].
    rewrite (prefix_all_chars p needle _ E Hall) in Hneedle. discriminate.
  - cbn [contains]. destruct (String.prefix needle (String y hay)) eqn:E.
    + rewrite (prefix_all_chars p needle _ E Hall) in Hneedle. discriminate.
    + cbn in Hall. apply andb_true_iff in Hall. destruct Hall as [_ Hh].
      cbn [orb]. apply IH, Hh.
Qed.

(** ** The CSV row *)

Lemma emitted_record (rs : list RawReading) (d : AggregatedData) :
  emitted rs = Some d ->
  d = build_record (fst (collect AggState_init rs))
        (snd (collect AggState_init rs)).
Proof.
  unfold emitted, aggregation_cycle.
  destruct (collect AggState_init rs) as [a' n'].
  destruct (0 <? n'); cbn; congruence.
Qed.

Lemma emitted_channel_stats (rs : list RawReading) (d : AggregatedData)
    (c : channel) :
  emitted rs = Some d ->
  let s := stats_after RunningStats.init (map (raw_of c) rs) in
  avg_of c d = RunningStats.getAvg s /\ min_of c d = RunningStats.getMin s
  /\ max_of c d = RunningStats.getMax s.
Proof.
  intros Hem s. rewrite (emitted_record rs d Hem).
  destruct (build_record_channel c (fst (collect AggState_init rs))
              (snd (collect AggState_init rs))) as (-> & -> & ->).
  unfold collect. rewrite collect_stats.
  replace (stats_of c AggState_init) with RunningStats.init
    by (destruct c; reflexivity).
  repeat split.
Qed.

(** In an emitted record a channel whose average is a number has a minimum
    and a maximum that are numbers too. *)
Lemma emitted_not_nan (rs : list RawReading) (d : AggregatedData)
    (c : channel) :
  emitted rs = Some d ->
  F32.isnan (avg_of c d) = false ->
  F32.isnan (min_of c d) = false /\ F32.isnan (max_of c d) = false.
Proof.
  intros Hem. destruct (emitted_channel_stats rs d c Hem) as (-> & -> & ->).
  set (vs := map (raw_of c) rs). set (s := stats_after RunningStats.init vs).
  assert (Hmin : min_inv s ([] ++ non_nan vs)).
  { apply stats_after_min_inv; [intros u []|]. left. split; reflexivity. }
  assert (Hmax : max_inv s ([] ++ non_nan vs)).
  { apply stats_after_max_inv; [intros u []|]. left. split; reflexivity. }
  cbn [app] in Hmin, Hmax.
  unfold RunningStats.getAvg, RunningStats.getMin, RunningStats.getMax.
  destruct (0 <? RunningStats.count s); [intros _ | discriminate]. split.
  - destruct Hmin as [[_ ->] | [Hin _]]; [reflexivity|].
    apply non_nan_In with (l := vs), Hin.
  - destruct Hmax as [[_ ->] | [Hin _]]; [reflexivity|].
    apply non_nan_In with (l := vs), Hin.
Qed.

Lemma csv_block_empty (c : channel) (d : AggregatedData) :
  F32.isnan (avg_of c d) = true -> csv_block c d = csv_empty_block c.
Proof.
  destruct c; cbn [avg_of csv_block csv_empty_block];
    unfold csv_ds18b20, csv_sht40_temp, csv_sht40_hum, csv_soil;
    intros ->; reflexivity.
Qed.

Lemma csv_block_data (c : channel) (d : AggregatedData) :
  F32.isnan (avg_of c d) = false ->
  csv_block c d
  = (printf_f (csv_decimals c) (avg_of c d) ++ ","
     ++ printf_f (csv_decimals c) (min_of c d) ++ ","
     ++ printf_f (csv_decimals c) (max_of c d) ++ csv_block_end c)%string.
Proof.
  destruct c; cbn [avg_of min_of max_of csv_block csv_decimals csv_block_end];
    unfold csv_ds18b20, csv_sht40_temp, csv_sht40_hum, csv_soil;
    intros ->; try reflexivity.
  assert (E : forall s : string, (s ++ EmptyString)%string = s).
  { induction s as [|x s IH]; cbn; [|rewrite IH]; reflexivity. }
  rewrite E. reflexivity.
Qed.

Lemma csv_block_commas (c : channel) (d : AggregatedData) :
  count_char "," (csv_block c d) = count_char "," (csv_empty_block c).
Proof.
  destruct (F32.isnan (avg_of c d)) eqn:E.
  - rewrite csv_block_empty by exact E. reflexivity.
  - rewrite csv_block_data by exact E.
    rewrite !count_char_app, !printf_f_no_comma. destruct c; reflexivity.
Qed.

Lemma csv_row_commas (d : AggregatedData) :
  count_char "," (csv_row d) = 14%nat.
Proof.
  unfold csv_row, csv_prefix.
  change (csv_ds18b20 d) with (csv_block DS18B20 d).
  change (csv_sht40_temp d) with (csv_block SHT40_TEMP d).
  change (csv_sht40_hum d) with (csv_block SHT40_HUM d).
  change (csv_soil d) with (csv_block SOIL d).
  rewrite !count_char_app, !dec_signed_no_comma.
  rewrite (csv_block_commas DS18B20 d), (csv_block_commas SHT40_TEMP d),
    (csv_block_commas SHT40_HUM d), (csv_block_commas SOIL d).
  reflexivity.
Qed.

Lemma csv_block_chars (c : channel) (d : AggregatedData) :
  (F32.isnan (avg_of c d) = false ->
   F32.isnan (min_of c d) = false /\ F32.isnan (max_of c d) = false) ->
  all_chars row_char (csv_block c d) = true.
Proof.
  intros H. destruct (F32.isnan (avg_of c d)) eqn:E.
  - rewrite csv_block_empty by exact E. destruct c; reflexivity.
  - destruct (H eq_refl) as [Hmin Hmax]. rewrite csv_block_data by exact E.
    rewrite !all_chars_app.
    rewrite !(all_chars_weaken number_char row_char _ number_char_row_char
                (printf_f_chars _ _ E)).
    rewrite !(all_chars_weaken number_char row_char _ number_char_row_char
                (printf_f_chars _ _ Hmin)).
    rewrite !(all_chars_weaken number_char row_char _ number_char_row_char
                (printf_f_chars _ _ Hmax)).
    destruct c; reflexivity.
Qed.

Lemma csv_row_chars (d : AggregatedData) :
  (forall c, F32.isnan (avg_of c d) = false ->
             F32.isnan (min_of c d) = false /\ F32.isnan (max_of c d) = false) ->
  all_chars row_char (csv_row d) = true.
Proof.
  intros H. unfold csv_row, csv_prefix.
  change (csv_ds18b20 d) with (csv_block DS18B20 d).
  change (csv_sht40_temp d) with (csv_block SHT40_TEMP d).
  change (csv_sht40_hum d) with (csv_block SHT40_HUM d).
  change (csv_soil d) with (csv_block SOIL d).
  rewrite !all_chars_app.
  rewrite !(all_chars_weaken number_char row_char _ number_char_row_char
              (dec_signed_chars _)).
  rewrite (csv_block_chars DS18B20 d (H DS18B20)),
    (csv_block_chars SHT40_TEMP d (H SHT40_TEMP)),
    (csv_block_chars SHT40_HUM d (H SHT40_HUM)),
    (csv_block_chars SOIL d (H SOIL)).
  reflexivity.
Qed.

(** C6. For every record the aggregation emits, the row [writeDataToSD]
    prints is the three leading integers followed by the four channel
    blocks.  A channel whose average is NaN contributes only separators; a
    channel with data contributes its avg, min and max printed with 2
    decimals for the two temperatures, 1 for humidity and 0 for soil
    moisture (every finite value has exactly that many digits after the
    point, and no point at all for 0).  Either way the block has the same
    number of commas, the row has as many commas as the header (14), and
    the text nan occurs nowhere in the row. *)
Theorem csv_row_format (rs : list RawReading) (d : AggregatedData) :
  emitted rs = Some d ->
  csv_row d
  = (csv_prefix d ++ csv_block DS18B20 d ++ csv_block SHT40_TEMP d
     ++ csv_block SHT40_HUM d ++ csv_block SOIL d ++ CRLF)%string
  /\ count_char "," (csv_row d) = count_char "," CSV_HEADER
  /\ count_char "," CSV_HEADER = 14%nat
  /\ contains "nan" (csv_row d) = false
  /\ forall c,
       count_char "," (csv_block c d) = count_char "," (csv_empty_block c)
       /\ (F32.isnan (avg_of c d) = true ->
           csv_block c d = csv_empty_block c)
       /\ (F32.isnan (avg_of c d) = false ->
           csv_block c d
           = (printf_f (csv_decimals c) (avg_of c d) ++ ","
              ++ printf_f (csv_decimals c) (min_of c d) ++ ","
              ++ printf_f (csv_decimals c) (max_of c d)
              ++ csv_block_end c)%string
           /\ forall x,
                In x [avg_of c d; min_of c d; max_of c d] ->
                F32.isinf x = false ->
                fixed_point_shape (csv_decimals c)
                  (printf_f (csv_decimals c) x)).
Proof.
  intros Hem. split; [reflexivity|].
  split; [rewrite csv_row_commas; reflexivity|].
  split; [reflexivity|]. split.
  - apply contains_all_chars with (p := row_char); [|reflexivity].
    apply csv_row_chars. intros c. apply (emitted_not_nan rs d c Hem).
  - intros c. split; [apply csv_block_commas|].
    split; [apply csv_block_empty|].
    intros E. split; [apply csv_block_data, E|].
    destruct (emitted_not_nan rs d c Hem E) as [Hmin Hmax].
    intros x [<- | [<- | [<- | []]]] Hinf; apply printf_f_shape; assumption.
Qed.

Lemma csv_row_format_witness :
  csv_row record_20_22_nan
  = ("1700000000,1700000002,3,21.00,20.00,22.00,,,,,,,,," ++ CRLF)%string
  /\ count_char "," (csv_row record_20_22_nan) = count_char "," CSV_HEADER
  /\ contains "nan" (csv_row record_20_22_nan) = false
  /\ csv_block DS18B20 record_20_22_nan = "21.00,20.00,22.00,"%string
  /\ csv_block SOIL record_20_22_nan = ",,"%string.
Proof.
  destruct (csv_row_format window_20_22_nan record_20_22_nan)
    as (Hrow & Hcount & _ & Hnan & Hblocks).
  - vm_compute. reflexivity.
  - split; [vm_compute; reflexivity|].
    split; [exact Hcount|]. split; [exact Hnan|]. split.
    + destruct (Hblocks DS18B20) as (_ & _ & Hdata).
      destruct Hdata as [E _]; [reflexivity|]. rewrite E.
      vm_compute. reflexivity.
    + destruct (Hblocks SOIL) as (_ & Hempty & _).
      apply Hempty. reflexivity.
Defined.

(** A successful [writeDataToSD] leaves the day's file ending in the row. *)
Lemma sd_lookup_append (fs : list (string * string)) (name text : string) :
  sd_lookup (sd_append fs name text) name
  = Some (match sd_lookup fs name with
          | Some old => (old ++ text)%string
          | None => text
          end).
Proof.
  induction fs as [|[n c] fs IH]; cbn [sd_append sd_lookup].
  - rewrite String.eqb_refl. reflexivity.
  - destruct (String.eqb n name) eqn:E; cbn [sd_lookup]; rewrite E;
      [reflexivity | exact IH].
Qed.

Lemma writeDataToSD_appends_row
    (gmtime_ymd : time_t -> Z * Z * Z) (sd sd' : SDCard)
    (data : AggregatedData) :
  writeDataToSD gmtime_ymd sd data = (true, sd') ->
  exists before,
    sd_lookup (files sd') (getLogFilename gmtime_ymd (start_timestamp data))
    = Some (before ++ csv_row data)%string.
Proof.
  unfold writeDataToSD, ensureFileWithHeaders, sd_exists.
  set (name := getLogFilename gmtime_ymd (start_timestamp data)).
  destruct (sd_lookup (files sd) name) as [old|] eqn:El.
  - cbn [negb]. destruct (append_ok sd); cbn [negb]; [|discriminate].
    intros H. injection H as <-. exists old.
    unfold sd_write. cbn [files]. rewrite sd_lookup_append, El. reflexivity.
  - destruct (create_ok sd); cbn [negb]; [|discriminate].
    unfold sd_write at 1. cbn [append_ok].
    destruct (append_ok sd); cbn [negb]; [|discriminate].
    intros H. injection H as <-. exists (CSV_HEADER ++ CRLF)%string.
    unfold sd_write. cbn [files].
    rewrite !sd_lookup_append, El. reflexivity.
Qed.

(** ** JSON payloads *)

Lemma contains_prefix (needle hay : string) :
  String.prefix needle hay = true -> contains needle hay = true.
Proof. intros H. destruct hay; cbn [contains]; rewrite H; reflexivity. Qed.

Lemma contains_app_r (needle a b : string) :
  contains needle b = true -> contains needle (a ++ b) = true.
Proof.
  intros H. induction a as [|x a IH]; [exact H|].
  cbn [append contains]. rewrite IH. apply orb_true_r.
Qed.

Lemma String_float_nan (f : float -> nat -> string) (x : float) (k : nat) :
  F32.isnan x = true -> String_float f x k = "nan"%string.
Proof. unfold String_float. intros ->. reflexivity. Qed.

Ltac find_object :=
  first [ apply contains_prefix; reflexivity
        | apply contains_app_r; find_object ].

Lemma mqtt_payload_nan_object
    (MQTT_CLIENT_ID : string) (f : float -> nat -> string)
    (d : AggregatedData) (c : channel) :
  F32.isnan (avg_of c d) = true -> F32.isnan (min_of c d) = true ->
  F32.isnan (max_of c d) = true ->
  contains (nan_object (mqtt_channel_name c)) (mqtt_payload MQTT_CLIENT_ID f d)
  = true.
Proof.
  intros Ha Hi Hx. unfold mqtt_payload. cbv zeta.
  destruct c; cbn [avg_of min_of max_of mqtt_channel_name] in *;
    rewrite (String_float_nan f _ _ Ha), (String_float_nan f _ _ Hi),
      (String_float_nan f _ _ Hx);
    rewrite !str_app_assoc; find_object.
Qed.

Lemma aggregatedDataToJSON_nan_object
    (f : float -> nat -> string) (d : AggregatedData) (c : channel) :
  F32.isnan (avg_of c d) = true -> F32.isnan (min_of c d) = true ->
  F32.isnan (max_of c d) = true ->
  contains (nan_object (json_channel_name c)) (aggregatedDataToJSON f d) = true.
Proof.
  intros Ha Hi Hx. unfold aggregatedDataToJSON. cbv zeta.
  destruct c; cbn [avg_of min_of max_of json_channel_name] in *;
    rewrite (String_float_nan f _ _ Ha), (String_float_nan f _ _ Hi),
      (String_float_nan f _ _ Hx);
    rewrite !str_app_assoc; find_object.
Qed.

Lemma stats_after_all_nan (vs : list float) :
  forall s, non_nan vs = [] -> stats_after s vs = s.
Proof.
  induction vs as [|v vs IH]; intros s H; [reflexivity|].
  unfold non_nan in H. cbn [filter] in H.
  destruct (F32.isnan v) eqn:E; cbn [negb] in H; [|discriminate].
  cbn [stats_after fold_left]. unfold RunningStats.addValue at 2.
  rewrite E. cbn [negb]. apply IH, H.
Qed.

(** A window in which a channel delivered no number emits NaN for the
    channel's three statistics. *)
Lemma emitted_no_data_nan (rs : list RawReading) (d : AggregatedData)
    (c : channel) :
  emitted rs = Some d -> channel_values c rs = [] ->
  F32.isnan (avg_of c d) = true /\ F32.isnan (min_of c d) = true
  /\ F32.isnan (max_of c d) = true.
Proof.
  intros Hem Hnil.
  destruct (emitted_channel_stats rs d c Hem) as (-> & -> & ->).
  rewrite stats_after_all_nan by exact Hnil. repeat split.
Qed.

(** C10. Whatever the client identifier and the rendering of finite
    values, a record whose statistics for a channel are NaN is serialized
    by [publishDataToMQTT] and by [aggregatedDataToJSON] with the text nan
    in the places of that channel's avg, min and max: the payload holds the
    channel object with the three nan tokens, where the CSV row has empty
    fields.  This is the case for every emitted record of a window in which
    the channel delivered no number. *)
Theorem json_nan_tokens
    (MQTT_CLIENT_ID : string) (dtostrf_finite : float -> nat -> string)
    (d : AggregatedData) (c : channel) :
  F32.isnan (avg_of c d) = true ->
  F32.isnan (min_of c d) = true ->
  F32.isnan (max_of c d) = true ->
  (forall k, String_float dtostrf_finite (avg_of c d) k = "nan"%string
             /\ String_float dtostrf_finite (min_of c d) k = "nan"%string
             /\ String_float dtostrf_finite (max_of c d) k = "nan"%string)
  /\ contains (nan_object (mqtt_channel_name c))
       (mqtt_payload MQTT_CLIENT_ID dtostrf_finite d) = true
  /\ contains (nan_object (json_channel_name c))
       (aggregatedDataToJSON dtostrf_finite d) = true
  /\ csv_block c d = csv_empty_block c
  /\ (forall rs d', emitted rs = Some d' -> channel_values c rs = [] ->
        contains (nan_object (mqtt_channel_name c))
          (mqtt_payload MQTT_CLIENT_ID dtostrf_finite d') = true
        /\ contains (nan_object (json_channel_name c))
             (aggregatedDataToJSON dtostrf_finite d') = true).
Proof.
  intros Ha Hi Hx. split; [|split; [|split; [|split]]].
  - intros k. repeat split; apply String_float_nan; assumption.
  - apply mqtt_payload_nan_object; assumption.
  - apply aggregatedDataToJSON_nan_object; assumption.
  - apply csv_block_empty, Ha.
  - intros rs d' Hem Hnil.
    destruct (emitted_no_data_nan rs d' c Hem Hnil) as (Ha' & Hi' & Hx').
    split; [apply mqtt_payload_nan_object
           | apply aggregatedDataToJSON_nan_object]; assumption.
Qed.

(** The record of the three-sample window has no soil-moisture data. *)
Lemma json_nan_tokens_witness :
  contains (nan_object "soil_moisture")
    (mqtt_payload "logger-01" (fun _ _ => "0"%string) record_20_22_nan) = true
  /\ contains (nan_object "soil")
       (aggregatedDataToJSON (fun _ _ => "0"%string) record_20_22_nan) = true
  /\ csv_block SOIL record_20_22_nan = ",,"%string.
Proof.
  destruct (json_nan_tokens "logger-01" (fun _ _ => "0"%string)
              record_20_22_nan SOIL) as (_ & H1 & H2 & H3 & _);
    try reflexivity.
  split; [exact H1|]. split; [exact H2 | exact H3].
Defined.

Example mqtt_payload_three_samples :
  mqtt_payload "logger-01" (fun _ _ => "0"%string) record_20_22_nan
  = ("{" ++ json_key "device" ++ dq ++ "logger-01" ++ dq ++ ","
     ++ json_key "start" ++ "1700000000," ++ json_key "end" ++ "1700000002,"
     ++ json_key "samples" ++ "3,"
     ++ json_key "ds18b20" ++ "{" ++ json_key "avg" ++ "0,"
     ++ json_key "min" ++ "0," ++ json_key "max" ++ "0},"
     ++ nan_object "sht40_temp" ++ "," ++ nan_object "sht40_humidity" ++ ","
     ++ nan_object "soil_moisture" ++ "}")%string.
Proof. vm_compute. reflexivity. Qed.

(** ** Upload drain *)

Lemma count_up_value (records : list AggregatedData) :
  forall n, count_up n records
            = if (List.length records =? 0)%nat then n
              else wrap32 (n + Z.of_nat (List.length records)).
Proof.
  induction records as [|d records IH]; intros n; [reflexivity|].
  unfold count_up in *. cbn [fold_left]. rewrite IH.
  cbn [List.length Nat.eqb]. destruct records as [|d' records].
  - cbn. reflexivity.
  - cbn [List.length Nat.eqb]. unfold wrap32.
    rewrite Zplus_mod_idemp_l. f_equal. lia.
Qed.

Lemma after_successes_fields (records : list AggregatedData) :
  forall st,
    delivered (after_successes st records) = delivered st ++ records
    /\ attempted (after_successes st records) = attempted st ++ records
    /\ failedUploads (after_successes st records) = failedUploads st
    /\ uploadStatus (after_successes st records) = uploadStatus st
    /\ successfulUploads (after_successes st records)
       = count_up (successfulUploads st) records.
Proof.
  induction records as [|d records IH]; intros st.
  - cbn. rewrite !app_nil_r. repeat split.
  - unfold after_successes, count_up in *. cbn [fold_left].
    destruct (IH (on_publish_success st d)) as (H1 & H2 & H3 & H4 & H5).
    rewrite H1, H2, H3, H4, H5. cbn [on_publish_success delivered attempted
      failedUploads uploadStatus successfulUploads].
    rewrite <- !app_assoc. repeat split.
Qed.

(** The loop up to its first failed publish: the records before it are
    published one by one, the failed one goes through the push-back, and
    the loop is left. *)
Lemma drain_first_failure
    (cap : nat) (pre : list AggregatedData) (r : AggregatedData)
    (post arrivals : list AggregatedData) (rest : list PublishEvent) :
  forall st n,
    drain (repeat published_quietly (List.length pre)
           ++ mkPublishEvent false arrivals :: rest)
          (Queue.mk (pre ++ r :: post) cap) st n
    = Some (snd (Queue.send_to_front
                   (enqueue_all (Queue.mk post cap) arrivals) r),
            on_publish_failure (after_successes st pre) r,
            count_up n pre).
Proof.
  induction pre as [|x pre IH]; intros st n; [reflexivity|].
  cbn [List.length repeat app drain Queue.receive Queue.items Queue.capacity
       published_quietly publish_ok arrived enqueue_all fold_left].
  rewrite IH. reflexivity.
Qed.


Lemma send_to_front_free (q : Queue.t AggregatedData) (r : AggregatedData) :
  Queue.is_full q = false ->
  Queue.send_to_front q r = (true, Queue.mk (r :: Queue.items q) (Queue.capacity q)).
Proof. unfold Queue.send_to_front. intros ->. reflexivity. Qed.

Lemma send_to_front_full (q : Queue.t AggregatedData) (r : AggregatedData) :
  Queue.is_full q = true -> Queue.send_to_front q r = (false, q).
Proof. unfold Queue.send_to_front. intros ->. reflexivity. Qed.






(** C9. When the publish of a dequeued record fails while the queue is
    full (records having been enqueued since the dequeue), the zero-timeout
    push-back fails, its result is not looked at, and the loop is left with
    the queue exactly as the arrivals made it: the failed record is in
    neither the queue nor the delivered records, and the counters are the
    ones of any failed publish.  With a free slot the record is at the
    head of the queue. *)
Theorem upload_pushback_discards_when_full
    (cap : nat) (pre : list AggregatedData) (r : AggregatedData)
    (post arrivals : list AggregatedData) (rest : list PublishEvent)
    (st : UploadState) :
  let q2 := enqueue_all (Queue.mk post cap) arrivals in
  let result :=
    drain (repeat published_quietly (List.length pre)
           ++ mkPublishEvent false arrivals :: rest)
          (Queue.mk (pre ++ r :: post) cap) st 0 in
  (Queue.is_full q2 = true ->
   fst (Queue.send_to_front q2 r) = false
   /\ result = Some (q2, on_publish_failure (after_successes st pre) r,
                     count_up 0 pre))
  /\ (Queue.is_full q2 = false ->
      fst (Queue.send_to_front q2 r) = true
      /\ result
         = Some (Queue.mk (r :: Queue.items q2) (Queue.capacity q2),
                 on_publish_failure (after_successes st pre) r,
                 count_up 0 pre))
  /\ delivered (on_publish_failure (after_successes st pre) r)
     = delivered st ++ pre.
Proof.
  intros q2 result. subst result. rewrite drain_first_failure. fold q2.
  split; [|split].
  - intros Hfull. rewrite send_to_front_full by exact Hfull.
    split; reflexivity.
  - intros Hfree. rewrite send_to_front_free by exact Hfree.
    split; reflexivity.
  - cbn [on_publish_failure delivered].
    apply (after_successes_fields pre st).
Qed.

Lemma upload_pushback_discards_when_full_witness :
  drain [mkPublishEvent false [stats_record 660]]
    (Queue.mk ten_records AGGREGATED_DATA_QUEUE_SIZE) UploadState_init 0
  = Some (Queue.mk (map stats_record
                      [120; 180; 240; 300; 360; 420; 480; 540; 600; 660])
            AGGREGATED_DATA_QUEUE_SIZE,
          on_publish_failure UploadState_init (stats_record 60), 0).
Proof.
  destruct (upload_pushback_discards_when_full AGGREGATED_DATA_QUEUE_SIZE []
              (stats_record 60) (tl ten_records) [stats_record 660] []
              UploadState_init) as ((_ & H) & _).
  - reflexivity.
  - exact H.
Defined.

(** ** One queue, two consumers *)

Lemma pipeline_logger_first (d : AggregatedData) (script : list PublishEvent) :
  exists p,
    pipeline_run Pipeline_init
      [AggregationSends d; LoggingReceives; UploadDrains script] = Some p
    /\ storage_received p = [d]
    /\ attempted (upload p) = []
    /\ delivered (upload p) = []
    /\ Queue.items (aggregatedDataQueue p) = [].
Proof.
  destruct script; (eexists; split; [reflexivity|]; repeat split).
Qed.

Lemma pipeline_uploader_first (d : AggregatedData) :
  exists p,
    pipeline_run Pipeline_init
      [AggregationSends d; UploadDrains [published_quietly]; LoggingReceives]
    = Some p
    /\ storage_received p = []
    /\ delivered (upload p) = [d]
    /\ Queue.items (aggregatedDataQueue p) = [].
Proof. eexists. split; [reflexivity|]. repeat split. Qed.

(** C1 on the code.  There is one queue and a receive takes the record off
    it: a record the storage task received is never seen by the upload
    task, whatever the upload task's publishes would have answered, and a
    record the upload task published is never seen by the storage task. *)
Theorem single_queue_one_consumer
    (d : AggregatedData) (script : list PublishEvent) :
  (exists p,
     pipeline_run Pipeline_init
       [AggregationSends d; LoggingReceives; UploadDrains script] = Some p
     /\ storage_received p = [d]
     /\ attempted (upload p) = []
     /\ delivered (upload p) = []
     /\ Queue.items (aggregatedDataQueue p) = [])
  /\ (exists p,
        pipeline_run Pipeline_init
          [AggregationSends d; UploadDrains [published_quietly];
           LoggingReceives] = Some p
        /\ storage_received p = []
        /\ delivered (upload p) = [d]
        /\ Queue.items (aggregatedDataQueue p) = []).
Proof.
  split; [apply pipeline_logger_first | apply pipeline_uploader_first].
Qed.

(* ======================================================================= *)
(** * Further properties of the code *)
(* ======================================================================= *)

(** ** Aggregation: what the statistics depend on *)

Lemma stats_after_non_nan (vs : list float) :
  forall s, stats_after s vs = stats_after s (non_nan vs).
Proof.
  induction vs as [|v vs IH]; intros s; [reflexivity|].
  unfold non_nan. cbn [filter]. fold (non_nan vs).
  destruct (F32.isnan v) eqn:E; cbn [negb stats_after fold_left].
  - unfold RunningStats.addValue at 2. rewrite E. cbn [negb]. apply IH.
  - fold (stats_after (RunningStats.addValue s v) vs).
    fold (stats_after (RunningStats.addValue s v) (non_nan vs)). apply IH.
Qed.

(** X1. The statistics of a channel depend on nothing but the channel's
    non-NaN values in arrival order: two windows that agree on them emit
    the same avg, min and max for the channel, whatever NaN readings are
    interleaved and whatever the other channels and the timestamps are. *)
Theorem statistics_ignore_nan
    (rs rs' : list RawReading) (d d' : AggregatedData) (c : channel) :
  emitted rs = Some d -> emitted rs' = Some d' ->
  channel_values c rs = channel_values c rs' ->
  avg_of c d = avg_of c d' /\ min_of c d = min_of c d'
  /\ max_of c d = max_of c d'.
Proof.
  intros Hd Hd' Hv.
  destruct (emitted_channel_stats rs d c Hd) as (-> & -> & ->).
  destruct (emitted_channel_stats rs' d' c Hd') as (-> & -> & ->).
  rewrite (stats_after_non_nan (map (raw_of c) rs)),
    (stats_after_non_nan (map (raw_of c) rs')).
  unfold channel_values in Hv. rewrite Hv. repeat split.
Qed.

Lemma statistics_ignore_nan_witness :
  avg_of DS18B20 record_20_22_nan = avg_of DS18B20 record_20_22
  /\ min_of DS18B20 record_20_22_nan = min_of DS18B20 record_20_22
  /\ max_of DS18B20 record_20_22_nan = max_of DS18B20 record_20_22.
Proof.
  apply (statistics_ignore_nan window_20_22_nan window_20_22
           record_20_22_nan record_20_22 DS18B20);
    vm_compute; reflexivity.
Defined.

Lemma positive_count_has_values (vs : list float) :
  (0 <? RunningStats.count (stats_after RunningStats.init vs)) = true ->
  non_nan vs <> [].
Proof.
  intros H Hnil. rewrite (stats_after_all_nan vs _ Hnil) in H.
  cbn in H. discriminate.
Qed.

(** X2. In every emitted record a channel that has a minimum has
    [min <= max]: the two are never crossed, and neither is NaN. *)
Theorem emitted_min_le_max
    (rs : list RawReading) (d : AggregatedData) (c : channel) :
  emitted rs = Some d ->
  F32.isnan (min_of c d) = false ->
  F32.le (min_of c d) (max_of c d) = true.
Proof.
  intros Hem. destruct (emitted_channel_stats rs d c Hem) as (_ & -> & ->).
  set (vs := map (raw_of c) rs). set (s := stats_after RunningStats.init vs).
  assert (Hmin : min_inv s ([] ++ non_nan vs)).
  { apply stats_after_min_inv; [intros u []|]. left. split; reflexivity. }
  assert (Hmax : max_inv s ([] ++ non_nan vs)).
  { apply stats_after_max_inv; [intros u []|]. left. split; reflexivity. }
  cbn [app] in Hmin, Hmax.
  unfold RunningStats.getMin, RunningStats.getMax.
  destruct (0 <? RunningStats.count s) eqn:Hc; [intros _ | discriminate].
  pose proof (positive_count_has_values vs Hc) as Hne.
  destruct Hmin as [[Hnil _] | [Hin _]]; [congruence|].
  destruct Hmax as [[Hnil _] | [_ Hle]]; [congruence|].
  apply Hle, Hin.
Qed.

Lemma emitted_min_le_max_witness :
  F32.le (min_of DS18B20 record_20_22_nan) (max_of DS18B20 record_20_22_nan)
  = true.
Proof.
  apply (emitted_min_le_max window_20_22_nan record_20_22_nan DS18B20);
    vm_compute; reflexivity.
Defined.

Lemma aggregation_cycle_fresh (w : list RawReading) :
  Z.of_nat (List.length w) < 2 ^ 32 ->
  aggregation_cycle AggState_init w = (emitted w, AggState_init).
Proof.
  intros Hw. unfold emitted. destruct w as [|r w]; [reflexivity|].
  rewrite aggregation_cycle_emits; [reflexivity | discriminate | exact Hw].
Qed.

Lemma emitted_none_iff (w : list RawReading) :
  Z.of_nat (List.length w) < 2 ^ 32 -> (emitted w = None <-> w = []).
Proof.
  intros Hw. split.
  - destruct w as [|r w]; [reflexivity|]. unfold emitted.
    rewrite aggregation_cycle_emits; [discriminate | discriminate | exact Hw].
  - intros ->. reflexivity.
Qed.

(** X3. Over any succession of windows the task emits for each window what
    it would emit for that window alone: a window never inherits anything
    from the ones before it, a window that drained nothing emits no record
    and a window that drained something emits exactly one, and the
    accumulators are back in their initial state at the end.  (Windows
    hold fewer than 2^32 samples.) *)
Theorem aggregation_windows_independent (windows : list (list RawReading)) :
  Forall (fun w => Z.of_nat (List.length w) < 2 ^ 32) windows ->
  aggregation_run AggState_init windows = (map emitted windows, AggState_init)
  /\ forall w, In w windows -> (emitted w = None <-> w = []).
Proof.
  intros H. split.
  - induction H as [|w ws Hw _ IH]; [reflexivity|].
    cbn [aggregation_run map]. rewrite aggregation_cycle_fresh by exact Hw.
    rewrite IH. reflexivity.
  - intros w Hin. apply emitted_none_iff.
    rewrite Forall_forall in H. apply H, Hin.
Qed.

Lemma aggregation_windows_independent_witness :
  aggregation_run AggState_init [window_20_22_nan; []; window_20_22]
  = ([Some record_20_22_nan; None; Some record_20_22], AggState_init).
Proof.
  destruct (aggregation_windows_independent
              [window_20_22_nan; []; window_20_22]) as [H _].
  - repeat constructor; cbn; lia.
  - rewrite H. vm_compute. reflexivity.
Defined.

(** ** Drivers and acquisition *)

Lemma check_range_sound (bits : nat) :
  forall lo f, check_range bits lo f = true ->
               forall n, lo <= n < lo + 2 ^ Z.of_nat bits -> f n = true.
Proof.
  induction bits as [|b IH]; intros lo f H n Hn.
  - cbn in *. replace n with lo by lia. exact H.
  - cbn [check_range] in H. apply andb_true_iff in H. destruct H as [H1 H2].
    replace (2 ^ Z.of_nat (S b)) with (2 * 2 ^ Z.of_nat b) in Hn
      by (rewrite Nat2Z.inj_succ, Z.pow_succ_r by lia; reflexivity).
    destruct (Z_lt_ge_dec n (lo + 2 ^ Z.of_nat b)).
    + apply (IH lo f H1). lia.
    + apply (IH (lo + 2 ^ Z.of_nat b) f H2). lia.
Qed.

Lemma of_uint16_range (n : Z) :
  0 <= n < 2 ^ 16 ->
  F32.le F32.zero (F32.of_uint n) = true
  /\ F32.le (F32.of_uint n) (F32.of_Z 65535) = true.
Proof.
  intros Hn. apply andb_true_iff.
  apply (check_range_sound 16 0
           (fun k => F32.le F32.zero (F32.of_uint k)
                     && F32.le (F32.of_uint k) (F32.of_Z 65535)));
    [vm_compute; reflexivity | exact Hn].
Qed.

Lemma wrap16_range (n : Z) : 0 <= wrap16 n < 2 ^ 16.
Proof. unfold wrap16. apply Z.mod_pos_bound. lia. Qed.

Lemma wrap32_range (n : Z) : 0 <= wrap32 n < 2 ^ 32.
Proof. unfold wrap32. apply Z.mod_pos_bound. lia. Qed.

(** X4. A driver whose read fails leaves the reading exactly as it was, and
    a driver whose read succeeds writes its own channel only: the DS18B20
    its temperature, the SHT40 its temperature and humidity, the SEN0193
    the soil value.  None of them touches the timestamp. *)
Theorem sensor_read_isolation (s : ISensor) (data : RawReading) :
  (fst (sensor_read s data) = false -> snd (sensor_read s data) = data)
  /\ timestamp (snd (sensor_read s data)) = timestamp data
  /\ match s with
     | DS18B20Sensor _ _ =>
         sht40_temp (snd (sensor_read s data)) = sht40_temp data
         /\ sht40_humidity (snd (sensor_read s data)) = sht40_humidity data
         /\ sen0193_moisture_raw (snd (sensor_read s data))
            = sen0193_moisture_raw data
     | SHT40Sensor _ _ _ _ =>
         ds18b20_temp (snd (sensor_read s data)) = ds18b20_temp data
         /\ sen0193_moisture_raw (snd (sensor_read s data))
            = sen0193_moisture_raw data
     | SEN0193Sensor _ _ =>
         ds18b20_temp (snd (sensor_read s data)) = ds18b20_temp data
         /\ sht40_temp (snd (sensor_read s data)) = sht40_temp data
         /\ sht40_humidity (snd (sensor_read s data)) = sht40_humidity data
     end.
Proof.
  destruct s; cbn [sensor_read];
    repeat match goal with
           | |- context [if ?b then _ else _] => destruct b
           end; cbn; repeat split; intros; congruence.
Qed.

Lemma sensor_read_isolation_witness :
  snd (sensor_read (DS18B20Sensor true (F32.of_Z 300)) RawReading_new)
  = RawReading_new.
Proof.
  destruct (sensor_read_isolation (DS18B20Sensor true (F32.of_Z 300))
              RawReading_new) as [H _].
  apply H. vm_compute. reflexivity.
Defined.

Lemma in_range_of_checks (lo hi x : float) :
  F32.isnan lo = false -> F32.isnan hi = false ->
  F32.lt x lo = false -> F32.gt x hi = false -> in_range lo hi x.
Proof.
  intros Hlo Hhi Hl Hg. unfold in_range.
  destruct (F32.isnan x) eqn:E; [left; reflexivity|]. right. split.
  - apply f32_not_lt_le; assumption.
  - apply f32_not_lt_le; assumption.
Qed.

Lemma sensor_read_in_range (s : ISensor) (data : RawReading) :
  reading_in_range data -> reading_in_range (snd (sensor_read s data)).
Proof.
  intros (H1 & H2 & H3 & H4). destruct s; cbn [sensor_read].
  - destruct (negb sensorFound); [repeat split; assumption|].
    destruct (SFeqb tempC DEVICE_DISCONNECTED_C);
      [repeat split; assumption|].
    destruct (F32.lt tempC (SFopp (F32.of_Z 55))) eqn:El; cbn [orb];
      [repeat split; assumption|].
    destruct (F32.gt tempC (F32.of_Z 125)) eqn:Eg;
      [repeat split; assumption|].
    cbn [snd]. repeat split; cbn; try assumption.
    apply in_range_of_checks; trivial.
  - destruct (negb sensorFound); [repeat split; assumption|].
    destruct (negb getEvent_ok); [repeat split; assumption|].
    destruct (F32.isnan temperature); cbn [orb]; [repeat split; assumption|].
    destruct (F32.lt temperature (SFopp (F32.of_Z 40))) eqn:El; cbn [orb];
      [repeat split; assumption|].
    destruct (F32.gt temperature (F32.of_Z 125)) eqn:Eg;
      [repeat split; assumption|].
    destruct (F32.isnan relative_humidity); cbn [orb];
      [repeat split; assumption|].
    destruct (F32.lt relative_humidity F32.zero) eqn:El2; cbn [orb];
      [repeat split; assumption|].
    destruct (F32.gt relative_humidity (F32.of_Z 100)) eqn:Eg2;
      [repeat split; assumption|].
    cbn [snd]. repeat split; cbn; try assumption;
      apply in_range_of_checks; trivial.
  - destruct (negb initialized); [repeat split; assumption|].
    cbn [snd]. repeat split; cbn; try assumption.
    right. apply of_uint16_range, wrap16_range.
Qed.

Lemma read_sensors_in_range (sensors : list ISensor) :
  forall data, reading_in_range data ->
               reading_in_range (read_sensors sensors data).
Proof.
  induction sensors as [|s sensors IH]; intros data H; [exact H|].
  unfold read_sensors in *. cbn [fold_left]. apply IH.
  apply sensor_read_in_range, H.
Qed.

Lemma read_timestamp_channels (i : TickInput) :
  reading_in_range (snd (read_timestamp i RawReading_new)).
Proof.
  assert (H0 : forall t, reading_in_range
                           (mkRawReading t F32.NAN F32.NAN F32.NAN F32.NAN)).
  { intros t. repeat split; left; reflexivity. }
  unfold read_timestamp. destruct (rtcSensor i) as [rtc|]; [|apply H0].
  unfold DS1308Sensor.read.
  destruct (negb (DS1308Sensor.rtcFound rtc)); [apply H0|].
  destruct ((DateTime.year (rtc_now i) <? 2020)
            || (2100 <? DateTime.year (rtc_now i))); apply H0.
Qed.

Lemma tick_reading_in_range (i : TickInput) : reading_in_range (tick_reading i).
Proof. apply read_sensors_in_range, read_timestamp_channels. Qed.

Lemma reading_in_range_channel (c : channel) (r : RawReading) :
  reading_in_range r -> in_range (channel_lo c) (channel_hi c) (raw_of c r).
Proof. intros (H1 & H2 & H3 & H4). destruct c; assumption. Qed.

(** The minimum and the maximum of an emitted record are NaN or values the
    window drained on that channel. *)
Lemma emitted_min_max_members
    (rs : list RawReading) (d : AggregatedData) (c : channel) :
  emitted rs = Some d ->
  (F32.isnan (min_of c d) = true \/ In (min_of c d) (map (raw_of c) rs))
  /\ (F32.isnan (max_of c d) = true \/ In (max_of c d) (map (raw_of c) rs)).
Proof.
  intros Hem. destruct (emitted_channel_stats rs d c Hem) as (_ & -> & ->).
  set (vs := map (raw_of c) rs). set (s := stats_after RunningStats.init vs).
  assert (Hmin : min_inv s ([] ++ non_nan vs)).
  { apply stats_after_min_inv; [intros u []|]. left. split; reflexivity. }
  assert (Hmax : max_inv s ([] ++ non_nan vs)).
  { apply stats_after_max_inv; [intros u []|]. left. split; reflexivity. }
  cbn [app] in Hmin, Hmax.
  unfold RunningStats.getMin, RunningStats.getMax.
  destruct (0 <? RunningStats.count s) eqn:Hc; [|split; left; reflexivity].
  pose proof (positive_count_has_values vs Hc) as Hne.
  destruct Hmin as [[Hnil _] | [Hin _]]; [congruence|].
  destruct Hmax as [[Hnil _] | [Hin' _]]; [congruence|].
  unfold non_nan in Hin, Hin'. apply filter_In in Hin, Hin'.
  split; right; tauto.
Qed.

(** X5. From the drivers to the record: when every sample of a window is a
    reading built by the acquisition loop, the minimum and the maximum the
    window emits for a channel are NaN or lie within the range the
    channel's driver accepts: [-55, 125] for the DS18B20, [-40, 125] for
    the SHT40 temperature, [0, 100] for the humidity, [0, 65535] for the
    soil value. *)
Theorem emitted_extremes_in_driver_range
    (rs : list RawReading) (d : AggregatedData) (c : channel) :
  Forall (fun r => exists i, r = tick_reading i) rs ->
  emitted rs = Some d ->
  in_range (channel_lo c) (channel_hi c) (min_of c d)
  /\ in_range (channel_lo c) (channel_hi c) (max_of c d).
Proof.
  intros Hrs Hem.
  assert (Hall : forall v, In v (map (raw_of c) rs) ->
                           in_range (channel_lo c) (channel_hi c) v).
  { intros v Hv. apply in_map_iff in Hv. destruct Hv as (r & <- & Hr).
    rewrite Forall_forall in Hrs. destruct (Hrs r Hr) as [i ->].
    apply reading_in_range_channel, tick_reading_in_range. }
  destruct (emitted_min_max_members rs d c Hem) as [[Hn | Hi] [Hn' | Hi']];
    split; try (left; assumption); apply Hall; assumption.
Qed.

Lemma emitted_extremes_in_driver_range_witness :
  in_range (channel_lo SHT40_HUM) (channel_hi SHT40_HUM)
    (min_of SHT40_HUM record_from_ticks)
  /\ in_range (channel_lo SHT40_HUM) (channel_hi SHT40_HUM)
       (max_of SHT40_HUM record_from_ticks).
Proof.
  apply (emitted_extremes_in_driver_range window_from_ticks
           record_from_ticks SHT40_HUM).
  - constructor; [exists tick_2024_03_01; reflexivity|].
    constructor; [exists tick_2024_03_01; reflexivity|]. constructor.
  - vm_compute. reflexivity.
Defined.

(** What one tick does to the queue and the counters. *)
Lemma sensor_tick_cases (st : SensorTaskState) (i : TickInput) :
  (Queue.items (rawReadingQueue (sensor_tick st i))
   = Queue.items (rawReadingQueue st) ++ [tick_reading i]
   /\ Queue.is_full (rawReadingQueue st) = false
   /\ fst (read_timestamp i RawReading_new) = true
   /\ total_readings (sensorStatus (sensor_tick st i))
      = wrap32 (total_readings (sensorStatus st) + 1)
   /\ failed_readings (sensorStatus (sensor_tick st i))
      = failed_readings (sensorStatus st))
  \/ (Queue.items (rawReadingQueue (sensor_tick st i))
      = Queue.items (rawReadingQueue st)
      /\ (Queue.is_full (rawReadingQueue st) = true
          \/ fst (read_timestamp i RawReading_new) = false)
      /\ total_readings (sensorStatus (sensor_tick st i))
         = total_readings (sensorStatus st)
      /\ failed_readings (sensorStatus (sensor_tick st i))
         = wrap32 (failed_readings (sensorStatus st) + 1)).
Proof.
  unfold sensor_tick, tick_reading.
  destruct (read_timestamp i RawReading_new) as [valid reading].
  cbn [fst snd]. destruct valid.
  - unfold Queue.send.
    destruct (Queue.is_full (rawReadingQueue st)) eqn:Ef; cbn.
    + right. repeat split. left. reflexivity.
    + left. repeat split.
  - right. cbn. repeat split. right. reflexivity.
Qed.

Lemma sensor_tick_capacity (st : SensorTaskState) (i : TickInput) :
  Queue.capacity (rawReadingQueue (sensor_tick st i))
  = Queue.capacity (rawReadingQueue st).
Proof.
  unfold sensor_tick.
  destruct (read_timestamp i RawReading_new) as [valid reading].
  destruct valid; [|reflexivity]. unfold Queue.send.
  destruct (Queue.is_full (rawReadingQueue st)); reflexivity.
Qed.

(** X6. Over any number of ticks with nobody draining the queue, the
    acquisition loop never overfills the queue and counts every tick
    exactly once: [total_readings] advances by the number of readings that
    entered the queue, [failed_readings] by the number of ticks that
    enqueued nothing (clock read failed, or queue full), and the queue only
    grows at its back.  (The counters are 32-bit; they are taken not to
    wrap during the run.) *)
Theorem acquisition_accounting (ticks : list TickInput) :
  forall st,
    Queue.wf (rawReadingQueue st) ->
    0 <= total_readings (sensorStatus st) ->
    0 <= failed_readings (sensorStatus st) ->
    total_readings (sensorStatus st) + Z.of_nat (List.length ticks) < 2 ^ 32 ->
    failed_readings (sensorStatus st) + Z.of_nat (List.length ticks) < 2 ^ 32 ->
    let st' := sensor_run st ticks in
    Queue.wf (rawReadingQueue st')
    /\ (exists added,
          Queue.items (rawReadingQueue st')
          = Queue.items (rawReadingQueue st) ++ added
          /\ total_readings (sensorStatus st')
             = total_readings (sensorStatus st) + Z.of_nat (List.length added)
          /\ failed_readings (sensorStatus st')
             = failed_readings (sensorStatus st)
               + Z.of_nat (List.length ticks) - Z.of_nat (List.length added)
          /\ (List.length added <= List.length ticks)%nat).
Proof.
  induction ticks as [|i ticks IH]; intros st Hwf Ht Hf Htb Hfb st'.
  - split; [exact Hwf|]. exists []. cbn. rewrite app_nil_r.
    repeat split; lia.
  - subst st'. unfold sensor_run in *. cbn [fold_left].
    cbn [List.length] in Htb, Hfb.
    pose proof (sensor_tick_capacity st i) as Hcap.
    destruct (sensor_tick_cases st i)
      as [(Hq & Hfree & _ & Htot & Hfail) | (Hq & _ & Htot & Hfail)].
    + rewrite wrap32_small in Htot by lia.
      destruct (IH (sensor_tick st i)) as (Hwf' & added & Ha & Hb & Hc & Hd).
      * unfold Queue.wf in *. rewrite Hq, Hcap, length_app. cbn [List.length].
        unfold Queue.is_full in Hfree. apply Nat.leb_gt in Hfree. lia.
      * lia.
      * lia.
      * lia.
      * lia.
      * split; [exact Hwf'|]. exists (tick_reading i :: added).
        rewrite Ha, Hb, Hc, Hq, Htot, Hfail, <- app_assoc.
        cbn [List.length app]. repeat split; lia.
    + rewrite wrap32_small in Hfail by lia.
      destruct (IH (sensor_tick st i)) as (Hwf' & added & Ha & Hb & Hc & Hd).
      * unfold Queue.wf in *. rewrite Hq, Hcap. exact Hwf.
      * lia.
      * lia.
      * lia.
      * lia.
      * split; [exact Hwf'|]. exists added.
        rewrite Ha, Hb, Hc, Hq, Htot, Hfail. cbn [List.length].
        repeat split; lia.
Qed.

Lemma acquisition_accounting_witness :
  Queue.wf (rawReadingQueue
              (sensor_run sensor_task_start [tick_rtc_reset; tick_2024_03_01]))
  /\ (exists added,
        Queue.items
          (rawReadingQueue
             (sensor_run sensor_task_start [tick_rtc_reset; tick_2024_03_01]))
        = Queue.items (rawReadingQueue sensor_task_start) ++ added
        /\ total_readings
             (sensorStatus
                (sensor_run sensor_task_start
                   [tick_rtc_reset; tick_2024_03_01]))
           = total_readings (sensorStatus sensor_task_start)
             + Z.of_nat (List.length added)
        /\ failed_readings
             (sensorStatus
                (sensor_run sensor_task_start
                   [tick_rtc_reset; tick_2024_03_01]))
           = failed_readings (sensorStatus sensor_task_start)
             + Z.of_nat (List.length [tick_rtc_reset; tick_2024_03_01])
             - Z.of_nat (List.length added)
        /\ (List.length added
            <= List.length [tick_rtc_reset; tick_2024_03_01])%nat).
Proof.
  apply (acquisition_accounting [tick_rtc_reset; tick_2024_03_01]
           sensor_task_start).
  - unfold Queue.wf. cbn. lia.
  - cbn. lia.
  - cbn. lia.
  - cbn. lia.
  - cbn. lia.
Defined.

Lemma lost_power_read_fails (s : DS1308Sensor.t) (now : DateTime.t)
    (data : RawReading) :
  DS1308_hasLostPower s now = true ->
  DS1308Sensor.read s now data = (false, data).
Proof.
  unfold DS1308_hasLostPower, DS1308Sensor.read.
  destruct (DS1308Sensor.rtcFound s); cbn [negb]; [|reflexivity].
  intros H. apply andb_true_iff in H. destruct H as [H _].
  apply andb_true_iff in H. destruct H as [H _]. apply Z.eqb_eq in H.
  rewrite H. reflexivity.
Qed.

(** X7. While the clock has lost power (the chip was not found at start-up,
    or it reports 2000-01-01), or there is no clock object, the acquisition
    loop enqueues nothing: the queue and [total_readings] stay as they are
    over any number of ticks, whatever the other sensors deliver. *)
Theorem lost_power_drops_every_sample (ticks : list TickInput) :
  forall st,
    Forall (fun i => match rtcSensor i with
                     | None => True
                     | Some s => DS1308_hasLostPower s (rtc_now i) = true
                     end) ticks ->
    rawReadingQueue (sensor_run st ticks) = rawReadingQueue st
    /\ total_readings (sensorStatus (sensor_run st ticks))
       = total_readings (sensorStatus st).
Proof.
  induction ticks as [|i ticks IH]; intros st H; [split; reflexivity|].
  inversion H as [|? ? Hi Hrest]; subst.
  unfold sensor_run in *. cbn [fold_left].
  destruct (IH (sensor_tick st i) Hrest) as [-> ->].
  unfold sensor_tick, read_timestamp.
  destruct (rtcSensor i) as [s|]; [|split; reflexivity].
  rewrite (lost_power_read_fails s (rtc_now i) RawReading_new Hi).
  split; reflexivity.
Qed.

Lemma lost_power_drops_every_sample_witness :
  rawReadingQueue (sensor_run sensor_task_start [tick_rtc_reset; tick_rtc_reset])
  = rawReadingQueue sensor_task_start
  /\ total_readings
       (sensorStatus
          (sensor_run sensor_task_start [tick_rtc_reset; tick_rtc_reset]))
     = total_readings (sensorStatus sensor_task_start).
Proof.
  apply (lost_power_drops_every_sample [tick_rtc_reset; tick_rtc_reset]
           sensor_task_start).
  constructor; [reflexivity|]. constructor; [reflexivity | constructor].
Defined.

(** ** File names and time strings *)

Lemma pad_dec_2 (n : Z) :
  0 <= n < 100 ->
  String.length (pad_dec 2 n) = 2%nat /\ undec (pad_dec 2 n) = n.
Proof.
  intros Hn.
  assert (H : ((99 <? n)
               || ((String.length (pad_dec 2 n) =? 2)%nat
                   && (undec (pad_dec 2 n) =? n))) = true).
  { apply (check_range_sound 7 0
             (fun k => (99 <? k)
                       || ((String.length (pad_dec 2 k) =? 2)%nat
                           && (undec (pad_dec 2 k) =? k))));
      [vm_compute; reflexivity | cbn; lia]. }
  replace (99 <? n) with false in H by (symmetry; apply Z.ltb_ge; lia).
  cbn [orb] in H. apply andb_true_iff in H. destruct H as [H1 H2].
  apply Nat.eqb_eq in H1. apply Z.eqb_eq in H2. split; assumption.
Qed.

Lemma pad_dec_4 (n : Z) :
  0 <= n < 10000 ->
  String.length (pad_dec 4 n) = 4%nat /\ undec (pad_dec 4 n) = n.
Proof.
  intros Hn.
  assert (H : ((9999 <? n)
               || ((String.length (pad_dec 4 n) =? 4)%nat
                   && (undec (pad_dec 4 n) =? n))) = true).
  { apply (check_range_sound 14 0
             (fun k => (9999 <? k)
                       || ((String.length (pad_dec 4 k) =? 4)%nat
                           && (undec (pad_dec 4 k) =? k))));
      [vm_compute; reflexivity | cbn; lia]. }
  replace (9999 <? n) with false in H by (symmetry; apply Z.ltb_ge; lia).
  cbn [orb] in H. apply andb_true_iff in H. destruct H as [H1 H2].
  apply Nat.eqb_eq in H1. apply Z.eqb_eq in H2. split; assumption.
Qed.

Lemma pad_dec_2_inj (n n' : Z) :
  0 <= n < 100 -> 0 <= n' < 100 -> pad_dec 2 n = pad_dec 2 n' -> n = n'.
Proof.
  intros H H' E. rewrite <- (proj2 (pad_dec_2 n H)), E.
  apply (pad_dec_2 n' H').
Qed.

Lemma pad_dec_4_inj (n n' : Z) :
  0 <= n < 10000 -> 0 <= n' < 10000 -> pad_dec 4 n = pad_dec 4 n' -> n = n'.
Proof.
  intros H H' E. rewrite <- (proj2 (pad_dec_4 n H)), E.
  apply (pad_dec_4 n' H').
Qed.

Lemma str_app_inj (a a' b b' : string) :
  String.length a = String.length a' ->
  (a ++ b)%string = (a' ++ b')%string -> a = a' /\ b = b'.
Proof.
  revert a'. induction a as [|x a IH]; intros [|x' a'] Hl E;
    cbn in Hl; try discriminate.
  - split; [reflexivity | exact E].
  - cbn in E. injection E as -> E. injection Hl as Hl.
    destruct (IH a' Hl E) as [-> ->]. split; reflexivity.
Qed.

(** X8. One file per calendar day: the log file name is 18 characters
    long, and two timestamps get the same file name exactly when [gmtime]
    gives them the same year, month and day.  (Years up to 9999.) *)
Theorem log_filename_per_day
    (gmtime_ymd : time_t -> Z * Z * Z) (t1 t2 : time_t) :
  date_fields_ok (gmtime_ymd t1) -> date_fields_ok (gmtime_ymd t2) ->
  String.length (getLogFilename gmtime_ymd t1) = 18%nat
  /\ (getLogFilename gmtime_ymd t1 = getLogFilename gmtime_ymd t2
      <-> gmtime_ymd t1 = gmtime_ymd t2).
Proof.
  unfold getLogFilename, date_fields_ok.
  destruct (gmtime_ymd t1) as [[y1 m1] d1].
  destruct (gmtime_ymd t2) as [[y2 m2] d2].
  intros (Hy1 & Hm1 & Hd1) (Hy2 & Hm2 & Hd2).
  destruct (pad_dec_4 y1 Hy1) as [Ly1 _]. destruct (pad_dec_4 y2 Hy2) as [Ly2 _].
  destruct (pad_dec_2 m1 Hm1) as [Lm1 _]. destruct (pad_dec_2 m2 Hm2) as [Lm2 _].
  destruct (pad_dec_2 d1 Hd1) as [Ld1 _]. destruct (pad_dec_2 d2 Hd2) as [Ld2 _].
  split.
  - rewrite !str_length_app, Ly1, Lm1, Ld1. reflexivity.
  - split; [|intros E; injection E as -> -> ->; reflexivity].
    intros E.
    apply str_app_inj in E; [|reflexivity]. destruct E as [_ E].
    apply str_app_inj in E; [|congruence]. destruct E as [Ey E].
    apply str_app_inj in E; [|congruence]. destruct E as [Em E].
    apply str_app_inj in E; [|congruence]. destruct E as [Ed _].
    apply pad_dec_4_inj in Ey; trivial.
    apply pad_dec_2_inj in Em; trivial.
    apply pad_dec_2_inj in Ed; trivial. congruence.
Qed.

Lemma log_filename_per_day_witness :
  String.length
    (getLogFilename (fun t => (2023, 11, 14 + t / 86400)) 0) = 18%nat
  /\ (getLogFilename (fun t => (2023, 11, 14 + t / 86400)) 0
      = getLogFilename (fun t => (2023, 11, 14 + t / 86400)) 86399
      <-> (2023, 11, 14 + 0 / 86400) = (2023, 11, 14 + 86399 / 86400)).
Proof.
  apply (log_filename_per_day (fun t => (2023, 11, 14 + t / 86400)) 0 86399).
  - vm_compute. repeat split; discriminate.
  - vm_compute. repeat split; discriminate.
Defined.

Example log_filename_example :
  getLogFilename (fun _ => (2024, 3, 1)) 1709294400
  = "/data_20240301.csv"%string.
Proof. vm_compute. reflexivity. Qed.

(** ** Storage: files, rows and the task's bookkeeping *)

Lemma sd_lookup_append_other
    (fs : list (string * string)) (name text other : string) :
  other <> name ->
  sd_lookup (sd_append fs name text) other = sd_lookup fs other.
Proof.
  intros Hne. induction fs as [|[n c] fs IH]; cbn [sd_append sd_lookup].
  - destruct (String.eqb_spec name other); [congruence | reflexivity].
  - destruct (String.eqb_spec n name) as [->|Hn]; cbn [sd_lookup].
    + destruct (String.eqb_spec name other); [congruence | reflexivity].
    + destruct (String.eqb n other); [reflexivity | exact IH].
Qed.



Lemma writeDataToSD_writable
    (gmtime_ymd : time_t -> Z * Z * Z) (sd : SDCard) (data : AggregatedData) :
  create_ok sd = true -> append_ok sd = true ->
  let name := getLogFilename gmtime_ymd (start_timestamp data) in
  exists sd',
    writeDataToSD gmtime_ymd sd data = (true, sd')
    /\ create_ok sd' = true /\ append_ok sd' = true
    /\ sd_lookup (files sd') name
       = Some (match sd_lookup (files sd) name with
               | Some old => old
               | None => header_line
               end ++ csv_row data)%string
    /\ forall other, other <> name ->
                     sd_lookup (files sd') other = sd_lookup (files sd) other.
Proof.
  intros Hc Ha name.
  unfold writeDataToSD, ensureFileWithHeaders, sd_exists, sd_write. fold name.
  rewrite Hc.
  destruct (sd_lookup (files sd) name) as [old|] eqn:El;
    cbn [negb files create_ok append_ok]; rewrite Ha; cbn [negb];
    eexists; (split; [reflexivity|]); cbn [files create_ok append_ok];
    (split; [assumption || reflexivity|]);
    (split; [assumption || reflexivity|]);
    rewrite ?sd_lookup_append, ?El; (split; [reflexivity|]);
    intros other Ho; rewrite ?sd_lookup_append_other by exact Ho; reflexivity.
Qed.

(** X10. Successive writes of records of one day to a working card all
    succeed and leave the day's file as its previous content, or the header
    line if it did not exist, followed by the rows of the records in the
    order written: the header is written once however many records follow,
    a record written twice gives two rows, and no other file changes. *)
Theorem write_all_same_day
    (gmtime_ymd : time_t -> Z * Z * Z) (name : string)
    (rest : list AggregatedData) :
  forall (r : AggregatedData) (sd : SDCard),
    create_ok sd = true -> append_ok sd = true ->
    Forall (fun d => getLogFilename gmtime_ymd (start_timestamp d) = name)
      (r :: rest) ->
    exists sd',
      write_all gmtime_ymd sd (r :: rest)
      = (repeat true (S (List.length rest)), sd')
      /\ sd_lookup (files sd') name
         = Some (match sd_lookup (files sd) name with
                 | Some old => old
                 | None => header_line
                 end ++ rows_text (r :: rest))%string
      /\ forall other, other <> name ->
                       sd_lookup (files sd') other = sd_lookup (files sd) other.
Proof.
  induction rest as [|r' rest IH]; intros r sd Hc Ha Hall;
    inversion Hall as [|? ? Hr Hrest]; subst;
    destruct (writeDataToSD_writable gmtime_ymd sd r Hc Ha)
      as (sd1 & Hw & Hc1 & Ha1 & Hl1 & Ho1).
  - exists sd1. cbn [write_all]. rewrite Hw. cbn [List.length repeat].
    split; [reflexivity|]. split; [|exact Ho1].
    rewrite Hl1. cbn [rows_text].
    assert (E : forall s : string, (s ++ EmptyString)%string = s).
    { induction s as [|x s IHs]; cbn; [|rewrite IHs]; reflexivity. }
    rewrite E. reflexivity.
  - destruct (IH r' sd1 Hc1 Ha1 Hrest) as (sd2 & Hw2 & Hl2 & Ho2).
    exists sd2. cbn [write_all] in Hw2 |- *. rewrite Hw.
    destruct (writeDataToSD gmtime_ymd sd1 r') as [ok2 sd1'].
    destruct (write_all gmtime_ymd sd1' rest) as [oks sd2'].
    injection Hw2 as -> -> ->.
    split; [reflexivity|]. split.
    + rewrite Hl2, Hl1. cbn [rows_text]. rewrite !str_app_assoc. reflexivity.
    + intros other Ho. rewrite Ho2 by exact Ho. apply Ho1, Ho.
Qed.

Lemma write_all_same_day_witness :
  exists sd',
    write_all (fun _ => (2023, 11, 14)) (mkSDCard [] true true)
      [record_20_22_nan; record_20_22_nan]
    = ([true; true], sd')
    /\ sd_lookup (files sd') "/data_20231114.csv"
       = Some (header_line ++ csv_row record_20_22_nan
               ++ csv_row record_20_22_nan)%string.
Proof.
  destruct (write_all_same_day (fun _ => (2023, 11, 14)) "/data_20231114.csv"
              [record_20_22_nan] record_20_22_nan (mkSDCard [] true true))
    as (sd' & Hw & Hl & _).
  - reflexivity.
  - reflexivity.
  - constructor; [vm_compute; reflexivity|].
    constructor; [vm_compute; reflexivity | constructor].
  - exists sd'. split; [exact Hw|]. rewrite Hl. vm_compute. reflexivity.
Defined.

Lemma handle_record_bookkeeping
    (gmtime_ymd : time_t -> Z * Z * Z) (st : LogState) (inp : LogInput)
    (data : AggregatedData) :
  let out := fst (handle_record gmtime_ymd st inp data) in
  let st' := snd (handle_record gmtime_ymd st inp data) in
  (sd_card_ok (logStatus st) = sdCardInitialized st ->
   sd_card_ok (logStatus st') = sdCardInitialized st')
  /\ (out = Written ->
      successfulWrites st' = wrap32 (successfulWrites st + 1)
      /\ failedWrites st' = failedWrites st
      /\ sd_write_errors (logStatus st') = sd_write_errors (logStatus st))
  /\ (out <> Written ->
      successfulWrites st' = successfulWrites st
      /\ failedWrites st' = wrap32 (failedWrites st + 1)
      /\ sd_write_errors (logStatus st')
         = wrap32 (sd_write_errors (logStatus st) + 1)
      /\ (out <> WriteFailed -> card st' = card st)).
Proof.
  unfold handle_record.
  destruct (sdCardInitialized st) eqn:Ei; destruct (init_ok inp) eqn:Eo;
    destruct (mutex_ok inp) eqn:Em; cbn [negb];
    try destruct (writeDataToSD gmtime_ymd (card st) data) as [[|] sd'];
    cbn; repeat split; intros; try reflexivity; try congruence.
Qed.

(** X11. Over any number of iterations of the storage loop: the task takes
    the records off the queue in FIFO order, one per iteration, until the
    queue is empty; every record taken is counted exactly once, as a
    successful or as a failed write; the status record's write-error
    counter advances with the task's failure count; and the status flag
    [sd_card_ok] keeps mirroring the task's own [sdCardInitialized].  (The
    32-bit counters are taken not to wrap during the run.) *)
Theorem logging_run_bookkeeping
    (gmtime_ymd : time_t -> Z * Z * Z) (inps : list LogInput) :
  forall (q : Queue.t AggregatedData) (st : LogState),
    sd_card_ok (logStatus st) = sdCardInitialized st ->
    0 <= successfulWrites st -> 0 <= failedWrites st ->
    0 <= sd_write_errors (logStatus st) ->
    successfulWrites st + Z.of_nat (List.length inps) < 2 ^ 32 ->
    failedWrites st + Z.of_nat (List.length inps) < 2 ^ 32 ->
    sd_write_errors (logStatus st) + Z.of_nat (List.length inps) < 2 ^ 32 ->
    let '(q', st', log) := logging_run gmtime_ymd q st inps in
    map fst log = firstn (List.length inps) (Queue.items q)
    /\ Queue.items q' = skipn (List.length inps) (Queue.items q)
    /\ sd_card_ok (logStatus st') = sdCardInitialized st'
    /\ successfulWrites st'
       = successfulWrites st + Z.of_nat (written_count log)
    /\ failedWrites st'
       = failedWrites st + Z.of_nat (List.length log)
         - Z.of_nat (written_count log)
    /\ sd_write_errors (logStatus st')
       = sd_write_errors (logStatus st) + Z.of_nat (List.length log)
         - Z.of_nat (written_count log)
    /\ (written_count log <= List.length log <= List.length inps)%nat.
Proof.
  induction inps as [|inp inps IH]; intros q st Hflag Hs Hf He Hsb Hfb Heb.
  - cbn. unfold written_count. cbn. repeat split; try assumption; lia.
  - cbn [logging_run List.length] in *.
    unfold logging_iteration, Queue.receive.
    destruct (Queue.items q) as [|data rest] eqn:Eq.
    + specialize (IH q st Hflag Hs Hf He ltac:(lia) ltac:(lia) ltac:(lia)).
      destruct (logging_run gmtime_ymd q st inps) as [[q' st'] log].
      rewrite Eq in IH. rewrite firstn_nil, skipn_nil in IH.
      cbn [firstn skipn]. destruct IH as (H1 & H2 & H3 & H4 & H5 & H6 & H7).
      repeat split; try assumption; lia.
    + pose proof (handle_record_bookkeeping gmtime_ymd st inp data)
        as (Bflag & Bw & Bf).
      destruct (handle_record gmtime_ymd st inp data) as [out st1].
      cbn [fst snd] in Bflag, Bw, Bf.
      assert (Hst1 : 0 <= successfulWrites st1 /\ 0 <= failedWrites st1
                     /\ 0 <= sd_write_errors (logStatus st1)
                     /\ successfulWrites st1
                        = successfulWrites st
                          + (if match out with Written => true | _ => false end
                             then 1 else 0)
                     /\ failedWrites st1
                        = failedWrites st
                          + (if match out with Written => true | _ => false end
                             then 0 else 1)
                     /\ sd_write_errors (logStatus st1)
                        = sd_write_errors (logStatus st)
                          + (if match out with Written => true | _ => false end
                             then 0 else 1)).
      { destruct out;
          [destruct (Bw eq_refl) as (E1 & E2 & E3)
          |destruct (Bf ltac:(discriminate)) as (E1 & E2 & E3 & _) ..];
          rewrite E1, E2, E3; rewrite ?wrap32_small by lia;
          repeat split; lia. }
      destruct Hst1 as (Hs1 & Hf1 & He1 & Es & Ef & Ee).
      specialize (IH (Queue.mk rest (Queue.capacity q)) st1 (Bflag Hflag)
                     Hs1 Hf1 He1).
      destruct (logging_run gmtime_ymd (Queue.mk rest (Queue.capacity q))
                  st1 inps) as [[q' st'] log].
      cbn [Queue.items] in IH.
      destruct IH as (H1 & H2 & H3 & H4 & H5 & H6 & H7);
        [destruct out; lia .. |].
      cbn [map fst firstn skipn List.length]. rewrite H1, H2.
      unfold written_count in *. cbn [filter snd].
      destruct out; cbn [List.length]; repeat split; try assumption; lia.
Qed.

Lemma logging_run_bookkeeping_witness :
  let '(q', st', log) :=
    logging_run (fun _ => (2023, 11, 14)) three_record_queue
      log_state_card_ok three_inputs in
  map fst log = firstn (List.length three_inputs)
                  (Queue.items three_record_queue)
  /\ Queue.items q' = skipn (List.length three_inputs)
                        (Queue.items three_record_queue)
  /\ sd_card_ok (logStatus st') = sdCardInitialized st'
  /\ successfulWrites st'
     = successfulWrites log_state_card_ok + Z.of_nat (written_count log)
  /\ failedWrites st'
     = failedWrites log_state_card_ok + Z.of_nat (List.length log)
       - Z.of_nat (written_count log)
  /\ sd_write_errors (logStatus st')
     = sd_write_errors (logStatus log_state_card_ok)
       + Z.of_nat (List.length log) - Z.of_nat (written_count log)
  /\ (written_count log <= List.length log <= List.length three_inputs)%nat.
Proof.
  apply (logging_run_bookkeeping (fun _ => (2023, 11, 14)) three_inputs
           three_record_queue log_state_card_ok);
    cbn; try reflexivity; lia.
Defined.

Example logging_run_three_records :
  let '(q', st', log) :=
    logging_run (fun _ => (2023, 11, 14)) three_record_queue
      log_state_card_ok three_inputs in
  map snd log = [Written; MutexTimeout; Written]
  /\ successfulWrites st' = 2 /\ failedWrites st' = 1
  /\ sd_write_errors (logStatus st') = 1 /\ Queue.items q' = [].
Proof. vm_compute. repeat split. Qed.

(** X12. Lazy remount.  When the card is marked unavailable, the next
    record makes the task call [initializeSDCard]: if that fails the record
    is dropped without any file operation and the card stays marked
    unavailable; if it succeeds and the mutex and the card cooperate, the
    record is written, both flags are set again and no error is counted. *)
Theorem storage_lazy_remount
    (gmtime_ymd : time_t -> Z * Z * Z) (st : LogState) (inp : LogInput)
    (data : AggregatedData) :
  sdCardInitialized st = false ->
  let out := fst (handle_record gmtime_ymd st inp data) in
  let st' := snd (handle_record gmtime_ymd st inp data) in
  (init_ok inp = false ->
   out = CardUnavailable /\ card st' = card st
   /\ sdCardInitialized st' = false /\ sd_card_ok (logStatus st') = false)
  /\ (init_ok inp = true -> mutex_ok inp = true ->
      create_ok (card st) = true -> append_ok (card st) = true ->
      out = Written
      /\ sdCardInitialized st' = true /\ sd_card_ok (logStatus st') = true
      /\ sd_write_errors (logStatus st') = sd_write_errors (logStatus st)
      /\ exists before,
           sd_lookup (files (card st'))
             (getLogFilename gmtime_ymd (start_timestamp data))
           = Some (before ++ csv_row data)%string).
Proof.
  intros Hi out st'. subst out st'. unfold handle_record. rewrite Hi. split.
  - intros ->. cbn. repeat split.
  - intros -> -> Hc Ha. cbn [negb].
    destruct (writeDataToSD_writable gmtime_ymd (card st) data Hc Ha)
      as (sd' & Hw & _ & _ & Hl & _).
    rewrite Hw. cbn. repeat split. eexists. exact Hl.
Qed.

Lemma storage_lazy_remount_witness :
  fst (handle_record (fun _ => (2023, 11, 14)) log_state_after_failure
         (mkLogInput true true) record_20_22_nan) = Written
  /\ sd_card_ok
       (logStatus
          (snd (handle_record (fun _ => (2023, 11, 14))
                  log_state_after_failure (mkLogInput true true)
                  record_20_22_nan))) = true.
Proof.
  destruct (storage_lazy_remount (fun _ => (2023, 11, 14))
              log_state_after_failure (mkLogInput true true)
              record_20_22_nan eq_refl) as [_ H].
  destruct H as (H1 & _ & H3 & _); try reflexivity.
  split; assumption.
Defined.

(** ** Upload: drains and cycles in general *)

Lemma published_split (records : list AggregatedData) :
  forall results,
    published_prefix results records ++ unpublished_rest results records
    = records.
Proof.
  induction records as [|d records IH]; intros results;
    [destruct results as [|[|] results]; reflexivity|].
  destruct results as [|[|] results]; cbn; [reflexivity | | reflexivity].
  rewrite IH. reflexivity.
Qed.

Lemma state_after_drain_delivered (records : list AggregatedData) :
  forall results st,
    delivered (state_after_drain st results records)
    = delivered st ++ published_prefix results records.
Proof.
  induction records as [|d records IH]; intros results st.
  - destruct results as [|[|] results]; cbn; rewrite app_nil_r; reflexivity.
  - destruct results as [|[|] results]; cbn [state_after_drain published_prefix].
    + rewrite app_nil_r. reflexivity.
    + rewrite IH. cbn [on_publish_success delivered].
      rewrite <- app_assoc. reflexivity.
    + cbn. rewrite app_nil_r. reflexivity.
Qed.

Lemma drain_quiet (records : list AggregatedData) :
  forall results cap st n,
    (List.length records <= cap)%nat ->
    (List.length records <= List.length results)%nat ->
    drain (quiet_script results) (Queue.mk records cap) st n
    = Some (Queue.mk (unpublished_rest results records) cap,
            state_after_drain st results records,
            count_after_drain n results records).
Proof.
  induction records as [|d records IH]; intros results cap st n Hcap Hres.
  - destruct results; reflexivity.
  - destruct results as [|b results]; cbn [List.length] in Hres; [lia|].
    cbn [quiet_script map drain Queue.receive Queue.items Queue.capacity
         publish_ok arrived enqueue_all fold_left].
    cbn [List.length] in Hcap. destruct b.
    + fold (quiet_script results). rewrite IH by lia. reflexivity.
    + unfold Queue.send_to_front, Queue.is_full.
      cbn [Queue.items Queue.capacity].
      replace (cap <=? List.length records)%nat with false
        by (symmetry; apply Nat.leb_gt; lia).
      reflexivity.
Qed.

(** X13. A drain during which nothing arrives neither loses, duplicates nor
    reorders records, whatever the publishes answer: the records it
    delivered, followed by the records it leaves in the queue, are the
    records the queue held, in the same order; it delivers the records up
    to the first failed publish and leaves the rest, the failed one first.
    (The queue holds at most its capacity and the script answers every
    publish.) *)
Theorem drain_conserves_records
    (records : list AggregatedData) (results : list bool) (cap : nat)
    (st : UploadState) :
  (List.length records <= cap)%nat ->
  (List.length records <= List.length results)%nat ->
  exists q' st' n,
    drain (quiet_script results) (Queue.mk records cap) st 0
    = Some (q', st', n)
    /\ Queue.capacity q' = cap
    /\ exists newly,
         delivered st' = delivered st ++ newly
         /\ newly ++ Queue.items q' = records
         /\ newly = published_prefix results records
         /\ Queue.items q' = unpublished_rest results records.
Proof.
  intros Hcap Hres. rewrite drain_quiet by assumption.
  eexists. eexists. eexists. split; [reflexivity|]. split; [reflexivity|].
  exists (published_prefix results records). cbn [Queue.items].
  split; [apply state_after_drain_delivered|].
  split; [apply published_split|]. split; reflexivity.
Qed.

Lemma drain_conserves_records_witness :
  exists q' st' n,
    drain (quiet_script [true; false; true])
      (Queue.mk [stats_record 60; stats_record 120; stats_record 180]
         AGGREGATED_DATA_QUEUE_SIZE) UploadState_init 0
    = Some (q', st', n)
    /\ Queue.capacity q' = AGGREGATED_DATA_QUEUE_SIZE
    /\ exists newly,
         delivered st' = delivered UploadState_init ++ newly
         /\ newly ++ Queue.items q'
            = [stats_record 60; stats_record 120; stats_record 180]
         /\ newly
            = published_prefix [true; false; true]
                [stats_record 60; stats_record 120; stats_record 180]
         /\ Queue.items q'
            = unpublished_rest [true; false; true]
                [stats_record 60; stats_record 120; stats_record 180].
Proof.
  apply (drain_conserves_records
           [stats_record 60; stats_record 120; stats_record 180]
           [true; false; true] AGGREGATED_DATA_QUEUE_SIZE UploadState_init).
  - unfold AGGREGATED_DATA_QUEUE_SIZE. cbn. lia.
  - cbn. lia.
Defined.




Example upload_run_three_cycles :
  match upload_run three_record_queue UploadState_init three_cycles with
  | Some (q', st') =>
      Queue.items q' = []
      /\ delivered st' = [stats_record 60; stats_record 120; stats_record 180]
      /\ successfulUploads st' = 3 /\ failedUploads st' = 2
      /\ mqtt_errors (uploadStatus st') = 2 /\ uploadCycles st' = 3
  | None => False
  end.
Proof. vm_compute. repeat split. Qed.

Lemma enqueue_all_length (records : list AggregatedData) :
  forall q,
    (List.length (Queue.items (enqueue_all q records))
     <= List.length (Queue.items q) + List.length records)%nat.
Proof.
  induction records as [|d records IH]; intros q; [cbn; lia|].
  unfold enqueue_all in *. cbn [fold_left List.length].
  specialize (IH (snd (Queue.send q d))).
  unfold Queue.send in *. destruct (Queue.is_full q); cbn [snd] in *.
  - lia.
  - cbn [Queue.items] in IH. rewrite length_app in IH. cbn in IH. lia.
Qed.

(** X15. Whatever the publishes answer and whatever arrives meanwhile, a
    drain that ends has attempted the records it delivered and at most one
    more: either every attempt succeeded, no failure is counted and the
    queue was found empty, or exactly one publish failed, it was the last
    attempt of the drain, and [failedUploads] and [mqtt_errors] went up by
    one each. *)
Theorem drain_stops_at_first_failure (script : list PublishEvent) :
  forall (q q' : Queue.t AggregatedData) (st st' : UploadState) (n n' : Z),
    drain script q st n = Some (q', st', n') ->
    exists newly,
      delivered st' = delivered st ++ newly
      /\ n' = count_up n newly
      /\ successfulUploads st' = count_up (successfulUploads st) newly
      /\ ((attempted st' = attempted st ++ newly
           /\ failedUploads st' = failedUploads st
           /\ uploadStatus st' = uploadStatus st
           /\ Queue.items q' = [])
          \/ (exists failed,
                attempted st' = attempted st ++ newly ++ [failed]
                /\ failedUploads st' = wrap32 (failedUploads st + 1)
                /\ mqtt_errors (uploadStatus st')
                   = wrap32 (mqtt_errors (uploadStatus st) + 1))).
Proof.
  induction script as [|ev script IH]; intros q q' st st' n n' H.
  - cbn [drain] in H. unfold Queue.receive in H.
    destruct (Queue.items q) eqn:Eq; [|discriminate].
    injection H as <- <- <-. exists []. cbn. rewrite !app_nil_r.
    repeat split. left. repeat split. exact Eq.
  - cbn [drain] in H. unfold Queue.receive in H.
    destruct (Queue.items q) as [|d rest] eqn:Eq.
    + injection H as <- <- <-. exists []. cbn. rewrite !app_nil_r.
      repeat split. left. repeat split. exact Eq.
    + destruct (publish_ok ev).
      * apply IH in H.
        destruct H as (newly & Hd & Hn & Hs & Hcase).
        exists (d :: newly).
        cbn [on_publish_success delivered attempted failedUploads
             uploadStatus successfulUploads] in *.
        rewrite <- app_assoc in Hd. cbn [app] in Hd.
        split; [exact Hd|]. split; [exact Hn|]. split; [exact Hs|].
        destruct Hcase as [(Ha & Hf & Hu & Hq) | (failed & Ha & Hf & Hm)].
        -- left. rewrite <- app_assoc in Ha. repeat split; assumption.
        -- right. exists failed. rewrite <- app_assoc in Ha.
           repeat split; assumption.
      * injection H as <- <- <-. exists []. cbn. rewrite app_nil_r.
        repeat split. right. exists d. repeat split.
Qed.

Lemma drain_stops_at_first_failure_witness :
  exists newly,
    delivered (on_publish_failure UploadState_init (stats_record 60))
    = delivered UploadState_init ++ newly
    /\ 0 = count_up 0 newly
    /\ successfulUploads (on_publish_failure UploadState_init (stats_record 60))
       = count_up (successfulUploads UploadState_init) newly
    /\ ((attempted (on_publish_failure UploadState_init (stats_record 60))
         = attempted UploadState_init ++ newly
         /\ failedUploads
              (on_publish_failure UploadState_init (stats_record 60))
            = failedUploads UploadState_init
         /\ uploadStatus
              (on_publish_failure UploadState_init (stats_record 60))
            = uploadStatus UploadState_init
         /\ Queue.items
              (Queue.mk (map stats_record
                           [120; 180; 240; 300; 360; 420; 480; 540; 600; 660])
                 AGGREGATED_DATA_QUEUE_SIZE) = [])
        \/ (exists failed,
              attempted (on_publish_failure UploadState_init (stats_record 60))
              = attempted UploadState_init ++ newly ++ [failed]
              /\ failedUploads
                   (on_publish_failure UploadState_init (stats_record 60))
                 = wrap32 (failedUploads UploadState_init + 1)
              /\ mqtt_errors
                   (uploadStatus
                      (on_publish_failure UploadState_init (stats_record 60)))
                 = wrap32 (mqtt_errors (uploadStatus UploadState_init) + 1))).
Proof.
  apply (drain_stops_at_first_failure
           [mkPublishEvent false [stats_record 660]]
           (Queue.mk ten_records AGGREGATED_DATA_QUEUE_SIZE)
           (Queue.mk (map stats_record
                        [120; 180; 240; 300; 360; 420; 480; 540; 600; 660])
              AGGREGATED_DATA_QUEUE_SIZE)
           UploadState_init
           (on_publish_failure UploadState_init (stats_record 60)) 0 0).
  vm_compute. reflexivity.
Defined.

Lemma drain_record_count (script : list PublishEvent) :
  forall (q q' : Queue.t AggregatedData) (st st' : UploadState) (n n' : Z),
    drain script q st n = Some (q', st', n') ->
    (List.length (delivered st') + List.length (Queue.items q')
     <= List.length (delivered st) + List.length (Queue.items q)
        + script_arrivals script)%nat.
Proof.
  induction script as [|ev script IH]; intros q q' st st' n n' H.
  - cbn [drain] in H. unfold Queue.receive in H.
    destruct (Queue.items q) eqn:Eq; [|discriminate].
    injection H as <- <- <-. rewrite Eq. cbn. lia.
  - cbn [drain] in H. unfold Queue.receive in H.
    destruct (Queue.items q) as [|d rest] eqn:Eq.
    + injection H as <- <- <-. rewrite Eq. cbn. lia.
    + pose proof (enqueue_all_length (arrived ev)
                    (Queue.mk rest (Queue.capacity q))) as Hlen.
      cbn [Queue.items] in Hlen. cbn [script_arrivals fold_right].
      fold (script_arrivals script). cbn [List.length].
      destruct (publish_ok ev).
      * apply IH in H. cbn [on_publish_success delivered] in H.
        rewrite length_app in H. cbn [List.length] in H. lia.
      * injection H as <- <- <-. cbn [on_publish_failure delivered].
        unfold Queue.send_to_front.
        destruct (Queue.is_full _); cbn [snd Queue.items List.length]; lia.
Qed.

(** X16. In every schedule of the three tasks on the one queue, the records
    received by the storage task, the records delivered by the upload task
    and the records still queued together never outnumber the records the
    aggregation task sent: a record that reached one consumer is not
    available to the other. *)
Theorem pipeline_no_double_consumption (steps : list TaskStep) :
  forall p p',
    pipeline_run p steps = Some p' ->
    (List.length (storage_received p') + List.length (delivered (upload p'))
     + List.length (Queue.items (aggregatedDataQueue p'))
     <= List.length (storage_received p) + List.length (delivered (upload p))
        + List.length (Queue.items (aggregatedDataQueue p))
        + sent_count steps)%nat.
Proof.
  induction steps as [|s steps IH]; intros p p' H.
  - cbn in H. injection H as <-. cbn. lia.
  - cbn [pipeline_run] in H.
    destruct (pipeline_step p s) as [p1|] eqn:Es; [|discriminate].
    apply IH in H. destruct s as [d | | script];
      cbn [pipeline_step sent_count] in *.
    + injection Es as <-.
      cbn [storage_received upload aggregatedDataQueue] in H.
      unfold Queue.send in H.
      destruct (Queue.is_full (aggregatedDataQueue p));
        cbn [snd Queue.items] in H; [lia|].
      rewrite length_app in H. cbn [List.length] in H. lia.
    + unfold Queue.receive in Es.
      destruct (Queue.items (aggregatedDataQueue p)) as [|d rest] eqn:Eq.
      * injection Es as <-. rewrite Eq in H. cbn [List.length] in *. lia.
      * injection Es as <-.
        cbn [storage_received upload aggregatedDataQueue Queue.items] in H.
        rewrite length_app in H. cbn [List.length] in *. lia.
    + unfold upload_cycle in Es. cbn [negb] in Es.
      destruct (drain script (aggregatedDataQueue p) _ 0)
        as [[[q1 st1] n1]|] eqn:Ed; [|discriminate].
      injection Es as <-. apply drain_record_count in Ed.
      cbn [storage_received upload aggregatedDataQueue with_status delivered
           begin_cycle] in *. lia.
Qed.

Lemma pipeline_no_double_consumption_witness :
  exists p',
    pipeline_run Pipeline_init
      [AggregationSends (stats_record 60); LoggingReceives;
       AggregationSends (stats_record 120);
       UploadDrains [published_quietly]] = Some p'
    /\ storage_received p' = [stats_record 60]
    /\ delivered (upload p') = [stats_record 120]
    /\ (List.length (storage_received p')
        + List.length (delivered (upload p'))
        + List.length (Queue.items (aggregatedDataQueue p')) <= 2)%nat.
Proof.
  eexists. split; [vm_compute; reflexivity|].
  split; [reflexivity|]. split; [reflexivity|].
  apply (pipeline_no_double_consumption
           [AggregationSends (stats_record 60); LoggingReceives;
            AggregationSends (stats_record 120);
            UploadDrains [published_quietly]] Pipeline_init).
  vm_compute. reflexivity.
Defined.

(** ** Waiting for WiFi *)

Lemma elapsed_across_rollover (startTime elapsed : Z) :
  0 <= elapsed < 2 ^ 32 ->
  wrap32 (wrap32 (startTime + elapsed) - startTime) = elapsed.
Proof.
  intros H. unfold wrap32. rewrite Zminus_mod_idemp_l.
  replace (startTime + elapsed - startTime) with elapsed by lia.
  apply Z.mod_small, H.
Qed.

(** X17. The connection timeout is immune to the rollover of the
    millisecond counter: whatever [millis()] showed when the wait started,
    [connectToWiFi] (and [connectForTimeSync], the same loop) decides as
    the elapsed time dictates: connected as soon as a poll finds the link
    up, failed at the first poll that finds it down more than 20000 ms
    after the start.  (Each poll happens less than 2^32 ms after the
    start.) *)
Theorem wifi_timeout_rollover_safe (startTime : Z) (polls : list (bool * Z)) :
  Forall (fun p => 0 <= snd p < 2 ^ 32) polls ->
  connectToWiFi startTime (map (millis_at startTime) polls)
  = wait_elapsed polls
  /\ connectForTimeSync startTime (map (millis_at startTime) polls)
     = wait_elapsed polls.
Proof.
  intros H. unfold connectToWiFi, connectForTimeSync.
  assert (E : wifi_wait startTime (map (millis_at startTime) polls)
              = wait_elapsed polls).
  { induction H as [|[c e] polls He _ IH]; [reflexivity|].
    cbn [map millis_at fst snd wifi_wait wait_elapsed] in *.
    rewrite elapsed_across_rollover by exact He. rewrite IH. reflexivity. }
  split; exact E.
Qed.

(** The wait starts 1000 ms before the counter rolls over; the link comes up
    at the third poll. *)
Lemma wifi_timeout_rollover_safe_witness :
  connectToWiFi (2 ^ 32 - 1000)
    (map (millis_at (2 ^ 32 - 1000)) [(false, 0); (false, 500); (true, 1200)])
  = wait_elapsed [(false, 0); (false, 500); (true, 1200)]
  /\ connectForTimeSync (2 ^ 32 - 1000)
       (map (millis_at (2 ^ 32 - 1000))
          [(false, 0); (false, 500); (true, 1200)])
     = wait_elapsed [(false, 0); (false, 500); (true, 1200)].
Proof.
  apply (wifi_timeout_rollover_safe (2 ^ 32 - 1000)
           [(false, 0); (false, 500); (true, 1200)]).
  repeat constructor; cbn; lia.
Defined.

Example wifi_wait_across_rollover :
  map (millis_at (2 ^ 32 - 1000)) [(false, 0); (false, 500); (true, 1200)]
  = [(false, 4294966296); (false, 4294966796); (true, 200)]
  /\ connectToWiFi (2 ^ 32 - 1000)
       [(false, 4294966296); (false, 4294966796); (true, 200)] = Some true.
Proof. vm_compute. split; reflexivity. Qed.

Lemma wait_elapsed_bounded (polls : list (bool * Z)) :
  forall j : nat,
    (forall k c e, nth_error polls k = Some (c, e) ->
                   500 * Z.of_nat (j + k) <= e) ->
    (j <= 41)%nat -> (42 - j <= List.length polls)%nat ->
    exists b, wait_elapsed polls = Some b.
Proof.
  induction polls as [|[c e] polls IH]; intros j Hdelay Hj Hlen.
  - cbn [List.length] in Hlen. lia.
  - cbn [wait_elapsed]. destruct c; [exists true; reflexivity|].
    destruct (WIFI_TIMEOUT_MS <? e) eqn:Et; [exists false; reflexivity|].
    apply Z.ltb_ge in Et. unfold WIFI_TIMEOUT_MS in Et.
    pose proof (Hdelay O false e eq_refl) as H0.
    rewrite Nat.add_0_r in H0.
    apply (IH (S j)).
    + intros k c' e' Hk. specialize (Hdelay (S k) c' e' Hk).
      replace (S j + k)%nat with (j + S k)%nat by lia. exact Hdelay.
    + lia.
    + cbn [List.length] in Hlen. lia.
Qed.

(** X18. The wait ends: with [delay(500)] between polls (poll [k] happens
    at least [500 k] ms after the start) the loop has decided after at most
    42 evaluations of its condition, whatever the link does. *)
Theorem wifi_wait_terminates (startTime : Z) (polls : list (bool * Z)) :
  Forall (fun p => 0 <= snd p < 2 ^ 32) polls ->
  (forall k c e, nth_error polls k = Some (c, e) -> 500 * Z.of_nat k <= e) ->
  (42 <= List.length polls)%nat ->
  exists b,
    connectToWiFi startTime (map (millis_at startTime) (firstn 42 polls))
    = Some b.
Proof.
  intros Hrange Hdelay Hlen. unfold connectToWiFi.
  assert (E : wifi_wait startTime (map (millis_at startTime) (firstn 42 polls))
              = wait_elapsed (firstn 42 polls)).
  { assert (Hr : Forall (fun p => 0 <= snd p < 2 ^ 32) (firstn 42 polls)).
    { rewrite <- (firstn_skipn 42 polls) in Hrange.
      apply Forall_app in Hrange. apply Hrange. }
    induction Hr as [|[c e] l He _ IH]; [reflexivity|].
    cbn [map millis_at fst snd wifi_wait wait_elapsed] in *.
    rewrite elapsed_across_rollover by exact He. rewrite IH. reflexivity. }
  rewrite E. apply (wait_elapsed_bounded (firstn 42 polls) O).
  - intros k c e Hk. cbn [Nat.add]. apply (Hdelay k c e).
    destruct (Nat.lt_ge_cases k 42) as [Hlt | Hge].
    + rewrite nth_error_firstn in Hk.
      destruct (k <? 42)%nat eqn:E2; [exact Hk | discriminate].
    + assert (Hn : nth_error (firstn 42 polls) k = None).
      { apply nth_error_None. rewrite length_firstn. lia. }
      congruence.
  - lia.
  - rewrite length_firstn. lia.
Qed.

Lemma steady_polls_delay (n k : nat) (c : bool) (e : Z) :
  nth_error (steady_polls n) k = Some (c, e) -> 500 * Z.of_nat k <= e.
Proof.
  unfold steady_polls. intros H.
  rewrite nth_error_map in H.
  destruct (nth_error (seq 0 n) k) as [i|] eqn:Ei; [|discriminate].
  cbn [option_map] in H.
  assert (He : 500 * Z.of_nat i = e) by congruence. clear H.
  assert (Hk : (k < List.length (seq 0 n))%nat).
  { apply nth_error_Some. congruence. }
  rewrite length_seq in Hk.
  rewrite (nth_error_nth' _ O) in Ei by (rewrite length_seq; exact Hk).
  rewrite seq_nth in Ei by exact Hk. cbn [Nat.add] in Ei.
  assert (k = i) by congruence. lia.
Qed.

Lemma wifi_wait_terminates_witness :
  exists b,
    connectToWiFi 4294960000
      (map (millis_at 4294960000) (firstn 42 (steady_polls 45))) = Some b.
Proof.
  apply (wifi_wait_terminates 4294960000 (steady_polls 45)).
  - apply Forall_forall. intros [c e] Hin.
    apply In_nth_error in Hin as [k Hk].
    pose proof (steady_polls_delay 45 k c e Hk) as Hlo.
    assert (Hlt : (k < List.length (steady_polls 45))%nat).
    { apply nth_error_Some. congruence. }
    unfold steady_polls in Hlt, Hk. rewrite length_map, length_seq in Hlt.
    rewrite nth_error_map in Hk.
    rewrite (nth_error_nth' _ O) in Hk by (rewrite length_seq; exact Hlt).
    rewrite seq_nth in Hk by exact Hlt. cbn [option_map Nat.add] in Hk.
    assert (He : 500 * Z.of_nat k = e) by congruence. cbn [snd]. lia.
  - intros k c e. apply steady_polls_delay.
  - vm_compute. lia.
Defined.

Example wifi_wait_gives_up_after_41_delays :
  connectToWiFi 4294960000
    (map (millis_at 4294960000) (firstn 42 (steady_polls 45))) = Some false
  /\ connectToWiFi 4294960000
       (map (millis_at 4294960000) (firstn 41 (steady_polls 45))) = None.
Proof. vm_compute. split; reflexivity. Qed.

(** ** Time synchronisation *)

Lemma ntp_wait_result (answers : list bool) :
  forall retry : nat,
    (retry <= 20)%nat -> (21 - retry <= List.length answers)%nat ->
    exists r,
      ntp_wait answers retry = Some r
      /\ (retry <= r <= 20)%nat
      /\ (r <? 20)%nat = existsb (fun b => b) (firstn (20 - retry) answers).
Proof.
  induction answers as [|a rest IH]; intros retry Hr Hlen.
  - cbn [List.length] in Hlen. lia.
  - cbn [ntp_wait]. unfold NTP_MAX_RETRIES. destruct a.
    + exists retry. split; [reflexivity|]. split; [lia|].
      destruct (Nat.ltb_spec retry 20) as [Hlt | Hge].
      * replace (20 - retry)%nat with (S (19 - retry)) by lia. reflexivity.
      * replace (20 - retry)%nat with O by lia. reflexivity.
    + destruct (Nat.ltb_spec retry 20) as [Hlt | Hge].
      * destruct (IH (S retry)) as (r & E & Hb & Hex).
        { lia. }
        { cbn [List.length] in Hlen. lia. }
        exists r. split; [exact E|]. split; [lia|].
        replace (20 - retry)%nat with (S (20 - S retry)) by lia.
        cbn [firstn existsb orb]. exact Hex.
      * exists retry. split; [reflexivity|]. split; [lia|].
        replace (20 - retry)%nat with O by lia.
        destruct (Nat.ltb_spec retry 20); [lia | reflexivity].
Qed.

(** X19. [syncTimeWithNTP] asks [getLocalTime] at most 21 times and reports
    success exactly when one of the first 20 calls obtained the time: a
    time that arrives only at the 21st call, after the twentieth wait, is
    reported as a failure. *)
Theorem ntp_success_within_twenty_calls (answers : list bool) :
  (21 <= List.length answers)%nat ->
  syncTimeWithNTP answers
  = Some (existsb (fun b => b) (firstn 20 answers))
  /\ syncTimeWithNTP (firstn 21 answers) = syncTimeWithNTP answers.
Proof.
  intros Hlen.
  destruct (ntp_wait_result answers O) as (r & E & Hb & Hex); [lia | lia |].
  assert (Hlen' : (21 <= List.length (firstn 21 answers))%nat).
  { rewrite length_firstn. lia. }
  destruct (ntp_wait_result (firstn 21 answers) O)
    as (r' & E' & Hb' & Hex'); [lia | lia |].
  assert (Hsame : firstn 20 (firstn 21 answers) = firstn 20 answers).
  { rewrite firstn_firstn. reflexivity. }
  cbn [Nat.sub] in Hex, Hex'. rewrite Hsame in Hex'.
  unfold syncTimeWithNTP. rewrite E, E'. unfold NTP_MAX_RETRIES.
  assert (Hneg : forall n, negb (20 <=? n)%nat = (n <? 20)%nat).
  { intros n. destruct (Nat.leb_spec 20 n), (Nat.ltb_spec n 20);
      try reflexivity; lia. }
  rewrite !Hneg, Hex, Hex'. split; reflexivity.
Qed.

Lemma ntp_success_within_twenty_calls_witness :
  syncTimeWithNTP ntp_late_answers
  = Some (existsb (fun b => b) (firstn 20 ntp_late_answers))
  /\ syncTimeWithNTP (firstn 21 ntp_late_answers)
     = syncTimeWithNTP ntp_late_answers.
Proof.
  apply (ntp_success_within_twenty_calls ntp_late_answers).
  vm_compute. lia.
Defined.

Example ntp_time_at_21st_call_is_a_failure :
  syncTimeWithNTP ntp_late_answers = Some false
  /\ syncTimeWithNTP (repeat false 19 ++ [true]) = Some true.
Proof. vm_compute. split; reflexivity. Qed.

Lemma updateRTCFromNTP_result (st : TimeSync.state) (a : SyncAttempt) :
  exists trace,
    TimeSync.updateRTCFromNTP st (sync_rtc a) (sync_now a) (sync_readback a)
    = (update_ok a,
       if update_ok a then TimeSync.mkState (sync_now a) true else st,
       trace)
    /\ (update_ok a = true -> TimeSync.NTP_EPOCH_THRESHOLD <= sync_now a).
Proof.
  unfold update_ok, TimeSync.updateRTCFromNTP.
  destruct (sync_rtc a) as [rtc|].
  2:{ exists []. split; [reflexivity | discriminate]. }
  destruct (sync_now a <? TimeSync.NTP_EPOCH_THRESHOLD) eqn:Et.
  { exists []. split; [reflexivity | discriminate]. }
  apply Z.ltb_ge in Et.
  destruct (TimeSync.setTime rtc (sync_now a)) as [ok trace].
  exists trace. destruct ok; cbn [negb fst snd].
  - destruct (2 <? _); cbn [fst snd]; (split; [reflexivity | intros _; exact Et]).
  - split; [reflexivity | discriminate].
Qed.

Lemma performTimeSync_result (st : TimeSync.state) (status : SystemStatus)
    (a : SyncAttempt) :
  exists trace,
    performTimeSync st status a
    = (attempt_succeeds a,
       (if attempt_succeeds a then TimeSync.mkState (sync_now a) true
        else st),
       set_wifi_connected status false, trace)
    /\ (wifi_result a = false \/ ntp_result a = false -> trace = []).
Proof.
  unfold performTimeSync, attempt_succeeds.
  destruct (wifi_result a).
  2:{ exists []. split; [reflexivity | reflexivity]. }
  destruct (ntp_result a).
  2:{ exists []. split; [reflexivity | reflexivity]. }
  cbn [negb andb].
  destruct (updateRTCFromNTP_result st a) as (trace & E & _).
  rewrite E. exists trace.
  destruct (update_ok a); cbn [negb];
    (split; [reflexivity | intros [H | H]; discriminate]).
Qed.

(** X20. [performTimeSync] is all or nothing: it reports success only when
    the WiFi connection, the NTP query and the clock update all succeeded,
    and then the time of the sync is recorded and is not before 2020; on any
    failure the synchronisation state is left as it was; the clock object
    is not touched at all unless both WiFi and NTP succeeded; and every
    path leaves [systemStatus.wifi_connected] cleared and the other status
    fields alone. *)
Theorem performTimeSync_all_or_nothing (st : TimeSync.state)
    (status : SystemStatus) (a : SyncAttempt) :
  let '(ok, st', status', trace) := performTimeSync st status a in
  (ok = true ->
     wifi_result a = true /\ ntp_result a = true
     /\ TimeSync.NTP_EPOCH_THRESHOLD <= sync_now a
     /\ st' = TimeSync.mkState (sync_now a) true)
  /\ (ok = false -> st' = st)
  /\ (wifi_result a = false \/ ntp_result a = false -> trace = [])
  /\ wifi_connected status' = false
  /\ mqtt_connected status' = mqtt_connected status
  /\ sd_card_ok status' = sd_card_ok status
  /\ sd_write_errors status' = sd_write_errors status
  /\ mqtt_errors status' = mqtt_errors status.
Proof.
  destruct (performTimeSync_result st status a) as (trace & E & Htrace).
  rewrite E.
  destruct (updateRTCFromNTP_result st a) as (_ & _ & Hthr).
  unfold attempt_succeeds in *.
  split; [|split; [|split; [exact Htrace|]]].
  - intros Hok.
    destruct (wifi_result a); [|discriminate].
    destruct (ntp_result a); [|discriminate].
    cbn [andb] in Hok |- *. rewrite Hok.
    repeat split; try reflexivity. apply Hthr, Hok.
  - intros Hok. rewrite Hok. reflexivity.
  - destruct status. cbn. repeat split; reflexivity.
Qed.

Example performTimeSync_examples :
  performTimeSync (TimeSync.mkState 0 false) status_boot attempt_good
  = (true, TimeSync.mkState 1709294400 true,
     set_wifi_connected status_boot false,
     [TimeSync.SetTimeCalled 1709294400; TimeSync.Adjusted 1709294400])
  /\ performTimeSync (TimeSync.mkState 0 false) status_boot attempt_no_ntp
     = (false, TimeSync.mkState 0 false,
        set_wifi_connected status_boot false, [])
  /\ performTimeSync (TimeSync.mkState 1709200000 true) status_boot
       attempt_chip_stuck
     = (false, TimeSync.mkState 1709200000 true,
        set_wifi_connected status_boot false,
        [TimeSync.SetTimeCalled 1709294400; TimeSync.Adjusted 1709294400]).
Proof. vm_compute. repeat split; reflexivity. Qed.

(** X21. The start-up phase of [timeSyncTask] makes at least one and at
    most three attempts, stops at the first that succeeds, waits 30 s after
    each failed attempt but the third, and ends synchronised exactly when
    one of (at most) three attempts succeeded; if all three fail the
    synchronisation state is the one the task started with. *)
Theorem initial_sync_three_attempts (envs : list SyncAttempt)
    (st : TimeSync.state) (status : SystemStatus) :
  TimeSync.initialSyncComplete st = false ->
  (3 <= List.length envs)%nat ->
  exists r,
    initial_sync envs (mkInitialSync st status 0 0 []) = Some r
    /\ (1 <= is_attempts r <= 3)%nat
    /\ is_delays r = (is_attempts r - 1)%nat
    /\ Forall (fun a => attempt_succeeds a = false)
         (firstn (is_attempts r - 1) envs)
    /\ isTimeSynced (is_state r)
       = existsb attempt_succeeds (firstn 3 envs)
    /\ isTimeSynced (is_state r)
       = existsb attempt_succeeds (firstn (is_attempts r) envs)
    /\ (isTimeSynced (is_state r) = false -> is_state r = st)
    /\ wifi_connected (is_status r) = false.
Proof.
  intros Hst Hlen.
  destruct envs as [|a1 [|a2 [|a3 rest]]];
    try (cbn [List.length] in Hlen; lia).
  unfold isTimeSynced.
  cbn [initial_sync is_state is_status is_attempts is_delays is_trace].
  rewrite Hst. cbn [negb andb]. unfold SYNC_MAX_ATTEMPTS.
  change (0 <? 3)%nat with true. cbn iota.
  destruct (performTimeSync_result st status a1) as (t1 & E1 & _).
  rewrite E1. destruct (attempt_succeeds a1) eqn:S1.
  { eexists. split; [reflexivity|]. cbn. rewrite S1.
    repeat split; try lia; try discriminate. constructor. }
  change (1 <? 3)%nat with true. cbn iota.
  cbn [initial_sync is_state is_status is_attempts is_delays is_trace].
  rewrite Hst. cbn [negb andb]. change (1 <? 3)%nat with true. cbn iota.
  destruct (performTimeSync_result st (set_wifi_connected status false) a2)
    as (t2 & E2 & _).
  rewrite E2. destruct (attempt_succeeds a2) eqn:S2.
  { eexists. split; [reflexivity|]. cbn. rewrite S1, S2.
    repeat split; try lia; try discriminate. repeat constructor. exact S1. }
  change (2 <? 3)%nat with true. cbn iota.
  cbn [initial_sync is_state is_status is_attempts is_delays is_trace].
  rewrite Hst. cbn [negb andb]. change (2 <? 3)%nat with true. cbn iota.
  destruct (performTimeSync_result st
              (set_wifi_connected (set_wifi_connected status false) false) a3)
    as (t3 & E3 & _).
  rewrite E3. destruct (attempt_succeeds a3) eqn:S3.
  { eexists. split; [reflexivity|]. cbn. rewrite S1, S2, S3.
    repeat split; try lia; try discriminate.
    repeat constructor; assumption. }
  change (3 <? 3)%nat with false. cbn iota.
  assert (Hdone : forall r,
            is_attempts r = 3%nat -> initial_sync rest r = Some r).
  { intros r Hr. destruct rest; cbn [initial_sync]; rewrite Hr;
      unfold SYNC_MAX_ATTEMPTS; change (3 <? 3)%nat with false;
      rewrite Bool.andb_false_r; reflexivity. }
  rewrite Hdone by reflexivity.
  eexists. split; [reflexivity|]. cbn. rewrite S1, S2, S3, Hst.
  repeat split; try lia; try reflexivity.
  repeat constructor; assumption.
Qed.

Lemma initial_sync_three_attempts_witness :
  exists r,
    initial_sync [attempt_no_wifi; attempt_good; attempt_good; attempt_good]
      (mkInitialSync (TimeSync.mkState 0 false) status_boot 0 0 [])
    = Some r
    /\ (1 <= is_attempts r <= 3)%nat
    /\ is_delays r = (is_attempts r - 1)%nat
    /\ Forall (fun a => attempt_succeeds a = false)
         (firstn (is_attempts r - 1)
            [attempt_no_wifi; attempt_good; attempt_good; attempt_good])
    /\ isTimeSynced (is_state r)
       = existsb attempt_succeeds
           (firstn 3
              [attempt_no_wifi; attempt_good; attempt_good; attempt_good])
    /\ isTimeSynced (is_state r)
       = existsb attempt_succeeds
           (firstn (is_attempts r)
              [attempt_no_wifi; attempt_good; attempt_good; attempt_good])
    /\ (isTimeSynced (is_state r) = false
        -> is_state r = TimeSync.mkState 0 false)
    /\ wifi_connected (is_status r) = false.
Proof.
  apply (initial_sync_three_attempts
           [attempt_no_wifi; attempt_good; attempt_good; attempt_good]
           (TimeSync.mkState 0 false) status_boot).
  - reflexivity.
  - cbn [List.length]. lia.
Defined.

Example initial_sync_examples :
  option_map (fun r => (is_attempts r, is_delays r, is_state r))
    (initial_sync [attempt_no_wifi; attempt_good; attempt_good]
       (mkInitialSync (TimeSync.mkState 0 false) status_boot 0 0 []))
  = Some (2%nat, 1%nat, TimeSync.mkState 1709294400 true)
  /\ option_map (fun r => (is_attempts r, is_delays r, is_state r))
       (initial_sync [attempt_no_wifi; attempt_no_ntp; attempt_chip_stuck]
          (mkInitialSync (TimeSync.mkState 0 false) status_boot 0 0 []))
     = Some (3%nat, 2%nat, TimeSync.mkState 0 false).
Proof. vm_compute. split; reflexivity. Qed.

(** X22. After a successful [performTimeSync], [getTimeSinceLastSync] is the
    number of seconds since that sync for the next 2^32 seconds: the value
    0 that marks "never synced" in [lastSyncTime] cannot be the time of a
    successful sync, which is never before 2020.  Before any sync the
    answer is 0 whatever the clock says. *)
Theorem time_since_last_sync (st st' : TimeSync.state)
    (status status' : SystemStatus) (a : SyncAttempt)
    (trace : list TimeSync.event) (later : time_t) :
  performTimeSync st status a = (true, st', status', trace) ->
  0 <= later - sync_now a < 2 ^ 32 ->
  getTimeSinceLastSync st' later = later - sync_now a
  /\ isTimeSynced st' = true
  /\ getTimeSinceLastSync (TimeSync.mkState 0 false) later = 0.
Proof.
  intros E Hlater.
  destruct (performTimeSync_result st status a) as (trace' & E' & _).
  rewrite E in E'. injection E' as Hok Hst' _ _.
  rewrite <- Hok in Hst'. subst st'.
  destruct (updateRTCFromNTP_result st a) as (_ & _ & Hthr).
  assert (Hup : update_ok a = true).
  { unfold attempt_succeeds in Hok. symmetry in Hok.
    apply Bool.andb_true_iff in Hok. apply Hok. }
  specialize (Hthr Hup). unfold TimeSync.NTP_EPOCH_THRESHOLD in Hthr.
  unfold getTimeSinceLastSync, isTimeSynced. cbn [TimeSync.lastSyncTime
    TimeSync.initialSyncComplete].
  split; [|split; reflexivity].
  destruct (sync_now a =? 0) eqn:E0; [apply Z.eqb_eq in E0; lia|].
  unfold wrap32. apply Z.mod_small. exact Hlater.
Qed.

Lemma time_since_last_sync_witness :
  getTimeSinceLastSync (TimeSync.mkState 1709294400 true) 1709300000
  = 1709300000 - sync_now attempt_good
  /\ isTimeSynced (TimeSync.mkState 1709294400 true) = true
  /\ getTimeSinceLastSync (TimeSync.mkState 0 false) 1709300000 = 0.
Proof.
  apply (time_since_last_sync (TimeSync.mkState 0 false)
           (TimeSync.mkState 1709294400 true) status_boot
           (set_wifi_connected status_boot false) attempt_good
           [TimeSync.SetTimeCalled 1709294400; TimeSync.Adjusted 1709294400]
           1709300000).
  - vm_compute. reflexivity.
  - cbn. lia.
Defined.

(** ** The averaged ADC reading *)

Lemma adc_sum_exact (lo hi : Z) (samples : list Z) :
  0 <= lo -> hi < 2 ^ 16 ->
  Forall (fun s => lo <= s <= hi) samples ->
  forall acc,
    0 <= acc ->
    acc + Z.of_nat (List.length samples) * (2 ^ 16) <= 2 ^ 32 ->
    let sum := fold_left (fun sum s => wrap32 (sum + wrap16 s)) samples acc in
    sum = fold_left Z.add samples acc
    /\ acc + Z.of_nat (List.length samples) * lo <= sum
    /\ sum <= acc + Z.of_nat (List.length samples) * hi.
Proof.
  intros Hlo Hhi Hall.
  induction Hall as [|s samples Hs _ IH]; intros acc Hacc Hfit.
  - cbn. lia.
  - cbn [fold_left List.length] in *.
    rewrite Nat2Z.inj_succ in *.
    assert (E16 : wrap16 s = s) by (unfold wrap16; apply Z.mod_small; lia).
    assert (E32 : wrap32 (acc + s) = acc + s).
    { unfold wrap32. apply Z.mod_small.
      pose proof (Nat2Z.is_nonneg (List.length samples)). nia. }
    rewrite E16, E32.
    destruct (IH (acc + s)) as (E & Hl & Hh); [lia | nia |].
    cbv zeta in E, Hl, Hh.
    split; [exact E|]. split; nia.
Qed.

(** X23. [readRawADC] returns the integer mean of its ten samples, and the
    mean lies between the smallest and the largest of them: the 32-bit sum
    of ten 16-bit samples cannot wrap and the quotient fits the 16-bit
    result.  In particular ten 12-bit samples give a value in 0..4095. *)
Theorem readRawADC_mean_in_range (lo hi : Z) (samples : list Z) :
  List.length samples = 10%nat ->
  0 <= lo -> hi < 2 ^ 16 ->
  Forall (fun s => lo <= s <= hi) samples ->
  readRawADC samples = fold_left Z.add samples 0 / 10
  /\ lo <= readRawADC samples <= hi.
Proof.
  intros Hlen Hlo Hhi Hall.
  destruct (adc_sum_exact lo hi samples Hlo Hhi Hall 0) as (E & Hl & Hh).
  - lia.
  - rewrite Hlen. cbn. lia.
  - cbv zeta in E, Hl, Hh. rewrite Hlen in Hl, Hh.
    unfold readRawADC, SOIL_MOISTURE_SAMPLES. cbv zeta. rewrite E in *.
    set (total := fold_left Z.add samples 0) in *.
    change (Z.of_nat 10) with 10 in *.
    pose proof (Z.div_mod total 10 ltac:(lia)) as Hdm.
    pose proof (Z.mod_pos_bound total 10 ltac:(lia)) as Hmb.
    assert (Hq : lo <= total / 10 <= hi) by lia.
    assert (E16 : wrap16 (total / 10) = total / 10).
    { unfold wrap16. apply Z.mod_small. lia. }
    rewrite E16. split; [reflexivity | exact Hq].
Qed.

Lemma readRawADC_mean_in_range_witness :
  readRawADC adc_samples_noisy = fold_left Z.add adc_samples_noisy 0 / 10
  /\ 1995 <= readRawADC adc_samples_noisy <= 2040.
Proof.
  apply (readRawADC_mean_in_range 1995 2040 adc_samples_noisy).
  - reflexivity.
  - lia.
  - cbn. lia.
  - repeat constructor; cbn; lia.
Defined.

Example readRawADC_noisy : readRawADC adc_samples_noisy = 2014.
Proof. reflexivity. Qed.

(** ** Start-up of the drivers *)

Lemma of_uint16_not_nan (n : Z) :
  0 <= n < 2 ^ 16 -> F32.isnan (F32.of_uint n) = false.
Proof.
  intros Hn. apply negb_true_iff.
  apply (check_range_sound 16 0 (fun k => negb (F32.isnan (F32.of_uint k))));
    [vm_compute; reflexivity | exact Hn].
Qed.

Lemma read_timestamp_keeps_channels (i : TickInput) (r : RawReading) :
  ds18b20_temp (snd (read_timestamp i r)) = ds18b20_temp r
  /\ sht40_temp (snd (read_timestamp i r)) = sht40_temp r
  /\ sht40_humidity (snd (read_timestamp i r)) = sht40_humidity r
  /\ sen0193_moisture_raw (snd (read_timestamp i r)) = sen0193_moisture_raw r.
Proof.
  unfold read_timestamp, DS1308Sensor.read.
  destruct (rtcSensor i) as [rtc|]; [|cbn; repeat split].
  destruct (negb (DS1308Sensor.rtcFound rtc)); [cbn; repeat split|].
  destruct ((DateTime.year (rtc_now i) <? 2020)
            || (2100 <? DateTime.year (rtc_now i))); cbn; repeat split.
Qed.

(** X24. A driver whose [begin] failed is left out of [activeSensors] for
    good: in every reading of the run its channel keeps the NaN the reading
    was created with, whatever the hardware answers later.  The soil sensor
    is always active and its channel is never NaN.  [initializeSensors]
    reports success exactly when the clock and every driver started. *)
Theorem failed_driver_channel_stays_nan (init : InitInput)
    (hw : TickHardware) :
  let '(ok, rtc, drivers) := initializeSensors init in
  let r := tick_reading (tick_of rtc drivers hw) in
  (DS18B20_begin (ds_getAddress_ok init) (ds_test_temp init) = false ->
     F32.isnan (ds18b20_temp r) = true)
  /\ (SHT40_begin (sht_begin_ok init) (sht_getEvent_ok init)
        (sht_test_temp init) (sht_test_rh init) = false ->
      F32.isnan (sht40_temp r) = true /\ F32.isnan (sht40_humidity r) = true)
  /\ F32.isnan (sen0193_moisture_raw r) = false
  /\ (ok = true <->
      rtc_begin_ok init = true
      /\ DS18B20_begin (ds_getAddress_ok init) (ds_test_temp init) = true
      /\ SHT40_begin (sht_begin_ok init) (sht_getEvent_ok init)
           (sht_test_temp init) (sht_test_rh init) = true)
  /\ (1 <= List.length drivers <= 3)%nat.
Proof.
  unfold initializeSensors, DS1308_begin, SEN0193_begin.
  pose proof (of_uint16_not_nan (wrap16 (hw_rawValue hw))
                (wrap16_range _)) as Hsoil.
  destruct (rtc_begin_ok init);
  destruct (DS18B20_begin (ds_getAddress_ok init) (ds_test_temp init));
  destruct (SHT40_begin (sht_begin_ok init) (sht_getEvent_ok init)
              (sht_test_temp init) (sht_test_rh init));
  cbn [negb app andb];
  unfold tick_reading, tick_of; cbn [activeSensors map attach];
  match goal with
  | |- context [read_timestamp ?i RawReading_new] =>
      destruct (read_timestamp_keeps_channels i RawReading_new)
        as (K1 & K2 & K3 & K4);
      destruct (snd (read_timestamp i RawReading_new))
        as [ts c1 c2 c3 c4]
  end;
  cbn in K1, K2, K3, K4; subst c1 c2 c3 c4;
  unfold read_sensors; cbn [fold_left sensor_read negb];
  repeat match goal with
         | |- context [if ?b then _ else _] => destruct b
         end;
  cbn [snd fst ds18b20_temp sht40_temp sht40_humidity sen0193_moisture_raw
       List.length];
  (split; [intros; try discriminate; reflexivity|]);
  (split; [intros; try discriminate; split; reflexivity|]);
  (split; [exact Hsoil|]);
  (split; [|lia]);
  (split; [intros H; try discriminate; repeat split; reflexivity
          | intros (H1 & H2 & H3); try discriminate; reflexivity]).
Qed.

Example failed_driver_example :
  initializeSensors init_no_ds18b20
  = (false, Some (DS1308Sensor.mk true), [SHT40_driver; SEN0193_driver])
  /\ tick_reading
       (tick_of (Some (DS1308Sensor.mk true)) [SHT40_driver; SEN0193_driver]
          hw_all_answering)
     = mkRawReading 1709294400 F32.NAN (F32.of_Z 21) (F32.of_Z 40)
         (F32.of_Z 2014).
Proof. vm_compute. split; reflexivity. Qed.

(** X25. The start-up test of the DS18B20 is the validity test of its
    [read]: a test temperature is accepted at start-up exactly when the
    same temperature would be accepted as a reading.  The SHT40 is started
    on a weaker test than its [read] applies: whatever [read] accepts the
    start-up accepts, but a test event outside the sensor's range (200
    degrees) starts the driver although no such reading is ever taken. *)
Theorem begin_test_versus_read :
  (forall temp data,
     DS18B20_begin true temp
     = fst (sensor_read (DS18B20Sensor true temp) data))
  /\ (forall ok t rh data,
        fst (sensor_read (SHT40Sensor true ok t rh) data) = true ->
        SHT40_begin true ok t rh = true)
  /\ SHT40_begin true true (F32.of_Z 200) (F32.of_Z 50) = true
  /\ fst (sensor_read (SHT40Sensor true true (F32.of_Z 200) (F32.of_Z 50))
            RawReading_new) = false.
Proof.
  split; [|split; [|split; reflexivity]].
  - intros temp data. unfold DS18B20_begin. cbn [sensor_read negb].
    destruct (SFeqb temp DEVICE_DISCONNECTED_C); cbn [orb]; [reflexivity|].
    destruct (F32.lt temp (SFopp (F32.of_Z 55)) || F32.gt temp (F32.of_Z 125));
      reflexivity.
  - intros ok t rh data. unfold SHT40_begin. cbn [sensor_read negb].
    destruct ok; cbn [negb]; [|discriminate].
    destruct (F32.isnan t); cbn [orb]; [discriminate|].
    destruct (F32.lt t (SFopp (F32.of_Z 40)) || F32.gt t (F32.of_Z 125));
      [discriminate|].
    destruct (F32.isnan rh); cbn [orb]; [discriminate | reflexivity].
Qed.

Lemma performTimeSync_no_chip (st : TimeSync.state) (status : SystemStatus)
    (a : SyncAttempt) (rtc : DS1308Sensor.t) :
  DS1308Sensor.rtcFound rtc = false ->
  sync_rtc a = Some rtc ->
  exists trace,
    performTimeSync st status a
    = (false, st, set_wifi_connected status false, trace)
    /\ forall ev, In ev trace -> ev = TimeSync.SetTimeCalled (sync_now a).
Proof.
  intros Hnf Hrtc.
  unfold performTimeSync, TimeSync.updateRTCFromNTP, TimeSync.setTime.
  rewrite Hrtc, Hnf.
  destruct (wifi_result a); cbn [negb];
    [|exists []; split; [reflexivity | intros ev []]].
  destruct (ntp_result a); cbn [negb];
    [|exists []; split; [reflexivity | intros ev []]].
  destruct (sync_now a <? TimeSync.NTP_EPOCH_THRESHOLD); cbn [negb];
    [exists []; split; [reflexivity | intros ev []]|].
  exists [TimeSync.SetTimeCalled (sync_now a)].
  split; [reflexivity|]. intros ev [<- | []]. reflexivity.
Qed.

(** X26. A clock chip that was not found at start-up is never looked for
    again: with the object [DS1308Sensor::begin] leaves behind after
    [rtc.begin()] failed, each of the three start-up synchronisation
    attempts fails without writing to the chip, whatever WiFi and NTP
    deliver, and the task goes on unsynchronised with its state as it
    was. *)
Theorem clock_absent_at_boot_never_syncs (envs : list SyncAttempt)
    (st : TimeSync.state) (status : SystemStatus) :
  TimeSync.initialSyncComplete st = false ->
  (3 <= List.length envs)%nat ->
  Forall (fun a => sync_rtc a = Some (snd (DS1308_begin false))) envs ->
  exists r,
    initial_sync envs (mkInitialSync st status 0 0 []) = Some r
    /\ is_attempts r = 3%nat
    /\ is_state r = st
    /\ isTimeSynced (is_state r) = false
    /\ forall ev, In ev (is_trace r) ->
                  exists t, ev = TimeSync.SetTimeCalled t.
Proof.
  intros Hst Hlen Hall.
  destruct envs as [|a1 [|a2 [|a3 rest]]];
    try (cbn [List.length] in Hlen; lia).
  inversion Hall as [|? ? R1 Hall1]; subst.
  inversion Hall1 as [|? ? R2 Hall2]; subst.
  inversion Hall2 as [|? ? R3 _]; subst.
  cbn [DS1308_begin negb snd] in R1, R2, R3.
  unfold isTimeSynced.
  cbn [initial_sync is_state is_status is_attempts is_delays is_trace].
  rewrite Hst. cbn [negb andb]. unfold SYNC_MAX_ATTEMPTS.
  change (0 <? 3)%nat with true. cbn iota.
  destruct (performTimeSync_no_chip st status a1 (DS1308Sensor.mk false)
              eq_refl R1)
    as (t1 & E1 & T1).
  rewrite E1. change (1 <? 3)%nat with true. cbn iota.
  cbn [initial_sync is_state is_status is_attempts is_delays is_trace].
  rewrite Hst. cbn [negb andb]. change (1 <? 3)%nat with true. cbn iota.
  destruct (performTimeSync_no_chip st (set_wifi_connected status false) a2
              (DS1308Sensor.mk false) eq_refl R2) as (t2 & E2 & T2).
  rewrite E2. change (2 <? 3)%nat with true. cbn iota.
  cbn [initial_sync is_state is_status is_attempts is_delays is_trace].
  rewrite Hst. cbn [negb andb]. change (2 <? 3)%nat with true. cbn iota.
  destruct (performTimeSync_no_chip st
              (set_wifi_connected (set_wifi_connected status false) false) a3
              (DS1308Sensor.mk false) eq_refl R3) as (t3 & E3 & T3).
  rewrite E3. change (3 <? 3)%nat with false. cbn iota.
  assert (Hdone : forall r,
            is_attempts r = 3%nat -> initial_sync rest r = Some r).
  { intros r Hr. destruct rest; cbn [initial_sync]; rewrite Hr;
      unfold SYNC_MAX_ATTEMPTS; change (3 <? 3)%nat with false;
      rewrite Bool.andb_false_r; reflexivity. }
  rewrite Hdone by reflexivity.
  eexists. split; [reflexivity|].
  cbn [is_state is_attempts is_trace app].
  repeat split; try assumption.
  intros ev Hin. apply in_app_or in Hin as [Hin | Hin].
  - apply in_app_or in Hin as [Hin | Hin].
    + eexists. apply T1, Hin.
    + eexists. apply T2, Hin.
  - eexists. apply T3, Hin.
Qed.

Lemma clock_absent_at_boot_never_syncs_witness :
  exists r,
    initial_sync [attempt_chip_absent; attempt_chip_absent; attempt_chip_absent]
      (mkInitialSync (TimeSync.mkState 0 false) status_boot 0 0 []) = Some r
    /\ is_attempts r = 3%nat
    /\ is_state r = TimeSync.mkState 0 false
    /\ isTimeSynced (is_state r) = false
    /\ forall ev, In ev (is_trace r) ->
                  exists t, ev = TimeSync.SetTimeCalled t.
Proof.
  apply (clock_absent_at_boot_never_syncs
           [attempt_chip_absent; attempt_chip_absent; attempt_chip_absent]
           (TimeSync.mkState 0 false) status_boot).
  - reflexivity.
  - cbn [List.length]. lia.
  - repeat constructor.
Defined.

Lemma performTimeSync_all_or_nothing_witness :
  let '(ok, st', status', trace) :=
    performTimeSync (TimeSync.mkState 0 false) status_boot attempt_good in
  (ok = true ->
     wifi_result attempt_good = true /\ ntp_result attempt_good = true
     /\ TimeSync.NTP_EPOCH_THRESHOLD <= sync_now attempt_good
     /\ st' = TimeSync.mkState (sync_now attempt_good) true)
  /\ (ok = false -> st' = TimeSync.mkState 0 false)
  /\ (wifi_result attempt_good = false \/ ntp_result attempt_good = false ->
      trace = [])
  /\ wifi_connected status' = false
  /\ mqtt_connected status' = mqtt_connected status_boot
  /\ sd_card_ok status' = sd_card_ok status_boot
  /\ sd_write_errors status' = sd_write_errors status_boot
  /\ mqtt_errors status' = mqtt_errors status_boot.
Proof.
  exact (performTimeSync_all_or_nothing (TimeSync.mkState 0 false)
           status_boot attempt_good).
Defined.

Lemma failed_driver_channel_stays_nan_witness :
  let '(ok, rtc, drivers) := initializeSensors init_no_ds18b20 in
  let r := tick_reading (tick_of rtc drivers hw_all_answering) in
  (DS18B20_begin (ds_getAddress_ok init_no_ds18b20)
     (ds_test_temp init_no_ds18b20) = false ->
     F32.isnan (ds18b20_temp r) = true)
  /\ (SHT40_begin (sht_begin_ok init_no_ds18b20)
        (sht_getEvent_ok init_no_ds18b20)
        (sht_test_temp init_no_ds18b20) (sht_test_rh init_no_ds18b20) = false ->
      F32.isnan (sht40_temp r) = true /\ F32.isnan (sht40_humidity r) = true)
  /\ F32.isnan (sen0193_moisture_raw r) = false
  /\ (ok = true <->
      rtc_begin_ok init_no_ds18b20 = true
      /\ DS18B20_begin (ds_getAddress_ok init_no_ds18b20)
           (ds_test_temp init_no_ds18b20) = true
      /\ SHT40_begin (sht_begin_ok init_no_ds18b20)
           (sht_getEvent_ok init_no_ds18b20)
           (sht_test_temp init_no_ds18b20) (sht_test_rh init_no_ds18b20)
         = true)
  /\ (1 <= List.length drivers <= 3)%nat.
Proof.
  exact (failed_driver_channel_stays_nan init_no_ds18b20 hw_all_answering).
Defined.

(** ** The clock's time string *)



Example getTimeString_example :
  DS1308_getTimeString (DS1308Sensor.mk true) (DateTime.mk 24 3 1 12 0 5)
  = "2024-03-01 12:00:05"%string.
Proof. vm_compute. reflexivity. Qed.

(** ** Error accounting of an upload cycle *)

Lemma drain_counters (script : list PublishEvent) :
  forall q st n q' st' n',
    drain script q st n = Some (q', st', n') ->
    uploadCycles st' = uploadCycles st
    /\ wifi_connected (uploadStatus st') = wifi_connected (uploadStatus st)
    /\ mqtt_connected (uploadStatus st') = mqtt_connected (uploadStatus st)
    /\ sd_write_errors (uploadStatus st') = sd_write_errors (uploadStatus st)
    /\ failure_counters_step st st'.
Proof.
  unfold failure_counters_step.
  induction script as [|ev script IH]; intros q st n q' st' n' E.
  - cbn [drain] in E. destruct (Queue.receive q) as [[data q1]|];
      [discriminate|]. injection E as <- <- <-.
    repeat split. left. split; reflexivity.
  - cbn [drain] in E. destruct (Queue.receive q) as [[data q1]|].
    + destruct (publish_ok ev).
      * apply IH in E. cbn in E. exact E.
      * injection E as <- <- <-. cbn. repeat split. right. split; reflexivity.
    + injection E as <- <- <-. repeat split. left. split; reflexivity.
Qed.

(** X28. What one upload cycle does to the status and the counters: the
    cycle counter advances; [systemStatus.wifi_connected] is left at the
    result of [connectToWiFi] (it still reads true after the cycle has
    disconnected); a WiFi failure is counted nowhere and leaves the queue
    and the MQTT flag alone; an MQTT connection failure leaves the queue
    alone and counts one failure; in every case [failedUploads] and
    [systemStatus.mqtt_errors] move together, by at most one per cycle;
    the storage error counter is never touched. *)
Theorem upload_cycle_error_accounting (wifi_ok mqtt_ok : bool)
    (script : list PublishEvent) (q q' : Queue.t AggregatedData)
    (st st' : UploadState) :
  upload_cycle wifi_ok mqtt_ok script q st = Some (q', st') ->
  uploadCycles st' = wrap32 (uploadCycles st + 1)
  /\ wifi_connected (uploadStatus st') = wifi_ok
  /\ sd_write_errors (uploadStatus st') = sd_write_errors (uploadStatus st)
  /\ failure_counters_step st st'
  /\ (wifi_ok = false ->
      q' = q
      /\ mqtt_connected (uploadStatus st') = mqtt_connected (uploadStatus st)
      /\ failedUploads st' = failedUploads st
      /\ mqtt_errors (uploadStatus st') = mqtt_errors (uploadStatus st)
      /\ attempted st' = attempted st)
  /\ (wifi_ok = true -> mqtt_connected (uploadStatus st') = false)
  /\ (wifi_ok = true -> mqtt_ok = false ->
      q' = q
      /\ failedUploads st' = wrap32 (failedUploads st + 1)
      /\ mqtt_errors (uploadStatus st')
         = wrap32 (mqtt_errors (uploadStatus st) + 1)
      /\ attempted st' = attempted st).
Proof.
  unfold upload_cycle, failure_counters_step. intros E.
  destruct wifi_ok; cbn [negb] in E.
  2:{ injection E as <- <-. cbn. repeat split; try discriminate.
      left. split; reflexivity. }
  destruct mqtt_ok; cbn [negb] in E.
  2:{ injection E as <- <-. cbn. repeat split; try discriminate.
      right. split; reflexivity. }
  destruct (drain script q _ 0) as [[[q1 st1] n1]|] eqn:Ed; [|discriminate].
  injection E as <- <-.
  apply drain_counters in Ed.
  destruct Ed as (Hc & Hw & Hm & Hs & Hf).
  unfold failure_counters_step in Hf. cbn in Hc, Hw, Hm, Hs, Hf. cbn.
  repeat split; try discriminate; assumption.
Qed.

(** WiFi and MQTT connect; the publish of the only record fails. *)
Lemma upload_cycle_error_accounting_witness :
  exists q' st',
    upload_cycle true true [mkPublishEvent false []] one_record_queue
      UploadState_init = Some (q', st')
    /\ uploadCycles st' = wrap32 (uploadCycles UploadState_init + 1)
    /\ wifi_connected (uploadStatus st') = true
    /\ mqtt_connected (uploadStatus st') = false
    /\ failure_counters_step UploadState_init st'.
Proof.
  eexists. eexists. split; [vm_compute; reflexivity|].
  match goal with
  | |- uploadCycles ?s' = _ /\ _ =>
      destruct (upload_cycle_error_accounting true true
                  [mkPublishEvent false []] one_record_queue
                  one_record_queue UploadState_init s')
        as (H1 & H2 & _ & H4 & _ & H6 & _)
  end.
  - vm_compute. reflexivity.
  - repeat split; auto.
Defined.
